(** * SNMP configuration compliance against DNA Center (dnac.py)

    A shallow embedding of the compliance pipeline of [dnac.py]: the task
    poller, the archive extractor, the configuration validator, the template
    generator and the deployment tracker, followed by the properties of the
    pipeline. *)

From Stdlib Require Import String Ascii List Bool Arith ZArith Lia.
From Stdlib Require Import DecimalString.
Import ListNotations.
Open Scope list_scope.
Open Scope string_scope.

(** ** Python strings

    A [str] is modelled as a [string] whose characters are the code points
    below 256. *)

Module PyStr.

(** The line feed, ["\n"] in the source. *)
Definition LF : string := String (ascii_of_nat 10) EmptyString.

(** [c.isspace()] on one code point below 256: tab to carriage return, the
    four separators 0x1c-0x1f, the space, NEL and the no-break space. *)
Definition is_space (c : ascii) : bool :=
  let n := nat_of_ascii c in
  (((9 <=? n) && (n <=? 13)) || ((28 <=? n) && (n <=? 32))
   || (n =? 133) || (n =? 160))%nat.

(** [s.lstrip()] *)
Fixpoint lstrip (s : string) : string :=
  match s with
  | EmptyString => EmptyString
  | String c t => if is_space c then lstrip t else s
  end.

(** [s.rstrip()] *)
Fixpoint rstrip (s : string) : string :=
  match s with
  | EmptyString => EmptyString
  | String c t =>
      match rstrip t with
      | EmptyString => if is_space c then EmptyString else String c EmptyString
      | t' => String c t'
      end
  end.

(** [s.strip()] *)
Definition strip (s : string) : string := rstrip (lstrip s).

(** [needle in hay] *)
Fixpoint str_in (needle hay : string) {struct hay} : bool :=
  prefix needle hay
  || match hay with
     | EmptyString => false
     | String _ t => str_in needle t
     end.

(** [s.endswith(suffix)] *)
Fixpoint endswith (s suffix : string) {struct s} : bool :=
  (s =? suffix)
  || match s with
     | EmptyString => false
     | String _ t => endswith t suffix
     end.

(** [sep.join(ls)] *)
Definition join (sep : string) (ls : list string) : string :=
  String.concat sep ls.

(** [s.split(sep)] for a separator of one character. *)
Fixpoint split (sep : ascii) (s : string) : list string :=
  match s with
  | EmptyString => [EmptyString]
  | String c t =>
      if Ascii.eqb c sep then EmptyString :: split sep t
      else match split sep t with
           | x :: r => String c x :: r
           | [] => [String c EmptyString]
           end
  end.

(** [str(n)] for a natural number. *)
Definition str_of_nat (n : nat) : string :=
  NilEmpty.string_of_uint (Nat.to_uint n).

(** [string.ascii_letters] and [string.digits] *)
Definition ascii_letters : string :=
  "abcdefghijklmnopqrstuvwxyzABCDEFGHIJKLMNOPQRSTUVWXYZ".
Definition digits : string := "0123456789".

(** A character is an ASCII letter or digit. *)
Definition is_alnum (c : ascii) : bool :=
  let n := nat_of_ascii c in
  (((48 <=? n) && (n <=? 57)) || ((65 <=? n) && (n <=? 90))
   || ((97 <=? n) && (n <=? 122)))%nat.

(** [h] contains [n] as a contiguous substring. *)
Definition Substring (n h : string) : Prop :=
  exists pre post, h = pre ++ n ++ post.

End PyStr.
Import PyStr.

(** ** The archive passphrase (lines 75-78)

    [secrets.choice(seq)] returns [seq[k]] for a random index [k] below
    [len(seq)]; the operating system's entropy is a sequence of numbers, the
    [i]-th draw being reduced below the length. *)

Definition secrets_choice (draw : nat) (seq : string) : string :=
  match String.get (draw mod String.length seq) seq with
  | Some c => String c EmptyString
  | None => EmptyString
  end.

Definition ARCHIVE_SECRET (entropy : nat -> nat) : string :=
  join EmptyString
    (map (fun i => secrets_choice (entropy i) (ascii_letters ++ digits))
       (seq 0 16))
  ++ "!".

(** ** Python dictionaries

    A [dict] keeps its keys in insertion order; assigning to a key that is
    present replaces the value in place. *)

Module Dict.

Definition dict (V : Type) : Type := list (string * V).

(** [list(d)]: the keys, in insertion order. *)
Definition keys {V} (d : dict V) : list string := map fst d.

(** [d[k]], [None] standing for [KeyError]. *)
Fixpoint dict_get {V} (d : dict V) (k : string) : option V :=
  match d with
  | [] => None
  | (k', v) :: r => if (k =? k')%string then Some v else dict_get r k
  end.

(** [d[k] = v] *)
Fixpoint dict_set {V} (d : dict V) (k : string) (v : V) : dict V :=
  match d with
  | [] => [(k, v)]
  | (k', v') :: r =>
      if (k =? k')%string then (k', v) :: r else (k', v') :: dict_set r k v
  end.

(** [d[k]] mutated in place by [f]: the object stored under [k] changes,
    the keys do not. *)
Fixpoint dict_adjust {V} (f : V -> V) (d : dict V) (k : string) : dict V :=
  match d with
  | [] => []
  | (k', v) :: r =>
      if (k =? k')%string then (k', f v) :: r
      else (k', v) :: dict_adjust f r k
  end.

End Dict.
Import Dict.

(** ** Data *)

(** One entry of [devices.response]. *)
Record device : Type := mkDevice {
  dev_id : string;
  managementIpAddress : string;
  family : string;
  series : string
}.

(** The value stored in [target_devices] under a management address:
    [{"id": ...}], to which [run] may add the key ["bad_config"]. *)
Record device_record : Type := mkRecord {
  rec_id : string;
  bad_config : option (list string)
}.

(** One entry of [deployable_devices]:
    [{"id": ..., "type": ..., "params": {...}}]. *)
Record deploy_target : Type := mkTarget {
  t_id : string;
  t_type : string;
  t_params : dict string
}.

(** The handle of an asynchronous task and the payload of one status query
    ([task_status["response"]]); [endTime] is absent or null until the task
    completes. *)
Record task : Type := mkTask { taskId : string }.

Record task_status : Type := mkTaskStatus {
  progress : string;
  endTime : option Z;
  additionalStatusURL : string
}.

(** The payload of one deployment status query. *)
Record deployment_status : Type := mkDeployStatus {
  status : string;
  detail : string
}.

(** Truth value of [task_status["response"]["endTime"]]. *)
Definition truthy (v : option Z) : bool :=
  match v with
  | None => false
  | Some z => negb (z =? 0)%Z
  end.

(** ** Effects

    The script prints to a console, sleeps, queries the controller and
    unpacks an archive. The world records what has been observed of each. *)

Inductive event : Type :=
| ConsolePrint (text : string)
    (* console.print(text) *)
| ConsolePrintEscaped (markup text : string)
    (* console.print(f"{markup}{escape(text)}") *)
| ConsoleStatus (text : string)
    (* with console.status(text) *)
| StatusUpdate (text : string)
    (* status.update(text) *)
| PPrint (response : deployment_status)
    (* pprint(response) *).

Record World : Type := mkWorld {
  console : list event;       (* what was shown, oldest first *)
  task_polls : nat;           (* calls of get_task_by_id so far *)
  deploy_polls : nat;         (* calls of get_template_deployment_status *)
  slept : nat;                (* seconds spent in sleep *)
  unpacked : list string;     (* archives extracted into configfiles *)
  submitted : list (string * list deploy_target)  (* deploy_template calls *)
}.

Inductive exn : Type :=
| UnboundLocalError
| FileNotFoundError
| OSError
| RuntimeError
| BadZipFile.

Inductive result (A : Type) : Type :=
| Ret (a : A)              (* normal return *)
| Raise (e : exn)          (* uncaught exception *)
| SysExit (code : Z)       (* sys.exit(code) *)
| OutOfFuel                (* the loop is still running *).
Arguments Ret {A} a.
Arguments Raise {A} e.
Arguments SysExit {A} code.
Arguments OutOfFuel {A}.

Definition M (A : Type) : Type := World -> result A * World.

Definition ret {A} (a : A) : M A := fun w => (Ret a, w).

Definition bind {A B} (c : M A) (k : A -> M B) : M B :=
  fun w =>
    match c w with
    | (Ret a, w') => k a w'
    | (Raise e, w') => (Raise e, w')
    | (SysExit n, w') => (SysExit n, w')
    | (OutOfFuel, w') => (OutOfFuel, w')
    end.

Notation "x <- c1 ;; c2" := (bind c1 (fun x => c2))
  (at level 61, c1 at next level, right associativity).
Notation "c1 ;; c2" := (bind c1 (fun _ => c2))
  (at level 61, right associativity).

Definition raise {A} (e : exn) : M A := fun w => (Raise e, w).
Definition sys_exit {A} (code : Z) : M A := fun w => (SysExit code, w).
Definition out_of_fuel {A} : M A := fun w => (OutOfFuel, w).

Definition emit (e : event) : M unit :=
  fun w =>
    (Ret tt,
     mkWorld (console w ++ [e]) (task_polls w) (deploy_polls w) (slept w)
       (unpacked w) (submitted w)).

Definition console_print (text : string) : M unit := emit (ConsolePrint text).
Definition console_print_escaped (markup text : string) : M unit :=
  emit (ConsolePrintEscaped markup text).
Definition console_status (text : string) : M unit :=
  emit (ConsoleStatus text).
Definition status_update (text : string) : M unit := emit (StatusUpdate text).
Definition pprint (response : deployment_status) : M unit :=
  emit (PPrint response).

Definition sleep (seconds : nat) : M unit :=
  fun w =>
    (Ret tt,
     mkWorld (console w) (task_polls w) (deploy_polls w) (slept w + seconds)
       (unpacked w) (submitted w)).

(** [try: c except RuntimeError: handler] *)
Definition try_except_RuntimeError {A} (c handler : M A) : M A :=
  fun w =>
    match c w with
    | (Raise RuntimeError, w') => handler w'
    | other => other
    end.

(** [for x in l: s = f(s, x)] with effects. *)
Fixpoint foldM {A S} (f : S -> A -> M S) (l : list A) (s : S) : M S :=
  match l with
  | [] => ret s
  | x :: r => s' <- f s x ;; foldM f r s'
  end.

Definition initial_world : World := mkWorld [] 0 0 0 [] [].

(** ** The script *)

Section Script.

(** The required parameters (lines 41-69). *)
Variable VALID_SNMP_SERVER_HOST : string.
Variable VALID_SNMP_SERVER_COMMUNITY : string.
Variable NEW_CONFIG : string.
Variable LOCATION_FILTER : list string.

(** The entropy behind [secrets.choice]. *)
Variable entropy : nat -> nat.

(** The controller: the answer to the [n]-th status query of a task and of
    a deployment, the identifier a deployment is given, and the location in
    a device's detail. *)
Variable dnac_task_answers : string -> nat -> task_status.
Variable dnac_deployment_answers : string -> nat -> deployment_status.
Variable dnac_deploymentId : string -> list deploy_target -> string.
Variable dnac_device_location : string -> string.

(** The local files: [os.listdir(path)], the lines read from a text file
    ([None]: the call raises), and what [pyzipper] does with an archive
    ([None]: no exception, otherwise the exception raised). *)
Variable os_listdir : string -> option (list string).
Variable open_lines : string -> option (list string).
Variable pyzipper_open : string -> option exn.
Variable pyzipper_extractall : string -> string -> option exn.

(** [dnac.task.get_task_by_id(id)] *)
Definition get_task_by_id (id : string) : M task_status :=
  fun w =>
    (Ret (dnac_task_answers id (task_polls w)),
     mkWorld (console w) (S (task_polls w)) (deploy_polls w) (slept w)
       (unpacked w) (submitted w)).

(** [dnac.configuration_templates.get_template_deployment_status] *)
Definition get_template_deployment_status (deployment_id : string)
  : M deployment_status :=
  fun w =>
    (Ret (dnac_deployment_answers deployment_id (deploy_polls w)),
     mkWorld (console w) (task_polls w) (S (deploy_polls w)) (slept w)
       (unpacked w) (submitted w)).

(** [dnac.configuration_templates.deploy_template]; the result is its
    [deploymentId]. *)
Definition deploy_template (templateId : string)
    (targetInfo : list deploy_target) : M string :=
  fun w =>
    (Ret (dnac_deploymentId templateId targetInfo),
     mkWorld (console w) (task_polls w) (deploy_polls w) (slept w)
       (unpacked w) (submitted w ++ [(templateId, targetInfo)])).

(** [zip.extractall(path="configfiles", pwd=...)] on an opened archive. *)
Definition extractall (file pwd : string) : M unit :=
  fun w =>
    match pyzipper_extractall file pwd with
    | Some e => (Raise e, w)
    | None =>
        (Ret tt,
         mkWorld (console w) (task_polls w) (deploy_polls w) (slept w)
           (unpacked w ++ [file]) (submitted w))
    end.

(** *** checkTaskStatus (lines 98-119) *)

Fixpoint checkTaskStatus (fuel : nat) (task : task) : M task_status :=
  match fuel with
  | 0 => out_of_fuel
  | S fuel' =>
      console_status
        "Waiting for task to finish. Current status: Not Started" ;;
      task_status <- get_task_by_id (taskId task) ;;
      status_update
        ("Waiting for task to finish. Current status: "
         ++ progress task_status) ;;
      if truthy (endTime task_status) then
        console_print "[green][bold]Task finsished!" ;;
        ret task_status
      else
        sleep 3 ;;
        checkTaskStatus fuel' task
  end.

(** *** unzipConfigFile (lines 140-163)

    [directory] is the result of [os.listdir()]. [target_file] is bound by
    the loop only when a name matches. *)

Definition unzip_target_file (directory : list string) : option string :=
  fold_left
    (fun target_file file =>
       if str_in "Export_Configs" file then Some file else target_file)
    directory None.

Definition unzipConfigFile (directory : list string) : M unit :=
  console_status "Unzipping config files..." ;;
  match unzip_target_file directory with
  | None => raise UnboundLocalError
  | Some target_file =>
      match pyzipper_open target_file with
      | Some e => raise e
      | None =>
          try_except_RuntimeError
            (extractall target_file (ARCHIVE_SECRET entropy))
            (console_print
               "[red][bold]Failed to unzip files. Please make sure any old config archives are deleted prior to running this script" ;;
             sys_exit 1%Z) ;;
          console_print "[green][bold]Unzip Complete!"
      end
  end.

(** *** validate_snmp_config (lines 166-208) *)

(** The tests of lines 187 and 189-190. *)
Definition is_snmp_host_line (line : string) : bool :=
  str_in "snmp-server host" (strip line).

Definition is_valid_line (line : string) : bool :=
  str_in VALID_SNMP_SERVER_HOST line
  && str_in VALID_SNMP_SERVER_COMMUNITY line.

(** The body of the loop over the lines; the state is
    [(config_found, bad_config)]. *)
Definition validate_line (st : bool * list string) (line : string)
  : M (bool * list string) :=
  let '(config_found, bad_config) := st in
  if is_snmp_host_line line then
    if is_valid_line line then
      console_print_escaped
        "[green][bold]Config valid[/bold][/green]: " (strip line) ;;
      ret (true, bad_config)
    else
      console_print_escaped
        "[yellow][bold]Config invalid[/bold][/yellow]: " (strip line) ;;
      ret (true, (bad_config ++ [strip line])%list)
  else ret st.

(** The loop of lines 181-183: the last matching name wins. *)
Definition running_config_of (path : string) (files : list string)
  : option string :=
  fold_left
    (fun running_config file =>
       if endswith file "RUNNINGCONFIG.cfg" then Some (path ++ file)
       else running_config)
    files None.

Definition validate_snmp_config (device_ip : string) : M (list string) :=
  console_print ("Reading config for device at " ++ device_ip) ;;
  let path := "./configfiles/" ++ device_ip ++ "/" in
  match os_listdir path with
  | None => raise FileNotFoundError
  | Some files =>
      match running_config_of path files with
      | None => raise UnboundLocalError
      | Some running_config =>
          match open_lines running_config with
          | None => raise OSError
          | Some config =>
              st <- foldM validate_line config (false, []) ;;
              (if fst st then ret tt
               else
                 console_print
                   "[yellow][bold]No matching config found for device.[/bold][/yellow]") ;;
              console_print EmptyString ;;
              ret (snd st)
          end
      end
  end.

(** *** generateTemplatePayload (lines 229-260) *)

Definition guard_open (device : string) : string :=
  "#if($device_ip == '" ++ device ++ "')".

Definition negate (config_item : string) : string := "no " ++ config_item.

(** What one iteration of the loop of line 245 appends; [device] is a key
    of [device_list], so that [device_list[device]] is defined. *)
Definition template_block (device_list : dict device_record)
    (device : string) : list string :=
  match dict_get device_list device with
  | Some r =>
      match bad_config r with
      | Some items =>
          (guard_open device :: map negate items ++ ["#end"; EmptyString])%list
      | None => []
      end
  | None => []
  end.

(** The list [template_payload] just before it is joined (line 258). *)
Definition template_lines (device_list : dict device_record) : list string :=
  (fold_left
     (fun template_payload device =>
        template_payload ++ template_block device_list device)
     (keys device_list) []
   ++ [NEW_CONFIG])%list.

Definition generateTemplatePayload (device_list : dict device_record)
  : M string :=
  console_status "Generating template payload..." ;;
  let template_payload := template_lines device_list in
  let template_payload := join LF template_payload in
  console_print "[green][bold]Template generated!" ;;
  ret template_payload.

(** *** deployTemplate (lines 315-348) *)

Fixpoint deployTemplate_loop (fuel : nat) (deploy_id : string) : M unit :=
  match fuel with
  | 0 => out_of_fuel
  | S fuel' =>
      response <- get_template_deployment_status deploy_id ;;
      status_update ("Current status: " ++ status response) ;;
      if (status response =? "SUCCESS")%string then
        console_print "[green][bold]Deployment complete!"
      else
        (if (status response =? "FAILURE")%string then
           console_print "[red][bold]Deployment Failed! See below for errors:" ;;
           pprint response
         else ret tt) ;;
        sleep 3 ;;
        deployTemplate_loop fuel' deploy_id
  end.

Definition deployTemplate (fuel : nat) (template_id : string)
    (device_list : list deploy_target) : M unit :=
  console_print
    ("Deploying template to " ++ str_of_nat (List.length device_list)
     ++ " devices.") ;;
  console_status "Starting deployment..." ;;
  sleep 2 ;;
  deploymentId <- deploy_template template_id device_list ;;
  let deploy_id := strip (last (split ":" deploymentId) EmptyString) in
  deployTemplate_loop fuel deploy_id.

(** *** run (lines 351-470): the steps between the remote calls *)

(** Lines 362-373: the dictionary from management address to record. *)
Definition run_target_devices (devices : list device) : dict device_record :=
  fold_left
    (fun target_devices device =>
       if (1 <=? List.length LOCATION_FILTER)%nat
          && negb (existsb (String.eqb (dnac_device_location (dev_id device)))
                     LOCATION_FILTER)
       then target_devices
       else
         dict_set target_devices (managementIpAddress device)
           (mkRecord (dev_id device) None))
    devices [].

(** Lines 419-425: the entry appended for [device]. *)
Definition deployable_entry (device : string) : deploy_target :=
  mkTarget device "MANAGED_DEVICE_IP" [("device_ip", device)].

(** Lines 411-425: the body of the loop over [target_devices]; the state is
    [(target_devices, deployable_devices)]. *)
Definition run_validate_device
    (st : dict device_record * list deploy_target) (device : string)
  : M (dict device_record * list deploy_target) :=
  let '(target_devices, deployable_devices) := st in
  result <- validate_snmp_config device ;;
  let target_devices :=
    match result with
    | [] => target_devices
    | _ :: _ =>
        dict_adjust (fun r => mkRecord (rec_id r) (Some result))
          target_devices device
    end in
  ret (target_devices, (deployable_devices ++ [deployable_entry device])%list).

Definition run_validate (target_devices : dict device_record)
  : M (dict device_record * list deploy_target) :=
  foldM run_validate_device (keys target_devices) (target_devices, []).

(** Lines 411-435: validation of every device, then the template. *)
Definition run_template (devices : list device)
  : M (string * list deploy_target) :=
  st <- run_validate (run_target_devices devices) ;;
  template_payload <- generateTemplatePayload (fst st) ;;
  ret (template_payload, snd st).

End Script.

(** ** Notions used by the properties *)

(** The [n]-th character of the alphabet of the passphrase is a letter or
    a digit. *)
Definition alphabet_ok (n : nat) : bool :=
  match String.get n (ascii_letters ++ digits) with
  | Some c =>
      is_alnum c
      && existsb (Ascii.eqb c) (list_ascii_of_string (ascii_letters ++ digits))
  | None => false
  end.

(** A task that completes on the third query. *)
Definition running_task : task_status :=
  mkTaskStatus "Export in progress" None EmptyString.
Definition finished_task : task_status :=
  mkTaskStatus "Export complete" (Some 1667559600000%Z)
    "/dna/intent/api/v1/file/5f1c".
Definition third_poll_answers (_ : string) (n : nat) : task_status :=
  if (n <? 2)%nat then running_task else finished_task.

(** A deployment reported as SUBMITTED twice and as FAILURE from then on. *)
Definition failure_payload : deployment_status :=
  mkDeployStatus "FAILURE" "Device unreachable".
Definition failing_deployment (_ : string) (n : nat) : deployment_status :=
  if (n <? 2)%nat then mkDeployStatus "SUBMITTED" EmptyString
  else failure_payload.
Definition some_deploymentId (_ : string) (_ : list deploy_target) : string :=
  "Template Deployemnt Id: 7d4e ".

(** The names of a directory listing that carry the marker of the exported
    bundle, and the last of them. *)
Definition bundles (directory : list string) : list string :=
  filter (str_in "Export_Configs") directory.

Definition last_bundle (directory : list string) : option string :=
  last (map Some (bundles directory)) None.

(** A directory that holds the bundle of an earlier run next to the new
    one, and a [pyzipper] that opens and extracts whatever it is given. *)
Definition two_bundles : list string :=
  ["dnac.py"; "Export_Configs_2022-11-03.zip"; "README.md";
   "Export_Configs_2022-11-04.zip"].
Definition opens_any (_ : string) : option exn := None.
Definition extracts_any (_ _ : string) : option exn := None.

(** The lines of the running configuration that [validate_snmp_config]
    reads for a device, when it finds and opens the file. *)
Definition running_config_lines (os_listdir open_lines : string -> option (list string))
    (device_ip : string) : option (list string) :=
  let path := "./configfiles/" ++ device_ip ++ "/" in
  match os_listdir path with
  | None => None
  | Some files =>
      match running_config_of path files with
      | None => None
      | Some running_config => open_lines running_config
      end
  end.

(** The branch of lines 188-202 taken for a selected line, and what is
    printed in it. *)
Inductive verdict : Type := Compliant | NonCompliant.

Definition classify (host community line : string) : verdict :=
  if is_valid_line host community line then Compliant else NonCompliant.

Definition verdict_event (host community line : string) : event :=
  match classify host community line with
  | Compliant =>
      ConsolePrintEscaped
        "[green][bold]Config valid[/bold][/green]: " (strip line)
  | NonCompliant =>
      ConsolePrintEscaped
        "[yellow][bold]Config invalid[/bold][/yellow]: " (strip line)
  end.

(** The selected lines that fail the test, stripped, in file order. *)
Definition bad_lines (host community : string) (config : list string)
  : list string :=
  map strip
    (filter
       (fun line =>
          is_snmp_host_line line && negb (is_valid_line host community line))
       config).

(** Every character of [s] is white space. *)
Definition all_space (s : string) : Prop :=
  Forall (fun c => is_space c = true) (list_ascii_of_string s).

(** What [validate_snmp_config] prints for a device whose running
    configuration has the lines [config]. *)
Definition validation_output (host community device_ip : string)
    (config : list string) : list event :=
  (ConsolePrint ("Reading config for device at " ++ device_ip)
   :: map (verdict_event host community) (filter is_snmp_host_line config)
   ++ (if existsb is_snmp_host_line config then []
       else
         [ConsolePrint
            "[yellow][bold]No matching config found for device.[/bold][/yellow]"])
   ++ [ConsolePrint EmptyString])%list.

(** The world after some more console output. *)
Definition shown (w : World) (output : list event) : World :=
  mkWorld (console w ++ output) (task_polls w) (deploy_polls w) (slept w)
    (unpacked w) (submitted w).

(** The extracted files of one device, whose running configuration names a
    wrong host and a wrong community. *)
Definition one_device_config : list string :=
  ["hostname edge-1" ++ LF;
   " snmp-server host 10.0.0.1 community wrongcomm" ++ LF;
   "end" ++ LF].
Definition one_device_listdir (path : string) : option (list string) :=
  if (path =? "./configfiles/10.0.0.1/")%string
  then Some ["10.0.0.1_STARTUPCONFIG.cfg"; "10.0.0.1_RUNNINGCONFIG.cfg"]
  else None.
Definition one_device_lines (file : string) : option (list string) :=
  if (file =? "./configfiles/10.0.0.1/10.0.0.1_RUNNINGCONFIG.cfg")%string
  then Some one_device_config
  else None.

(** The findings of a device: what [validate_snmp_config] returns for it
    (nothing when no running configuration can be read). *)
Definition findings (host community : string)
    (os_listdir open_lines : string -> option (list string))
    (device : string) : list string :=
  match running_config_lines os_listdir open_lines device with
  | Some config => bad_lines host community config
  | None => []
  end.

(** What lines 414-417 do to [target_devices] for one device. *)
Definition attach_findings (host community : string)
    (os_listdir open_lines : string -> option (list string))
    (target_devices : dict device_record) (device : string)
  : dict device_record :=
  match findings host community os_listdir open_lines device with
  | [] => target_devices
  | _ :: _ =>
      dict_adjust
        (fun r =>
           mkRecord (rec_id r)
             (Some (findings host community os_listdir open_lines device)))
        target_devices device
  end.

(** A guard block for [device]: the opening directive with its address, the
    removal directives, the closing directive and the blank line. *)
Definition in_guard_block (device : string) (lines : list string) : Prop :=
  exists before items after,
    lines
    = (before
       ++ guard_open device
          :: map negate items ++ "#end" :: EmptyString :: after)%list.

(** The last line that is not empty, if there is one. *)
Definition final_nonempty_line (lines : list string) : option string :=
  last
    (map Some (filter (fun l => negb (l =? EmptyString)%string) lines))
    None.

(** What the template depends on: the addresses in order, each with its
    findings if it has any attached. *)
Definition findings_view (device_list : dict device_record)
  : list (string * option (list string)) :=
  map (fun kv => (fst kv, bad_config (snd kv))) device_list.

(** A mapping with one device that carries a finding, and the same device
    as another discovery would identify it. *)
Definition flagged_device : dict device_record :=
  [("10.0.0.1",
    mkRecord "uuid-1" (Some ["snmp-server host 10.0.0.1 community wrongcomm"]))].
Definition flagged_device_again : dict device_record :=
  [("10.0.0.1",
    mkRecord "uuid-9" (Some ["snmp-server host 10.0.0.1 community wrongcomm"]))].

(** A mapping of two devices without findings. *)
Definition compliant_devices : dict device_record :=
  [("10.0.0.2", mkRecord "uuid-2" None); ("10.0.0.3", mkRecord "uuid-3" None)].

(** A fleet of two devices: the first as above, the second with the
    expected host and community. *)
Definition fleet : list device :=
  [mkDevice "uuid-1" "10.0.0.1" "Switches and Hubs"
     "Cisco Catalyst 9300 Series Switches";
   mkDevice "uuid-2" "10.0.0.2" "Switches and Hubs"
     "Cisco Catalyst 9300 Series Switches"].
Definition fleet_listdir (path : string) : option (list string) :=
  if (path =? "./configfiles/10.0.0.1/")%string
  then Some ["10.0.0.1_STARTUPCONFIG.cfg"; "10.0.0.1_RUNNINGCONFIG.cfg"]
  else if (path =? "./configfiles/10.0.0.2/")%string
  then Some ["10.0.0.2_RUNNINGCONFIG.cfg"]
  else None.
Definition fleet_lines (file : string) : option (list string) :=
  if (file =? "./configfiles/10.0.0.1/10.0.0.1_RUNNINGCONFIG.cfg")%string
  then Some one_device_config
  else if (file =? "./configfiles/10.0.0.2/10.0.0.2_RUNNINGCONFIG.cfg")%string
  then Some ["hostname edge-2" ++ LF;
             "snmp-server host 10.0.0.2 community public" ++ LF]
  else None.
Definition no_location (_ : string) : string := EmptyString.

(** ** Further notions used by the properties *)

(** What [checkTaskStatus] shows for [count] queries from query number
    [first] on: the status line, then the progress of the answer. *)
Definition poll_output (answers : string -> nat -> task_status) (id : string)
    (first count : nat) : list event :=
  flat_map
    (fun n =>
       [ConsoleStatus
          "Waiting for task to finish. Current status: Not Started";
        StatusUpdate
          ("Waiting for task to finish. Current status: "
           ++ progress (answers id n))])
    (seq first count).

(** The test of lines 365-371: the device is kept. *)
Definition passes_location (LOCATION_FILTER : list string)
    (dnac_device_location : string -> string) (d : device) : bool :=
  negb
    ((1 <=? List.length LOCATION_FILTER)%nat
     && negb (existsb (String.eqb (dnac_device_location (dev_id d)))
                LOCATION_FILTER)).

(** A task that never completes, and a deployment that succeeds on the
    fourth query after one reported failure. *)
Definition endless_answers (_ : string) (_ : nat) : task_status :=
  running_task.
Definition late_success (_ : string) (n : nat) : deployment_status :=
  if (n <? 2)%nat then mkDeployStatus "SUBMITTED" EmptyString
  else if (n =? 2)%nat then failure_payload
  else mkDeployStatus "SUCCESS" EmptyString.
Definition stuck_deployment (_ : string) (_ : nat) : deployment_status :=
  mkDeployStatus "IN_PROGRESS" EmptyString.

(** A device directory that still holds the running configuration of an
    earlier export. *)
Definition stale_listdir (path : string) : option (list string) :=
  if (path =? "./configfiles/10.0.0.1/")%string
  then Some ["10.0.0.1_old_RUNNINGCONFIG.cfg"; "10.0.0.1_RUNNINGCONFIG.cfg";
             "notes.txt"]
  else None.

(** A mapping of a compliant device between two devices with findings. *)
Definition mixed_devices : dict device_record :=
  [("10.0.0.1",
    mkRecord "uuid-1" (Some ["snmp-server host 10.0.0.1 community wrongcomm"]));
   ("10.0.0.2", mkRecord "uuid-2" None);
   ("10.0.0.3",
    mkRecord "uuid-3"
      (Some ["snmp-server host 10.9.9.9 community public";
             "snmp-server host 10.0.0.2 community old"]))].

(** One step of the loop of lines 363-373. *)
Definition target_step (LOCATION_FILTER : list string)
    (dnac_device_location : string -> string)
    (target_devices : dict device_record) (dev : device)
  : dict device_record :=
  if passes_location LOCATION_FILTER dnac_device_location dev
  then dict_set target_devices (managementIpAddress dev)
         (mkRecord (dev_id dev) None)
  else target_devices.

(** A device list in which the first address is given again, with another
    identifier. *)
Definition readdressed_fleet : list device :=
  [mkDevice "uuid-1" "10.0.0.1" "Switches and Hubs"
     "Cisco Catalyst 9300 Series Switches";
   mkDevice "uuid-2" "10.0.0.2" "Switches and Hubs"
     "Cisco Catalyst 9300 Series Switches";
   mkDevice "uuid-7" "10.0.0.1" "Routers"
     "Cisco 4000 Series Integrated Services Routers"].


(** The dictionary and the targets that the validation of the fleet
    returns. *)
Definition fleet_validated : dict device_record * list deploy_target :=
  match
    fst (run_validate "10.0.0.2" "public" fleet_listdir fleet_lines
           (run_target_devices [] no_location fleet) initial_world)
  with
  | Ret st => st
  | _ => ([], [])
  end.

(** ** The rest of the script: the session with the controller

    The functions that follow create, download and confirm. The session
    holds the world of the functions above and, beside it, what the
    controller and the operator have been asked. *)

(** A template as a project lists it, a project as [get_projects] returns
    it, and the arguments of [create_template]. *)
Record template_entry : Type := mkTemplate {
  tpl_name : string;
  tpl_id : string
}.

Record project : Type := mkProject {
  proj_id : string;
  proj_templates : list template_entry
}.

Record template_request : Type := mkRequest {
  req_project_id : string;
  req_name : string;
  req_softwareType : string;
  req_deviceTypes : list (string * string);  (* productFamily, productSeries *)
  req_content : string;                      (* payload["templateContent"] *)
  req_version : string;
  req_language : string
}.

Record Session : Type := mkSession {
  world : World;
  exported : list (list string * string);  (* exports: deviceId, password *)
  downloaded : list string;                (* file ids saved to disk *)
  project_queries : nat;                   (* calls of get_projects so far *)
  created : list template_request;         (* templates created *)
  versioned : list string;                 (* templateIds committed *)
  asked : list string                      (* questions of Confirm.ask *)
}.

Inductive exception : Type :=
| Builtin (e : exn)
| ApiError
| ConnectionError
| IndexError.

Inductive outcome (A : Type) : Type :=
| Done (a : A)              (* normal return *)
| Raised (e : exception)    (* uncaught exception *)
| Exited (code : Z)         (* sys.exit(code) *)
| Running                   (* a loop is still running *).
Arguments Done {A} a.
Arguments Raised {A} e.
Arguments Exited {A} code.
Arguments Running {A}.

Definition N (A : Type) : Type := Session -> outcome A * Session.

Definition retN {A} (a : A) : N A := fun s => (Done a, s).

Definition bindN {A B} (c : N A) (k : A -> N B) : N B :=
  fun s =>
    match c s with
    | (Done a, s') => k a s'
    | (Raised e, s') => (Raised e, s')
    | (Exited n, s') => (Exited n, s')
    | (Running, s') => (Running, s')
    end.

Notation "x <~ c1 ;; c2" := (bindN c1 (fun x => c2))
  (at level 61, c1 at next level, right associativity).
Notation "c1 ;;; c2" := (bindN c1 (fun _ => c2))
  (at level 61, right associativity).

Definition raiseN {A} (e : exception) : N A := fun s => (Raised e, s).
Definition exitN {A} (code : Z) : N A := fun s => (Exited code, s).

Definition with_world (s : Session) (w : World) : Session :=
  mkSession w (exported s) (downloaded s) (project_queries s) (created s)
    (versioned s) (asked s).

(** A function of the first part, run in the session. *)
Definition lift {A} (c : M A) : N A :=
  fun s =>
    match c (world s) with
    | (Ret a, w) => (Done a, with_world s w)
    | (Raise e, w) => (Raised (Builtin e), with_world s w)
    | (SysExit n, w) => (Exited n, with_world s w)
    | (OutOfFuel, w) => (Running, with_world s w)
    end.

(** [try: c except ApiError: handler] *)
Definition try_except_ApiError {A} (c handler : N A) : N A :=
  fun s =>
    match c s with
    | (Raised ApiError, s') => handler s'
    | other => other
    end.

(** [console.print(Panel.fit(text, title=title))]: the panel is shown as
    its title and its text. *)
Definition console_panel (text title : string) : M unit :=
  console_print (title ++ ": " ++ text).

Definition initial_session : Session :=
  mkSession initial_world [] [] 0 [] [] [].

Section Session.

(** The required parameters (lines 41-69), the entropy, the controller of
    the first part and the local files, as above. *)
Variable DNAC_URL : string.
Variable VALID_SNMP_SERVER_HOST : string.
Variable VALID_SNMP_SERVER_COMMUNITY : string.
Variable NEW_CONFIG : string.
Variable PROJECT_NAME : string.
Variable TEMPLATE_NAME : string.
Variable LOCATION_FILTER : list string.
Variable entropy : nat -> nat.
Variable dnac_task_answers : string -> nat -> task_status.
Variable dnac_deployment_answers : string -> nat -> deployment_status.
Variable dnac_deploymentId : string -> list deploy_target -> string.
Variable dnac_device_location : string -> string.
Variable os_listdir : string -> option (list string).
Variable open_lines : string -> option (list string).
Variable pyzipper_open : string -> option exn.
Variable pyzipper_extractall : string -> string -> option exn.

(** The rest of the controller: whether [api.DNACenterAPI] connects
    ([None]) or raises, the devices that [get_device_list] returns for
    [DEVICE_FILTER], the task that an export is given, the projects that
    the [n]-th call of [get_projects] returns, and whether
    [create_template] accepts a request ([None]) or raises. *)
Variable dnac_connect : option exception.
Variable dnac_device_list : list device.
Variable dnac_export_task : list string -> string -> task.
Variable dnac_projects : nat -> string -> list project.
Variable dnac_create_template : template_request -> option exception.

(** The working directory when the archive is looked for ([os.listdir()]),
    and the operator's answer to each question of [Confirm.ask]. *)
Variable working_directory : list string.
Variable operator : string -> bool.

(** [dnac.configuration_archive.export_device_configurations] *)
Definition export_device_configurations (deviceId : list string)
    (password : string) : N task :=
  fun s =>
    (Done (dnac_export_task deviceId password),
     mkSession (world s) (exported s ++ [(deviceId, password)]) (downloaded s)
       (project_queries s) (created s) (versioned s) (asked s)).

(** [dnac.file.download_a_file_by_fileid(file_id=..., save_file=True)] *)
Definition download_a_file_by_fileid (file_id : string) : N unit :=
  fun s =>
    (Done tt,
     mkSession (world s) (exported s) (downloaded s ++ [file_id])
       (project_queries s) (created s) (versioned s) (asked s)).

(** [dnac.configuration_templates.get_projects(name=...)] *)
Definition get_projects (name : string) : N (list project) :=
  fun s =>
    (Done (dnac_projects (project_queries s) name),
     mkSession (world s) (exported s) (downloaded s) (S (project_queries s))
       (created s) (versioned s) (asked s)).

(** [dnac.configuration_templates.create_template(...)] *)
Definition create_template (request : template_request) : N unit :=
  fun s =>
    match dnac_create_template request with
    | Some e => (Raised e, s)
    | None =>
        (Done tt,
         mkSession (world s) (exported s) (downloaded s) (project_queries s)
           (created s ++ [request]) (versioned s) (asked s))
    end.

(** [dnac.configuration_templates.version_template(...)] *)
Definition version_template (templateId : string) : N unit :=
  fun s =>
    (Done tt,
     mkSession (world s) (exported s) (downloaded s) (project_queries s)
       (created s) (versioned s ++ [templateId]) (asked s)).

(** [Confirm.ask(question)] *)
Definition Confirm_ask (question : string) : N bool :=
  fun s =>
    (Done (operator question),
     mkSession (world s) (exported s) (downloaded s) (project_queries s)
       (created s) (versioned s) (asked s ++ [question])).

(** *** The connection (lines 80-95) *)

Definition connect : N unit :=
  lift (console_panel "Connect to DNA Center" "Step 1") ;;;
  lift (console_print ("Connecting to DNA Center at " ++ DNAC_URL)) ;;;
  match dnac_connect with
  | None => lift (console_print "[green][bold]Connected to DNAC")
  | Some ConnectionError =>
      lift
           (console_print
              "[red][bold]Failed to connect to DNAC. Please check URL & reachability") ;;;
      exitN 1%Z
  | Some ApiError =>
      lift
           (console_print
              "[red][bold]Invalid Login credentials. Please check login info") ;;;
      exitN 1%Z
  | Some e => raiseN e
  end.

(** *** downloadFile (lines 122-137) *)

Definition downloadFile (task : task_status) : N unit :=
  lift (console_status "Downloading file...") ;;;
  let file_location := additionalStatusURL task in
  match nth_error (split "/" file_location) 4 with
  | None => raiseN IndexError
  | Some file_id =>
      download_a_file_by_fileid file_id ;;;
      lift (console_print "[green][bold]File Downloaded!")
  end.

(** *** getProjectID (lines 211-226) *)

Definition getProjectID : N string :=
  lift (console_print "Getting Project List...") ;;;
  project <~ get_projects PROJECT_NAME ;;
  match project with
  | [] => raiseN IndexError
  | first :: _ => retN (proj_id first)
  end.

(** *** createNewTemplate (lines 263-312) *)

(** The loop of lines 303-305: the last template of the name wins. *)
Definition template_id_of (templates : list template_entry) : option string :=
  fold_left
    (fun template_id template =>
       if (tpl_name template =? TEMPLATE_NAME)%string
       then Some (tpl_id template) else template_id)
    templates None.

Definition createNewTemplate (template_payload : string)
    (device_types : list (string * string)) : N string :=
  project_id <~ getProjectID ;;
  lift (console_status "Uploading template to DNA Center...") ;;;
  error <~
    try_except_ApiError
      (create_template
            (mkRequest project_id TEMPLATE_NAME "IOS-XE" device_types
               template_payload "2" "VELOCITY") ;;;
       lift (console_print "[green][bold]Template uploaded!") ;;;
       retN false)
      (lift
            (console_print
               "[red]Error creating template. Template may already exist.") ;;;
       retN true) ;;
  (if error then
        continue <~ Confirm_ask "Continue" ;;
        if negb continue then exitN 1%Z else retN tt
      else retN tt) ;;;
  lift (console_status "Querying DNAC for Template UUID...") ;;;
  project <~ get_projects PROJECT_NAME ;;
  match project with
  | [] => raiseN IndexError
  | first :: _ =>
      let template_id := template_id_of (proj_templates first) in
      lift (console_status "Committing template version...") ;;;
      match template_id with
      | None => raiseN (Builtin UnboundLocalError)
      | Some template_id =>
          version_template template_id ;;;
          lift (console_print "[green][bold]Template committed!") ;;;
          retN template_id
      end
  end.

(** *** run (lines 351-470) *)

(** Lines 377-381: one entry per device of the response. *)
Definition run_device_types (devices : list device) : list (string * string) :=
  map (fun device => (family device, series device)) devices.

(** Line 389: the identifiers of the target devices, in order. *)
Definition run_device_ids (target_devices : dict device_record)
  : list string :=
  flat_map
    (fun device =>
       match dict_get target_devices device with
       | Some r => [rec_id r]
       | None => []
       end)
    (keys target_devices).

Definition deploy_question (deployable_devices : list deploy_target)
  : string :=
  "Are you sure you want to deploy these changes to "
  ++ str_of_nat (List.length deployable_devices) ++ " devices".

Definition run (fuel : nat) : N unit :=
  lift (console_print EmptyString) ;;;
  lift (console_panel "Retrieve device list from DNA Center" "Step 2") ;;;
  lift (console_print "Getting device list...") ;;;
  let devices := dnac_device_list in
  let target_devices :=
    run_target_devices LOCATION_FILTER dnac_device_location devices in
  let device_types := run_device_types devices in
  lift
       (console_print
          ("[bold]Found " ++ str_of_nat (List.length target_devices)
           ++ " devices that matched criteria")) ;;;
  lift (console_print EmptyString) ;;;
  lift (console_panel "Export current device configurations" "Step 3") ;;;
  lift (console_print "Requesting config export...") ;;;
  task <~
    export_device_configurations (run_device_ids target_devices)
      (ARCHIVE_SECRET entropy) ;;
  task_response <~ lift (checkTaskStatus dnac_task_answers fuel task) ;;
  downloadFile task_response ;;;
  lift
       (unzipConfigFile entropy pyzipper_open pyzipper_extractall
          working_directory) ;;;
  lift (console_print EmptyString) ;;;
  lift
       (console_panel
          "Compare current configurations to expected configurations"
          "Step 4") ;;;
  st <~
    lift
      (run_validate VALID_SNMP_SERVER_HOST VALID_SNMP_SERVER_COMMUNITY
         os_listdir open_lines target_devices) ;;
  let target_devices := fst st in
  let deployable_devices := snd st in
  lift (console_print EmptyString) ;;;
  lift
       (console_panel
          "Create new DNA Center template to modify device configurations"
          "Step 5") ;;;
  template_payload <~
    lift (generateTemplatePayload NEW_CONFIG target_devices) ;;
  template_id <~ createNewTemplate template_payload device_types ;;
  lift (console_print EmptyString) ;;;
  lift
       (console_panel
          "Deploy template to devices with incorrect configurations"
          "Step 6") ;;;
  lift
       (console_print
          "[yellow]Warning: Config deployment may take several minutes and may fail for a variety of reasons.") ;;;
  lift
       (console_print
          "[yellow]You may want to validate the template contents prior to deploying the template to all devices.") ;;;
  lift (console_print EmptyString) ;;;
  lift
       (console_print
          "If you choose not to deploy the template now, it can be deployed manually from the DNA Center web interface") ;;;
  lift (console_print "or by running this script again.") ;;;
  lift (console_print EmptyString) ;;;
  confirmed <~ Confirm_ask (deploy_question deployable_devices) ;;
  if negb confirmed then
    lift
         (console_print
            "Skipping automatic deployment. Please push template manually from DNA Center web interface!") ;;;
    exitN 1%Z
  else
    lift
      (deployTemplate dnac_deployment_answers dnac_deploymentId fuel
         template_id deployable_devices).

(** The script as it is started: the connection, then [run]
    (lines 473-474). *)
Definition main (fuel : nat) : N unit :=
  connect ;;;
  run fuel.

End Session.

(** A computation that leaves the deployments alone: it submits nothing
    and asks for no deployment status. *)
Definition quiet {A} (c : M A) : Prop :=
  forall w,
    submitted (snd (c w)) = submitted w
    /\ deploy_polls (snd (c w)) = deploy_polls w.

Definition quietN {A} (c : N A) : Prop :=
  forall s,
    submitted (world (snd (c s))) = submitted (world s)
    /\ deploy_polls (world (snd (c s))) = deploy_polls (world s).

(** The number of occurrences of a character in a string. *)
Definition count_char (c : ascii) (s : string) : nat :=
  count_occ ascii_dec (list_ascii_of_string s) c.

(** A controller in which the export completes on the third query and
    names its file, the project lists the template once it is created,
    and the deployment succeeds on the fourth query; an operator who
    agrees to everything, and one who declines everything. *)
Definition export_answers (_ : string) (n : nat) : task_status :=
  if (n <? 2)%nat then running_task
  else mkTaskStatus "Export complete" (Some 1667559600000%Z)
         "/api/v1/file/5f1c-22a0".
Definition lab_projects (n : nat) (_ : string) : list project :=
  [mkProject "project-1"
     (if (n =? 0)%nat then [mkTemplate "old-fix" "template-0"]
      else [mkTemplate "old-fix" "template-0";
            mkTemplate "snmp-fix" "template-1"])].
Definition accepts_template (_ : template_request) : option exception := None.
Definition rejects_template (_ : template_request) : option exception :=
  Some ApiError.
Definition export_task (_ : list string) (_ : string) : task := mkTask "task-1".
Definition agrees (_ : string) : bool := true.
Definition declines (_ : string) : bool := false.

(** A computation whose normal return means one deployment to [targets],
    agreed to by the operator. *)
Definition deploys_once (consent : Prop) (targets : list deploy_target) {B}
    (c : N B) : Prop :=
  forall s s' b,
    c s = (Done b, s') ->
    consent
    /\ exists template_id,
         submitted (world s')
         = (submitted (world s) ++ [(template_id, targets)])%list.
(** * Properties *)

(** ** Strings *)

Lemma append_nil_r (s : string) : s ++ EmptyString = s.
Proof. induction s as [|c s IH]; simpl; [reflexivity | now rewrite IH]. Qed.

Lemma append_assoc (a b c : string) : (a ++ b) ++ c = a ++ (b ++ c).
Proof. induction a as [|x a IH]; simpl; [reflexivity | now rewrite IH]. Qed.

Lemma length_append (a b : string) :
  String.length (a ++ b) = String.length a + String.length b.
Proof. induction a as [|x a IH]; simpl; [reflexivity | now rewrite IH]. Qed.

Lemma append_inv_head (a b c : string) : a ++ b = a ++ c -> b = c.
Proof.
  induction a as [|x a IH]; simpl; intros H; [exact H|].
  injection H as H. now apply IH.
Qed.

Lemma append_inv_tail (a b c : string) : a ++ c = b ++ c -> a = b.
Proof.
  revert b. induction a as [|x a IH]; intros [|y b] H; simpl in *.
  - reflexivity.
  - exfalso. apply (f_equal String.length) in H. simpl in H.
    rewrite length_append in H. lia.
  - exfalso. apply (f_equal String.length) in H. simpl in H.
    rewrite length_append in H. lia.
  - injection H as -> H. f_equal. now apply IH.
Qed.

Lemma prefix_spec (p s : string) :
  prefix p s = true <-> exists t, s = p ++ t.
Proof.
  revert s. induction p as [|c p IH]; intros s.
  - split; [intros _; now exists s | intros _; now destruct s].
  - destruct s as [|d s]; simpl.
    + split; [discriminate | intros [t H]; discriminate].
    + destruct (ascii_dec c d) as [->|Hne].
      * rewrite IH. split; intros [t H]; exists t.
        -- now rewrite H.
        -- now injection H.
      * split; [discriminate | intros [t H]; injection H as H _; congruence].
Qed.

Lemma str_in_nil (n : string) :
  str_in n EmptyString = prefix n EmptyString.
Proof. simpl. apply orb_false_r. Qed.

Lemma str_in_cons (n : string) (c : ascii) (h : string) :
  str_in n (String c h) = prefix n (String c h) || str_in n h.
Proof. reflexivity. Qed.

(** [str_in] decides containment as a contiguous substring. *)
Lemma str_in_spec (n h : string) : str_in n h = true <-> Substring n h.
Proof.
  unfold Substring. induction h as [|c h IH].
  - rewrite str_in_nil, prefix_spec. split.
    + intros [t H]. exists EmptyString, t. exact H.
    + intros (pre & post & H). destruct pre; [|discriminate].
      exists post. exact H.
  - rewrite str_in_cons, orb_true_iff, IH, prefix_spec. split.
    + intros [[t H] | (pre & post & H)].
      * exists EmptyString, t. exact H.
      * exists (String c pre), post. simpl. now rewrite H.
    + intros (pre & post & H). destruct pre as [|d pre].
      * left. exists post. exact H.
      * right. simpl in H. injection H as _ H. now exists pre, post.
Qed.

(** Splitting at a character undoes joining with it, when no part
    contains it. *)
Lemma split_no_sep (c : ascii) (s : string) :
  ~ In c (list_ascii_of_string s) -> split c s = [s].
Proof.
  induction s as [|a s IH]; intros Hc; [reflexivity|].
  cbn [split]. destruct (Ascii.eqb_spec a c) as [->|_].
  - exfalso. apply Hc. now left.
  - rewrite IH; [reflexivity|]. intros Hin. apply Hc. now right.
Qed.

Lemma split_app_sep (c : ascii) (s t : string) :
  ~ In c (list_ascii_of_string s) ->
  split c (s ++ String c t) = s :: split c t.
Proof.
  induction s as [|a s IH]; intros Hc.
  - cbn [append split]. now rewrite Ascii.eqb_refl.
  - cbn [append split]. destruct (Ascii.eqb_spec a c) as [->|_].
    + exfalso. apply Hc. now left.
    + rewrite IH; [reflexivity|]. intros Hin. apply Hc. now right.
Qed.

Lemma split_join (c : ascii) (lines : list string) :
  lines <> [] ->
  Forall (fun l => ~ In c (list_ascii_of_string l)) lines ->
  split c (join (String c EmptyString) lines) = lines.
Proof.
  intros Hne Hall. induction Hall as [|x lines Hx Hall IH];
    [now destruct Hne|].
  destruct lines as [|y lines].
  - cbn. now apply split_no_sep.
  - change (join (String c EmptyString) (x :: y :: lines))
      with (x ++ String c (join (String c EmptyString) (y :: lines))).
    rewrite split_app_sep by exact Hx. f_equal. apply IH. discriminate.
Qed.

(** ** The small monad *)

Lemma bind_Ret {A B} (c : M A) (k : A -> M B) (w w' : World) (a : A) :
  c w = (Ret a, w') -> bind c k w = k a w'.
Proof. intros H. unfold bind. now rewrite H. Qed.

(** ** The archive passphrase *)

Lemma alphabet_checked : forallb alphabet_ok (seq 0 62) = true.
Proof. vm_compute. reflexivity. Qed.

Lemma secrets_choice_alnum (draw : nat) :
  exists c,
    secrets_choice draw (ascii_letters ++ digits) = String c EmptyString
    /\ In c (list_ascii_of_string (ascii_letters ++ digits))
    /\ is_alnum c = true.
Proof.
  assert (Hlt : draw mod 62 < 62) by (apply Nat.mod_upper_bound; lia).
  pose proof alphabet_checked as Hall. rewrite forallb_forall in Hall.
  specialize (Hall (draw mod 62)). unfold secrets_choice.
  change (String.length (ascii_letters ++ digits)) with 62.
  unfold alphabet_ok in Hall.
  destruct (String.get (draw mod 62) (ascii_letters ++ digits)) as [c|].
  - assert (H : is_alnum c
                && existsb (Ascii.eqb c)
                     (list_ascii_of_string (ascii_letters ++ digits)) = true).
    { apply Hall. apply in_seq. lia. }
    apply andb_true_iff in H as [Ha He].
    apply existsb_exists in He as (d & Hd & Hcd).
    apply Ascii.eqb_eq in Hcd. subst d. now exists c.
  - assert (H : false = true) by (apply Hall; apply in_seq; lia).
    discriminate.
Qed.

Lemma join_choices (l : list nat) (f : nat -> string) (P : ascii -> Prop) :
  (forall i, exists c, f i = String c EmptyString /\ P c) ->
  String.length (join EmptyString (map f l)) = List.length l
  /\ forall c,
       In c (list_ascii_of_string (join EmptyString (map f l))) -> P c.
Proof.
  intros Hf. induction l as [|i l [IHlen IHin]].
  - split; [reflexivity | intros c []].
  - destruct (Hf i) as (c & Hc & HP).
    assert (E : join EmptyString (map f (i :: l))
                = String c (join EmptyString (map f l))).
    { unfold join. simpl. rewrite Hc. destruct (map f l); reflexivity. }
    rewrite E. split.
    + simpl. now rewrite IHlen.
    + intros d [<- | Hd]; [exact HP | now apply IHin].
Qed.

(** C8. Whatever the entropy, the passphrase is sixteen characters drawn
    from the ASCII letters and digits followed by the single character [!]:
    its length is 17 and only its last character is not alphanumeric. *)
Theorem ARCHIVE_SECRET_shape (entropy : nat -> nat) :
  exists body,
    ARCHIVE_SECRET entropy = body ++ "!"
    /\ String.length body = 16
    /\ (forall c, In c (list_ascii_of_string body) ->
          In c (list_ascii_of_string (ascii_letters ++ digits))
          /\ is_alnum c = true)
    /\ String.length (ARCHIVE_SECRET entropy) = 17
    /\ String.get 16 (ARCHIVE_SECRET entropy) = Some "!"%char
    /\ is_alnum "!"%char = false.
Proof.
  unfold ARCHIVE_SECRET.
  set (f := fun i => secrets_choice (entropy i) (ascii_letters ++ digits)).
  destruct (join_choices (seq 0 16) f
              (fun c => In c (list_ascii_of_string (ascii_letters ++ digits))
                        /\ is_alnum c = true)) as [Hlen Hin].
  { intros i. destruct (secrets_choice_alnum (entropy i)) as (c & H1 & H2 & H3).
    now exists c. }
  rewrite length_seq in Hlen.
  exists (join EmptyString (map f (seq 0 16))).
  repeat split.
  - exact Hlen.
  - now apply Hin.
  - now apply Hin.
  - rewrite length_append, Hlen. reflexivity.
  - pose proof (append_correct2 (join EmptyString (map f (seq 0 16))) "!" 0)
      as H.
    rewrite Hlen in H. symmetry. exact H.
Qed.

(** ** The task poller *)

Section TaskPoller.

Variable answers : string -> nat -> task_status.

(** One turn of the loop: a query, then either the return or a sleep. *)
Lemma checkTaskStatus_turn (fuel : nat) (t : task) (w : World) :
  let ts := answers (taskId t) (task_polls w) in
  let shown :=
    (console w
     ++ [ConsoleStatus
           "Waiting for task to finish. Current status: Not Started";
         StatusUpdate
           ("Waiting for task to finish. Current status: " ++ progress ts)])%list
  in
  checkTaskStatus answers (S fuel) t w
  = if truthy (endTime ts) then
      (Ret ts,
       mkWorld (shown ++ [ConsolePrint "[green][bold]Task finsished!"])
         (S (task_polls w)) (deploy_polls w) (slept w) (unpacked w)
         (submitted w))
    else
      checkTaskStatus answers fuel t
        (mkWorld shown (S (task_polls w)) (deploy_polls w) (slept w + 3)
           (unpacked w) (submitted w)).
Proof.
  cbv zeta. cbn [checkTaskStatus]. unfold bind at 1. cbn.
  destruct (truthy (endTime (answers (taskId t) (task_polls w)))).
  - cbn. rewrite <- !app_assoc. reflexivity.
  - cbn. rewrite <- !app_assoc. reflexivity.
Qed.

End TaskPoller.

Section TaskPollerResult.

Variable answers : string -> nat -> task_status.

(** C5. If the first status whose [endTime] is set is the one answered to
    query number [k] (counting from zero), the poller, given enough turns,
    returns exactly that payload after [k + 1] queries: it has asked nothing
    after receiving it, and has slept three seconds after each earlier
    answer. *)
Theorem checkTaskStatus_first_terminal (t : task) (k fuel : nat) (w : World) :
  (forall i, i < k ->
     truthy (endTime (answers (taskId t) (task_polls w + i))) = false) ->
  truthy (endTime (answers (taskId t) (task_polls w + k))) = true ->
  k < fuel ->
  exists w',
    checkTaskStatus answers fuel t w
    = (Ret (answers (taskId t) (task_polls w + k)), w')
    /\ task_polls w' = task_polls w + k + 1
    /\ slept w' = slept w + 3 * k
    /\ deploy_polls w' = deploy_polls w
    /\ unpacked w' = unpacked w
    /\ submitted w' = submitted w.
Proof.
  revert fuel w. induction k as [|k IH]; intros fuel w Hbefore Hat Hfuel.
  - destruct fuel as [|fuel]; [lia|].
    rewrite checkTaskStatus_turn. cbv zeta.
    rewrite Nat.add_0_r in Hat. rewrite Hat.
    eexists. split; [rewrite Nat.add_0_r; reflexivity|].
    cbn. repeat split; lia.
  - destruct fuel as [|fuel]; [lia|].
    rewrite checkTaskStatus_turn. cbv zeta.
    pose proof (Hbefore 0 ltac:(lia)) as H0. rewrite Nat.add_0_r in H0.
    rewrite H0.
    set (w1 := mkWorld _ _ _ _ _ _).
    destruct (IH fuel w1) as (w' & Hrun & Hp & Hs & Hd & Hu & Hsub).
    + intros i Hi. change (task_polls w1) with (S (task_polls w)).
      rewrite Nat.add_succ_comm. apply Hbefore. lia.
    + change (task_polls w1) with (S (task_polls w)).
      rewrite Nat.add_succ_comm. exact Hat.
    + lia.
    + exists w'.
      change (task_polls w1) with (S (task_polls w)) in Hrun, Hp.
      change (slept w1) with (slept w + 3) in Hs.
      change (deploy_polls w1) with (deploy_polls w) in Hd.
      change (unpacked w1) with (unpacked w) in Hu.
      change (submitted w1) with (submitted w) in Hsub.
      rewrite Nat.add_succ_comm in Hrun.
      split; [exact Hrun|]. repeat split; try assumption; lia.
Qed.

End TaskPollerResult.

(** The scenario of the third poll: the payload with [endTime] set is
    returned as it is, after exactly three queries. *)
Lemma checkTaskStatus_third_poll :
  exists w',
    checkTaskStatus third_poll_answers 10 (mkTask "task-1") initial_world
    = (Ret finished_task, w')
    /\ task_polls w' = 3.
Proof.
  destruct (checkTaskStatus_first_terminal third_poll_answers
              (mkTask "task-1") 2 10 initial_world)
    as (w' & Hrun & Hp & _).
  - intros i Hi. destruct i as [|[|i]]; [reflexivity | reflexivity | lia].
  - reflexivity.
  - lia.
  - exists w'. split; [exact Hrun | exact Hp].
Defined.

(** ** The deployment tracker *)

Section DeploymentTracker.

Variable answers : string -> nat -> deployment_status.

(** One turn of the loop: only SUCCESS leaves it. *)
Lemma deployTemplate_loop_turn (fuel : nat) (id : string) (w : World) :
  let r := answers id (deploy_polls w) in
  let shown :=
    (console w ++ [StatusUpdate ("Current status: " ++ status r)])%list in
  deployTemplate_loop answers (S fuel) id w
  = if (status r =? "SUCCESS")%string then
      (Ret tt,
       mkWorld (shown ++ [ConsolePrint "[green][bold]Deployment complete!"])
         (task_polls w) (S (deploy_polls w)) (slept w) (unpacked w)
         (submitted w))
    else
      deployTemplate_loop answers fuel id
        (mkWorld
           (shown
            ++ if (status r =? "FAILURE")%string then
                 [ConsolePrint
                    "[red][bold]Deployment Failed! See below for errors:";
                  PPrint r]
               else [])
           (task_polls w) (S (deploy_polls w)) (slept w + 3) (unpacked w)
           (submitted w)).
Proof.
  cbv zeta. cbn [deployTemplate_loop]. unfold bind at 1. cbn.
  destruct (status (answers id (deploy_polls w)) =? "SUCCESS")%string.
  - cbn. reflexivity.
  - destruct (status (answers id (deploy_polls w)) =? "FAILURE")%string.
    + cbn. rewrite <- !app_assoc. reflexivity.
    + cbn. rewrite app_nil_r. reflexivity.
Qed.

(** On SUCCESS the loop is left at once. *)
Lemma deployTemplate_loop_SUCCESS (fuel : nat) (id : string) (w : World) :
  status (answers id (deploy_polls w)) = "SUCCESS" ->
  exists w',
    deployTemplate_loop answers (S fuel) id w = (Ret tt, w')
    /\ deploy_polls w' = S (deploy_polls w)
    /\ slept w' = slept w.
Proof.
  intros Hst. rewrite deployTemplate_loop_turn. cbv zeta. rewrite Hst.
  rewrite String.eqb_refl. eexists. split; [reflexivity|]. now split.
Qed.

(** Unless the controller answers SUCCESS the loop goes on: every turn is
    spent on one more query, and each FAILURE met on the way is printed. *)
Lemma deployTemplate_loop_no_SUCCESS (fuel : nat) (id : string) (w : World) :
  (forall n, status (answers id n) <> "SUCCESS") ->
  exists w',
    deployTemplate_loop answers fuel id w = (OutOfFuel, w')
    /\ deploy_polls w' = deploy_polls w + fuel
    /\ (forall e, In e (console w) -> In e (console w'))
    /\ (forall k, k < fuel ->
          status (answers id (deploy_polls w + k)) = "FAILURE" ->
          In (PPrint (answers id (deploy_polls w + k))) (console w')).
Proof.
  intros Hno. revert w. induction fuel as [|fuel IH]; intros w.
  - exists w. cbn. repeat split; [lia | auto | intros k Hk; lia].
  - rewrite deployTemplate_loop_turn. cbv zeta.
    destruct (String.eqb_spec (status (answers id (deploy_polls w))) "SUCCESS")
      as [E|_]; [now apply Hno in E|].
    set (w1 := mkWorld _ _ _ _ _ _).
    destruct (IH w1) as (w' & Hrun & Hp & Hc & Hf).
    change (deploy_polls w1) with (S (deploy_polls w)) in Hp, Hf.
    exists w'. split; [exact Hrun|]. split; [lia|]. split.
    + intros e He. apply Hc. unfold w1. cbn [console].
      apply in_or_app. left. apply in_or_app. now left.
    + intros [|k] Hk Hst.
      * rewrite Nat.add_0_r in *. apply Hc. unfold w1. cbn [console].
        rewrite Hst. rewrite String.eqb_refl.
        apply in_or_app. right. right. now left.
      * rewrite <- Nat.add_succ_comm in *. apply Hf; [lia | exact Hst].
Qed.

(** What precedes the loop: the announcement, the submission and the
    identifier cut out of [deploymentId]. *)
Lemma deployTemplate_start (deploymentId : string -> list deploy_target -> string)
    (fuel : nat) (template_id : string) (device_list : list deploy_target)
    (w : World) :
  deployTemplate answers deploymentId fuel template_id device_list w
  = deployTemplate_loop answers fuel
      (strip (last (split ":" (deploymentId template_id device_list))
                EmptyString))
      (mkWorld
         (console w
          ++ [ConsolePrint
                ("Deploying template to "
                 ++ str_of_nat (List.length device_list) ++ " devices.");
              ConsoleStatus "Starting deployment..."])
         (task_polls w) (deploy_polls w) (slept w + 2) (unpacked w)
         (submitted w ++ [(template_id, device_list)])).
Proof.
  unfold deployTemplate, bind. cbn. rewrite <- app_assoc. reflexivity.
Qed.

End DeploymentTracker.

(** C1, on the code. With the statuses SUBMITTED, SUBMITTED, FAILURE (and
    FAILURE from then on), the tracker reports the failure payload but does
    not stop: however many turns it is given beyond the third, it is still
    in its loop and has spent every one of them on a status query. *)
Theorem deployTemplate_polls_after_FAILURE (n : nat) :
  exists w',
    deployTemplate failing_deployment some_deploymentId (3 + n) "template-1"
      [deployable_entry "10.0.0.1"] initial_world
    = (OutOfFuel, w')
    /\ deploy_polls w' = 3 + n
    /\ In (PPrint failure_payload) (console w').
Proof.
  rewrite deployTemplate_start.
  match goal with
  | |- context [deployTemplate_loop _ _ ?id ?w] =>
      destruct (deployTemplate_loop_no_SUCCESS failing_deployment
                  (3 + n) id w) as (w' & Hrun & Hp & _ & Hf)
  end.
  - intros k. unfold failing_deployment.
    destruct (k <? 2)%nat; discriminate.
  - exists w'. split; [exact Hrun|]. split; [exact Hp|].
    apply (Hf 2); [lia | reflexivity].
Qed.

(** ** The archive extractor *)

Lemma last_nonempty_default {A} (l : list A) (x d d' : A) :
  last (x :: l) d = last (x :: l) d'.
Proof.
  revert x. induction l as [|y l IH]; intros x; [reflexivity|].
  change (last (y :: l) d = last (y :: l) d'). apply IH.
Qed.

Lemma unzip_target_file_from (directory : list string) (bound : option string) :
  fold_left
    (fun target_file file =>
       if str_in "Export_Configs" file then Some file else target_file)
    directory bound
  = last (map Some (bundles directory)) bound.
Proof.
  revert bound. induction directory as [|file directory IH]; intros bound.
  - reflexivity.
  - cbn [fold_left]. rewrite IH. unfold bundles. cbn [filter].
    destruct (str_in "Export_Configs" file); [|reflexivity].
    cbn [map]. fold (bundles directory).
    destruct (map Some (bundles directory)) as [|o l]; [reflexivity|].
    change (last (o :: l) (Some file) = last (o :: l) bound).
    apply last_nonempty_default.
Qed.

Lemma unzip_target_file_last (directory : list string) :
  unzip_target_file directory = last_bundle directory.
Proof. apply unzip_target_file_from. Qed.

Section ArchiveExtractor.

Variable entropy : nat -> nat.
Variable pyzipper_open : string -> option exn.
Variable pyzipper_extractall : string -> string -> option exn.

(** C7, as the code has it. The extractor works on the last listed name
    that carries the marker, whatever the number of such names: with none
    the unbound [target_file] stops the run; otherwise the outcome is that
    of opening and extracting this one file, and the only error the
    extractor reports itself is a [RuntimeError] of the extraction. *)
Theorem unzipConfigFile_last_bundle (directory : list string) (w : World) :
  let shown := (console w ++ [ConsoleStatus "Unzipping config files..."])%list in
  let stopped :=
    mkWorld shown (task_polls w) (deploy_polls w) (slept w) (unpacked w)
      (submitted w) in
  unzipConfigFile entropy pyzipper_open pyzipper_extractall directory w
  = match last_bundle directory with
    | None => (Raise UnboundLocalError, stopped)
    | Some target_file =>
        match pyzipper_open target_file with
        | Some e => (Raise e, stopped)
        | None =>
            match pyzipper_extractall target_file (ARCHIVE_SECRET entropy) with
            | None =>
                (Ret tt,
                 mkWorld
                   (shown ++ [ConsolePrint "[green][bold]Unzip Complete!"])
                   (task_polls w) (deploy_polls w) (slept w)
                   (unpacked w ++ [target_file]) (submitted w))
            | Some RuntimeError =>
                (SysExit 1%Z,
                 mkWorld
                   (shown
                    ++ [ConsolePrint
                          "[red][bold]Failed to unzip files. Please make sure any old config archives are deleted prior to running this script"])
                   (task_polls w) (deploy_polls w) (slept w) (unpacked w)
                   (submitted w))
            | Some e => (Raise e, stopped)
            end
        end
    end.
Proof.
  cbv zeta. unfold unzipConfigFile. rewrite unzip_target_file_last.
  generalize (ARCHIVE_SECRET entropy). intros secret.
  destruct (last_bundle directory) as [target_file|]; [|reflexivity].
  destruct (pyzipper_open target_file) as [e|] eqn:Hopen.
  - unfold bind. cbn. reflexivity.
  - unfold bind at 1. cbn.
    unfold bind, try_except_RuntimeError, extractall. cbn.
    destruct (pyzipper_extractall target_file secret) as [[]|];
      reflexivity.
Qed.

End ArchiveExtractor.

(** C7, as the claim has it, fails: with two bundles in the directory the
    extractor reports nothing and unpacks the one listed last. *)
Lemma unzipConfigFile_two_bundles :
  List.length (bundles two_bundles) = 2
  /\ fst (unzipConfigFile (fun i => i) opens_any extracts_any two_bundles
            initial_world) = Ret tt
  /\ unpacked (snd (unzipConfigFile (fun i => i) opens_any extracts_any
                      two_bundles initial_world))
     = ["Export_Configs_2022-11-04.zip"].
Proof. repeat split; vm_compute; reflexivity. Qed.

(** ** Stripping and containment *)

Lemma rstrip_decomp (s : string) :
  exists ws, s = rstrip s ++ ws /\ all_space ws.
Proof.
  induction s as [|c s (ws & Hs & Hws)].
  - exists EmptyString. split; [reflexivity | constructor].
  - cbn [rstrip]. destruct (rstrip s) as [|d r] eqn:Hr.
    + destruct (is_space c) eqn:Hc.
      * exists (String c ws). split.
        -- simpl in *. now rewrite Hs at 1.
        -- constructor; assumption.
      * exists ws. split; [simpl in *; now rewrite Hs at 1 | exact Hws].
    + exists ws. split; [|exact Hws].
      change (String c s = String c (String d r ++ ws)). now rewrite <- Hs.
Qed.

Lemma rstrip_app_nonspace (a : string) (z : ascii) (post : string) :
  is_space z = false ->
  rstrip (a ++ String z post) = a ++ String z (rstrip post).
Proof.
  intros Hz. induction a as [|x a IH].
  - cbn [append rstrip]. rewrite Hz. now destruct (rstrip post).
  - cbn [append rstrip]. rewrite IH. now destruct a.
Qed.

Lemma Substring_rstrip (k : string) (z : ascii) (l : string) :
  is_space z = false ->
  Substring (k ++ String z EmptyString) (rstrip l)
  <-> Substring (k ++ String z EmptyString) l.
Proof.
  intros Hz. split; intros (pre & post & H).
  - destruct (rstrip_decomp l) as (ws & Hl & _).
    exists pre, (post ++ ws). rewrite Hl, H.
    now rewrite !append_assoc.
  - exists pre, (rstrip post). rewrite H.
    rewrite append_assoc. cbn [append].
    rewrite <- (append_assoc pre k).
    rewrite rstrip_app_nonspace by exact Hz.
    now rewrite !append_assoc.
Qed.

Lemma str_in_lstrip (a : ascii) (k l : string) :
  is_space a = false ->
  str_in (String a k) (lstrip l) = str_in (String a k) l.
Proof.
  intros Ha. induction l as [|c l IH]; [reflexivity|].
  cbn [lstrip]. destruct (is_space c) eqn:Hc; [|reflexivity].
  rewrite IH, str_in_cons. cbn [prefix].
  destruct (ascii_dec a c) as [->|_]; [congruence | reflexivity].
Qed.

(** Line 187 tests the stripped line; as the keyword neither starts nor
    ends with white space, this selects the lines that contain it. *)
Lemma is_snmp_host_line_spec (line : string) :
  is_snmp_host_line line = true <-> Substring "snmp-server host" line.
Proof.
  unfold is_snmp_host_line, strip. rewrite str_in_spec.
  change "snmp-server host" with ("snmp-server hos" ++ "t").
  rewrite Substring_rstrip by reflexivity.
  rewrite <- !str_in_spec.
  change ("snmp-server hos" ++ "t") with (String "s" "nmp-server host").
  now rewrite str_in_lstrip by reflexivity.
Qed.

(** ** The configuration validator *)

Section ConfigValidator.

Variable VALID_SNMP_SERVER_HOST : string.
Variable VALID_SNMP_SERVER_COMMUNITY : string.
Variable os_listdir : string -> option (list string).
Variable open_lines : string -> option (list string).

Let validate_line' :=
  validate_line VALID_SNMP_SERVER_HOST VALID_SNMP_SERVER_COMMUNITY.
Let bad_lines' :=
  bad_lines VALID_SNMP_SERVER_HOST VALID_SNMP_SERVER_COMMUNITY.
Let verdict_event' :=
  verdict_event VALID_SNMP_SERVER_HOST VALID_SNMP_SERVER_COMMUNITY.

(** One line, from any state. *)
Lemma validate_line_run (line : string) (config_found : bool)
    (bad_config : list string) (w : World) :
  validate_line' (config_found, bad_config) line w
  = (Ret (config_found || is_snmp_host_line line,
          (bad_config ++ bad_lines' [line])%list),
     mkWorld
       (console w ++ map verdict_event' (filter is_snmp_host_line [line]))
       (task_polls w) (deploy_polls w) (slept w) (unpacked w) (submitted w)).
Proof.
  unfold validate_line', bad_lines', verdict_event'.
  unfold validate_line, bad_lines. cbn [filter].
  destruct (is_snmp_host_line line); cbn [andb filter map].
  - unfold verdict_event, classify.
    destruct (is_valid_line VALID_SNMP_SERVER_HOST
                VALID_SNMP_SERVER_COMMUNITY line);
      cbn; rewrite ?orb_true_r, ?app_nil_r; reflexivity.
  - cbn. rewrite orb_false_r, !app_nil_r. now destruct w.
Qed.

Lemma bad_lines_cons (line : string) (config : list string) :
  bad_lines' (line :: config) = (bad_lines' [line] ++ bad_lines' config)%list.
Proof.
  unfold bad_lines', bad_lines. cbn [filter].
  destruct (is_snmp_host_line line
            && negb (is_valid_line VALID_SNMP_SERVER_HOST
                       VALID_SNMP_SERVER_COMMUNITY line)); reflexivity.
Qed.

Lemma selected_cons (line : string) (config : list string) :
  filter is_snmp_host_line (line :: config)
  = (filter is_snmp_host_line [line] ++ filter is_snmp_host_line config)%list.
Proof. cbn [filter]. destruct (is_snmp_host_line line); reflexivity. Qed.

(** The loop over the lines, from any state. *)
Lemma validate_lines_run (config : list string) (config_found : bool)
    (bad_config : list string) (w : World) :
  foldM validate_line' config (config_found, bad_config) w
  = (Ret (config_found || existsb is_snmp_host_line config,
          (bad_config ++ bad_lines' config)%list),
     mkWorld
       (console w ++ map verdict_event' (filter is_snmp_host_line config))
       (task_polls w) (deploy_polls w) (slept w) (unpacked w) (submitted w)).
Proof.
  revert config_found bad_config w.
  induction config as [|line config IH]; intros config_found bad_config w.
  - cbn. rewrite orb_false_r, !app_nil_r. now destruct w.
  - cbn [foldM]. rewrite (bind_Ret _ _ _ _ _ (validate_line_run _ _ _ _)).
    rewrite IH. cbn [console task_polls deploy_polls slept unpacked submitted].
    rewrite (bad_lines_cons line config), (selected_cons line config).
    rewrite map_app, <- !app_assoc.
    cbn [existsb]. now rewrite orb_assoc.
Qed.

(** A device whose running configuration can be read is validated without
    an exception; the result and the output are those of its lines. *)
Lemma validate_snmp_config_run (device_ip : string) (config : list string)
    (w : World) :
  running_config_lines os_listdir open_lines device_ip = Some config ->
  validate_snmp_config VALID_SNMP_SERVER_HOST VALID_SNMP_SERVER_COMMUNITY
    os_listdir open_lines device_ip w
  = (Ret (bad_lines' config),
     shown w (validation_output VALID_SNMP_SERVER_HOST
                VALID_SNMP_SERVER_COMMUNITY device_ip config)).
Proof.
  unfold running_config_lines, validate_snmp_config. intros Hconfig.
  unfold bind at 1. cbn [console_print emit].
  destruct (os_listdir _) as [files|]; [|discriminate].
  destruct (running_config_of _ files) as [running_config|]; [|discriminate].
  rewrite Hconfig.
  rewrite (bind_Ret _ _ _ _ _ (validate_lines_run _ _ _ _)).
  cbn [fst snd]. unfold shown, validation_output.
  destruct (existsb is_snmp_host_line config);
    cbn; rewrite <- ?app_assoc; cbn; reflexivity.
Qed.

(** C2. In a running configuration that the validator reads, a line that
    contains the keyword [snmp-server host] is classified compliant exactly
    when it contains both the expected host and the expected community;
    when it lacks either, it is classified non-compliant and its stripped
    text is in the returned list. The returned list holds the stripped
    non-compliant lines in file order, and the verdicts are printed in file
    order. *)
Theorem validate_snmp_config_classifies (device_ip : string)
    (config : list string) (w : World) :
  running_config_lines os_listdir open_lines device_ip = Some config ->
  exists result w',
    validate_snmp_config VALID_SNMP_SERVER_HOST VALID_SNMP_SERVER_COMMUNITY
      os_listdir open_lines device_ip w = (Ret result, w')
    /\ result = bad_lines' config
    /\ console w'
       = (console w
          ++ validation_output VALID_SNMP_SERVER_HOST
               VALID_SNMP_SERVER_COMMUNITY device_ip config)%list
    /\ forall line,
         In line config ->
         Substring "snmp-server host" line ->
         (classify VALID_SNMP_SERVER_HOST VALID_SNMP_SERVER_COMMUNITY line
          = Compliant
          <-> Substring VALID_SNMP_SERVER_HOST line
              /\ Substring VALID_SNMP_SERVER_COMMUNITY line)
         /\ (~ (Substring VALID_SNMP_SERVER_HOST line
                /\ Substring VALID_SNMP_SERVER_COMMUNITY line) ->
             classify VALID_SNMP_SERVER_HOST VALID_SNMP_SERVER_COMMUNITY line
             = NonCompliant
             /\ In (strip line) result).
Proof.
  intros Hconfig. eexists _, _. split.
  { apply validate_snmp_config_run. exact Hconfig. }
  split; [reflexivity|]. split; [reflexivity|].
  intros line Hin Hsel.
  assert (Hvalid : is_valid_line VALID_SNMP_SERVER_HOST
                     VALID_SNMP_SERVER_COMMUNITY line = true
                   <-> Substring VALID_SNMP_SERVER_HOST line
                       /\ Substring VALID_SNMP_SERVER_COMMUNITY line).
  { unfold is_valid_line. now rewrite andb_true_iff, !str_in_spec. }
  unfold classify.
  destruct (is_valid_line VALID_SNMP_SERVER_HOST
              VALID_SNMP_SERVER_COMMUNITY line) eqn:Hv.
  - split; [split; [intros _; now apply Hvalid | reflexivity]|].
    intros Hnot. exfalso. apply Hnot. now apply Hvalid.
  - split.
    + split; [discriminate | intros H; apply Hvalid in H; discriminate].
    + intros _. split; [reflexivity|].
      unfold bad_lines', bad_lines. apply in_map. apply filter_In.
      split; [exact Hin|].
      apply is_snmp_host_line_spec in Hsel. now rewrite Hsel, Hv.
Qed.

End ConfigValidator.

(** A device with one line that names a wrong host and a wrong community:
    the line is reported as it stands, stripped. *)
Lemma validate_snmp_config_wrong_community :
  exists result w',
    validate_snmp_config "10.0.0.2" "public" one_device_listdir
      one_device_lines "10.0.0.1" initial_world = (Ret result, w')
    /\ In "snmp-server host 10.0.0.1 community wrongcomm" result.
Proof.
  destruct (validate_snmp_config_classifies "10.0.0.2" "public"
              one_device_listdir one_device_lines "10.0.0.1"
              one_device_config initial_world eq_refl)
    as (result & w' & Hrun & _ & _ & Hlines).
  exists result, w'. split; [exact Hrun|].
  apply (Hlines (" snmp-server host 10.0.0.1 community wrongcomm" ++ LF)).
  - right. left. reflexivity.
  - apply str_in_spec. reflexivity.
  - intros [H _]. apply str_in_spec in H. discriminate.
Defined.

(** ** Dictionaries *)

Lemma dict_get_in_keys {V} (d : dict V) (k : string) (v : V) :
  dict_get d k = Some v -> In k (keys d).
Proof.
  induction d as [|[k' v'] d IH]; cbn; [discriminate|].
  destruct (String.eqb_spec k k') as [->|_]; [now left | right; auto].
Qed.

Lemma in_keys_dict_get {V} (d : dict V) (k : string) :
  In k (keys d) -> exists v, dict_get d k = Some v.
Proof.
  induction d as [|[k' v'] d IH]; cbn; [intros []|].
  destruct (String.eqb_spec k k') as [->|Hne].
  - intros _. now exists v'.
  - intros [E|Hin]; [congruence | auto].
Qed.

Lemma dict_get_set {V} (d : dict V) (k k' : string) (v : V) :
  dict_get (dict_set d k v) k'
  = if (k' =? k)%string then Some v else dict_get d k'.
Proof.
  induction d as [|[k0 v0] d IH]; cbn.
  - reflexivity.
  - destruct (String.eqb_spec k k0) as [->|Hne]; cbn.
    + destruct (k' =? k0)%string; reflexivity.
    + rewrite IH. destruct (String.eqb_spec k' k0) as [->|_];
        [|reflexivity].
      destruct (String.eqb_spec k0 k); [congruence | reflexivity].
Qed.

Lemma keys_set {V} (d : dict V) (k : string) (v : V) :
  In k (keys (dict_set d k v))
  /\ forall k', In k' (keys d) -> In k' (keys (dict_set d k v)).
Proof.
  induction d as [|[k0 v0] d [IHk IHin]]; cbn.
  - split; [now left | intros k' []].
  - destruct (String.eqb_spec k k0) as [->|Hne]; cbn.
    + split; [now left | auto].
    + split; [now right|]. intros k' [E|Hin]; [now left | right; auto].
Qed.

Lemma dict_get_adjust {V} (f : V -> V) (d : dict V) (k k' : string) :
  dict_get (dict_adjust f d k) k'
  = if (k' =? k)%string then option_map f (dict_get d k')
    else dict_get d k'.
Proof.
  induction d as [|[k0 v0] d IH]; cbn.
  - now destruct (k' =? k)%string.
  - destruct (String.eqb_spec k k0) as [->|Hne]; cbn.
    + destruct (k' =? k0)%string; reflexivity.
    + rewrite IH. destruct (String.eqb_spec k' k0) as [->|_];
        [|reflexivity].
      destruct (String.eqb_spec k0 k); [congruence | reflexivity].
Qed.

Lemma keys_adjust {V} (f : V -> V) (d : dict V) (k : string) :
  keys (dict_adjust f d k) = keys d.
Proof.
  unfold keys. induction d as [|[k0 v0] d IH]; cbn; [reflexivity|].
  destruct (k =? k0)%string; cbn; [reflexivity | now rewrite IH].
Qed.

(** ** The template generator *)

Lemma fold_left_app_flat_map {A B} (f : A -> list B) (l : list A)
    (acc : list B) :
  fold_left (fun acc x => (acc ++ f x)%list) l acc
  = (acc ++ flat_map f l)%list.
Proof.
  revert acc. induction l as [|x l IH]; intros acc; cbn.
  - now rewrite app_nil_r.
  - now rewrite IH, app_assoc.
Qed.

Lemma template_lines_blocks (NEW_CONFIG : string)
    (device_list : dict device_record) :
  template_lines NEW_CONFIG device_list
  = (flat_map (template_block device_list) (keys device_list)
     ++ [NEW_CONFIG])%list.
Proof.
  unfold template_lines. now rewrite fold_left_app_flat_map.
Qed.

Lemma generateTemplatePayload_run (NEW_CONFIG : string)
    (device_list : dict device_record) (w : World) :
  generateTemplatePayload NEW_CONFIG device_list w
  = (Ret (join LF (template_lines NEW_CONFIG device_list)),
     shown w
       [ConsoleStatus "Generating template payload...";
        ConsolePrint "[green][bold]Template generated!"]).
Proof.
  unfold generateTemplatePayload, bind, shown. cbn.
  now rewrite <- app_assoc.
Qed.

(** The lines of the text returned are the lines appended, as long as
    none of them contains a line feed. *)
Lemma template_text_lines (NEW_CONFIG : string)
    (device_list : dict device_record) :
  Forall (fun l => ~ In (ascii_of_nat 10) (list_ascii_of_string l))
    (template_lines NEW_CONFIG device_list) ->
  split (ascii_of_nat 10)
    (join LF (template_lines NEW_CONFIG device_list))
  = template_lines NEW_CONFIG device_list.
Proof.
  intros Hall. apply split_join; [|exact Hall].
  rewrite template_lines_blocks. now destruct (flat_map _ _).
Qed.

Lemma guard_open_inj (d d' : string) : guard_open d = guard_open d' -> d = d'.
Proof.
  unfold guard_open. intros H. apply append_inv_head in H.
  now apply append_inv_tail in H.
Qed.

(** The lines of a block: blank, a directive in [#], or a removal. *)
Lemma template_block_shape (device_list : dict device_record)
    (device line : string) :
  In line (template_block device_list device) ->
  line = guard_open device \/ line = "#end" \/ line = EmptyString
  \/ exists item, line = negate item.
Proof.
  unfold template_block.
  destruct (dict_get device_list device) as [r|]; [|intros []].
  destruct (bad_config r) as [items|]; [|intros []].
  intros [<-|Hin]; [now left|].
  apply in_app_or in Hin as [Hin|[<-|[<-|[]]]]; auto.
  apply in_map_iff in Hin as (item & <- & _). right. right. right.
  now exists item.
Qed.

Lemma guard_in_block (device_list : dict device_record) (k d : string) :
  In (guard_open d) (template_block device_list k) ->
  k = d
  /\ exists r items,
       dict_get device_list d = Some r /\ bad_config r = Some items.
Proof.
  intros Hin.
  assert (E : k = d).
  { apply template_block_shape in Hin
      as [E|[E|[E|(item & E)]]]; try discriminate.
    symmetry. now apply guard_open_inj. }
  subst k. split; [reflexivity|]. unfold template_block in Hin.
  destruct (dict_get device_list d) as [r|]; [|destruct Hin].
  destruct (bad_config r) as [items|] eqn:Hb; [|destruct Hin].
  now exists r, items.
Qed.

Lemma in_before_last {A} (l before rest : list A) (x y z : A) :
  (l ++ [x] = before ++ y :: rest ++ [z])%list -> In y l.
Proof.
  intros H.
  replace (before ++ y :: rest ++ [z])%list
    with ((before ++ y :: rest) ++ [z])%list in H
    by now rewrite <- app_assoc.
  apply app_inj_tail in H as [-> _]. apply in_or_app. right. now left.
Qed.

(** A device has a guard block in the template exactly when its record
    carries the key [bad_config]. *)
Lemma in_guard_block_iff (NEW_CONFIG : string)
    (device_list : dict device_record) (d : string) :
  in_guard_block d (template_lines NEW_CONFIG device_list)
  <-> exists r items,
        dict_get device_list d = Some r /\ bad_config r = Some items.
Proof.
  rewrite template_lines_blocks. split.
  - intros (before & items & after & H).
    assert (Hin : In (guard_open d)
                    (flat_map (template_block device_list)
                       (keys device_list))).
    { destruct (exists_last (l := "#end" :: EmptyString :: after))
        as (rest & z & Hrest); [discriminate|].
      rewrite Hrest in H.
      replace (map negate items ++ rest ++ [z])%list
        with ((map negate items ++ rest) ++ [z])%list in H
        by now rewrite <- app_assoc.
      now apply in_before_last in H. }
    apply in_flat_map in Hin as (k & _ & Hk).
    now apply guard_in_block in Hk.
  - intros (r & items & Hget & Hbad).
    pose proof (dict_get_in_keys _ _ _ Hget) as Hkey.
    apply in_split in Hkey as (k1 & k2 & Hkeys).
    exists (flat_map (template_block device_list) k1), items,
      (flat_map (template_block device_list) k2 ++ [NEW_CONFIG])%list.
    rewrite Hkeys, flat_map_app. cbn [flat_map].
    unfold template_block at 2. rewrite Hget, Hbad.
    rewrite <- !app_assoc. cbn. rewrite <- !app_assoc. reflexivity.
Qed.

Lemma block_line_shape (device_list : dict device_record) (line : string) :
  In line (flat_map (template_block device_list) (keys device_list)) ->
  line = EmptyString \/ prefix "#" line = true \/ prefix "no " line = true.
Proof.
  intros Hin. apply in_flat_map in Hin as (k & _ & Hk).
  apply template_block_shape in Hk as [->|[->|[->|(item & ->)]]].
  - right. left. reflexivity.
  - right. left. reflexivity.
  - now left.
  - right. right. unfold negate. cbn. now destruct item.
Qed.

(** C4, as the code has it. A directive that is not empty and begins
    neither with [#] nor with [no ] is one line of the template and only
    one: the last appended, hence the last line that is not empty,
    whatever the devices and their findings. The text returned is these
    lines joined by line feeds. *)
Theorem template_directive_once (NEW_CONFIG : string)
    (device_list : dict device_record) :
  NEW_CONFIG <> EmptyString ->
  prefix "#" NEW_CONFIG = false ->
  prefix "no " NEW_CONFIG = false ->
  count_occ string_dec (template_lines NEW_CONFIG device_list) NEW_CONFIG = 1
  /\ last (template_lines NEW_CONFIG device_list) EmptyString = NEW_CONFIG
  /\ final_nonempty_line (template_lines NEW_CONFIG device_list)
     = Some NEW_CONFIG
  /\ forall w,
       fst (generateTemplatePayload NEW_CONFIG device_list w)
       = Ret (join LF (template_lines NEW_CONFIG device_list)).
Proof.
  intros Hne Hsharp Hno. rewrite template_lines_blocks.
  set (blocks := flat_map (template_block device_list) (keys device_list)).
  repeat split.
  - rewrite count_occ_app.
    assert (H0 : count_occ string_dec blocks NEW_CONFIG = 0).
    { apply count_occ_not_In. intros Hin.
      apply block_line_shape in Hin as [E|[E|E]]; congruence. }
    rewrite H0. cbn. now destruct (string_dec NEW_CONFIG NEW_CONFIG).
  - apply last_last.
  - unfold final_nonempty_line. rewrite filter_app, map_app. cbn [filter].
    destruct (String.eqb_spec NEW_CONFIG EmptyString) as [E|_];
      [contradiction|].
    cbn [negb map]. apply last_last.
  - intros w. rewrite generateTemplatePayload_run.
    now rewrite template_lines_blocks.
Qed.

Lemma template_directive_once_scenario :
  count_occ string_dec
    (template_lines "snmp-server host 10.0.0.2 community public"
       flagged_device)
    "snmp-server host 10.0.0.2 community public" = 1
  /\ final_nonempty_line
       (template_lines "snmp-server host 10.0.0.2 community public"
          flagged_device)
     = Some "snmp-server host 10.0.0.2 community public".
Proof.
  destruct (template_directive_once
              "snmp-server host 10.0.0.2 community public" flagged_device)
    as (Hcount & _ & Hfinal & _).
  - discriminate.
  - reflexivity.
  - reflexivity.
  - split; [exact Hcount | exact Hfinal].
Defined.

(** C4, as the claim has it, fails for some directives: a directive that is
    a line of a guard block occurs more than once, and an empty directive
    is not the last line that is not empty (there may be no such line). *)
Lemma template_directive_not_once :
  count_occ string_dec (template_lines "#end" flagged_device) "#end" = 2
  /\ count_occ string_dec
       (template_lines "no snmp-server host 10.0.0.1 community wrongcomm"
          flagged_device)
       "no snmp-server host 10.0.0.1 community wrongcomm" = 2
  /\ final_nonempty_line (template_lines EmptyString flagged_device)
     = Some "#end"
  /\ final_nonempty_line (template_lines EmptyString compliant_devices)
     = None.
Proof. repeat split; vm_compute; reflexivity. Qed.

(** C9. When no record carries the key [bad_config], the text returned is
    the directive itself: nothing precedes it. *)
Theorem generateTemplatePayload_no_findings (NEW_CONFIG : string)
    (device_list : dict device_record) (w : World) :
  (forall d r, dict_get device_list d = Some r -> bad_config r = None) ->
  fst (generateTemplatePayload NEW_CONFIG device_list w) = Ret NEW_CONFIG
  /\ template_lines NEW_CONFIG device_list = [NEW_CONFIG].
Proof.
  intros Hnone.
  assert (Hblocks : forall ks,
            flat_map (template_block device_list) ks = []).
  { induction ks as [|k ks IH]; [reflexivity|]. cbn [flat_map].
    rewrite IH, app_nil_r. unfold template_block.
    destruct (dict_get device_list k) as [r|] eqn:Hget; [|reflexivity].
    now rewrite (Hnone k r Hget). }
  assert (Hlines : template_lines NEW_CONFIG device_list = [NEW_CONFIG]).
  { now rewrite template_lines_blocks, Hblocks. }
  split; [|exact Hlines].
  rewrite generateTemplatePayload_run, Hlines. reflexivity.
Qed.

Lemma generateTemplatePayload_no_findings_scenario :
  fst (generateTemplatePayload "snmp-server host 10.0.0.2 community public"
         compliant_devices initial_world)
  = Ret "snmp-server host 10.0.0.2 community public".
Proof.
  apply (generateTemplatePayload_no_findings
           "snmp-server host 10.0.0.2 community public" compliant_devices
           initial_world).
  intros d r. unfold compliant_devices. cbn [dict_get].
  destruct (d =? "10.0.0.2")%string; [intros [= <-]; reflexivity|].
  destruct (d =? "10.0.0.3")%string; [intros [= <-]; reflexivity|].
  discriminate.
Defined.

Lemma dict_get_view (device_list : dict device_record) (k : string) :
  dict_get (findings_view device_list) k
  = option_map bad_config (dict_get device_list k).
Proof.
  induction device_list as [|[k' r] device_list IH]; cbn; [reflexivity|].
  destruct (k =? k')%string; [reflexivity | exact IH].
Qed.

Lemma keys_view (device_list : dict device_record) :
  keys (findings_view device_list) = keys device_list.
Proof.
  unfold keys, findings_view. rewrite map_map. reflexivity.
Qed.

(** The template is a function of the addresses in order and of the
    findings attached to them. *)
Lemma template_lines_view (NEW_CONFIG : string)
    (dl1 dl2 : dict device_record) :
  findings_view dl1 = findings_view dl2 ->
  template_lines NEW_CONFIG dl1 = template_lines NEW_CONFIG dl2.
Proof.
  intros Hview. rewrite !template_lines_blocks.
  rewrite <- (keys_view dl1), <- (keys_view dl2), Hview. f_equal.
  apply flat_map_ext. intros k. unfold template_block.
  pose proof (dict_get_view dl1 k) as H1.
  pose proof (dict_get_view dl2 k) as H2. rewrite Hview in H1.
  rewrite H1 in H2.
  destruct (dict_get dl1 k) as [r1|], (dict_get dl2 k) as [r2|];
    cbn in H2; try discriminate; [|reflexivity].
  injection H2 as H2. now rewrite H2.
Qed.

(** C6. Two runs of the generator on the same devices in the same order
    with the same findings, and with the same directive, return the same
    text, whatever the state of the console and of the controller in each
    run, and whatever identifiers the controller gave the devices. *)
Theorem generateTemplatePayload_deterministic (NEW_CONFIG : string)
    (dl1 dl2 : dict device_record) (w1 w2 : World) :
  findings_view dl1 = findings_view dl2 ->
  exists text,
    fst (generateTemplatePayload NEW_CONFIG dl1 w1) = Ret text
    /\ fst (generateTemplatePayload NEW_CONFIG dl2 w2) = Ret text.
Proof.
  intros Hview. exists (join LF (template_lines NEW_CONFIG dl1)).
  rewrite !generateTemplatePayload_run.
  now rewrite (template_lines_view NEW_CONFIG dl1 dl2 Hview).
Qed.

Lemma generateTemplatePayload_deterministic_scenario :
  exists text,
    fst (generateTemplatePayload "snmp-server host 10.0.0.2 community public"
           flagged_device initial_world) = Ret text
    /\ fst (generateTemplatePayload
              "snmp-server host 10.0.0.2 community public"
              flagged_device_again
              (mkWorld [ConsolePrint "Connected to DNAC"] 4 0 9 [] []))
       = Ret text.
Proof.
  apply (generateTemplatePayload_deterministic
           "snmp-server host 10.0.0.2 community public"
           flagged_device flagged_device_again).
  reflexivity.
Defined.

(** ** The pipeline: validation of every device, then the template *)

Section Pipeline.

Variable VALID_SNMP_SERVER_HOST : string.
Variable VALID_SNMP_SERVER_COMMUNITY : string.
Variable NEW_CONFIG : string.
Variable LOCATION_FILTER : list string.
Variable dnac_device_location : string -> string.
Variable os_listdir : string -> option (list string).
Variable open_lines : string -> option (list string).

Let findings' :=
  findings VALID_SNMP_SERVER_HOST VALID_SNMP_SERVER_COMMUNITY os_listdir
    open_lines.
Let attach' :=
  attach_findings VALID_SNMP_SERVER_HOST VALID_SNMP_SERVER_COMMUNITY
    os_listdir open_lines.
Let validate_device' :=
  run_validate_device VALID_SNMP_SERVER_HOST VALID_SNMP_SERVER_COMMUNITY
    os_listdir open_lines.
Let target_devices' := run_target_devices LOCATION_FILTER dnac_device_location.

(** One device of the loop of lines 412-425. *)
Lemma run_validate_device_run (target_devices : dict device_record)
    (deployable_devices : list deploy_target) (device : string)
    (config : list string) (w : World) :
  running_config_lines os_listdir open_lines device = Some config ->
  validate_device' (target_devices, deployable_devices) device w
  = (Ret (attach' target_devices device,
          (deployable_devices ++ [deployable_entry device])%list),
     shown w
       (validation_output VALID_SNMP_SERVER_HOST VALID_SNMP_SERVER_COMMUNITY
          device config)).
Proof.
  intros Hconfig.
  unfold validate_device', run_validate_device, attach', attach_findings,
    findings.
  rewrite (bind_Ret _ _ _ _ _
             (validate_snmp_config_run _ _ _ _ _ _ _ Hconfig)).
  rewrite Hconfig.
  destruct (bad_lines VALID_SNMP_SERVER_HOST VALID_SNMP_SERVER_COMMUNITY
              config); reflexivity.
Qed.

(** The whole loop: when the running configuration of every device can be
    read, each device has its findings attached and is appended to the
    targets. *)
Lemma run_validate_loop (devices : list string)
    (target_devices : dict device_record)
    (deployable_devices : list deploy_target) (w : World) :
  (forall d, In d devices ->
     running_config_lines os_listdir open_lines d <> None) ->
  exists w',
    foldM validate_device' devices (target_devices, deployable_devices) w
    = (Ret (fold_left attach' devices target_devices,
            (deployable_devices ++ map deployable_entry devices)%list),
       w').
Proof.
  revert target_devices deployable_devices w.
  induction devices as [|d devices IH];
    intros target_devices deployable_devices w Hread.
  - exists w. cbn. now rewrite app_nil_r.
  - destruct (running_config_lines os_listdir open_lines d) as [config|]
      eqn:Hconfig; [|exfalso; apply (Hread d); [now left | exact Hconfig]].
    cbn [foldM fold_left map].
    rewrite (bind_Ret _ _ _ _ _
               (run_validate_device_run _ _ _ _ _ Hconfig)).
    destruct (IH (attach' target_devices d)
                (deployable_devices ++ [deployable_entry d])%list
                (shown w
                   (validation_output VALID_SNMP_SERVER_HOST
                      VALID_SNMP_SERVER_COMMUNITY d config)))
      as (w' & Hrun).
    + intros d' Hd'. apply Hread. now right.
    + exists w'. rewrite Hrun, <- app_assoc. reflexivity.
Qed.

(** The record of a device after the loop. *)
Lemma attach_fold_get (devices : list string)
    (target_devices : dict device_record) (d : string) :
  dict_get (fold_left attach' devices target_devices) d
  = option_map
      (fun r =>
         if existsb (String.eqb d) devices
            && negb (Nat.eqb (List.length (findings' d)) 0)
         then mkRecord (rec_id r) (Some (findings' d))
         else r)
      (dict_get target_devices d).
Proof.
  revert target_devices.
  induction devices as [|k devices IH]; intros target_devices.
  - cbn. now destruct (dict_get target_devices d).
  - cbn [fold_left existsb]. rewrite IH.
    unfold attach', attach_findings. fold findings'.
    destruct (findings' k) as [|item items] eqn:Hk.
    + destruct (String.eqb_spec d k) as [->|_]; [|reflexivity].
      rewrite Hk. cbn. now rewrite !andb_false_r.
    + rewrite dict_get_adjust.
      destruct (String.eqb_spec d k) as [->|_]; [|reflexivity].
      rewrite Hk. cbn [List.length Nat.eqb negb orb andb].
      destruct (dict_get target_devices k) as [r|]; [|reflexivity].
      cbn. now destruct (existsb (String.eqb k) devices).
Qed.

Lemma attach_fold_keys (devices : list string)
    (target_devices : dict device_record) :
  keys (fold_left attach' devices target_devices) = keys target_devices.
Proof.
  revert target_devices.
  induction devices as [|k devices IH]; intros target_devices;
    [reflexivity|].
  cbn [fold_left]. rewrite IH. unfold attach', attach_findings.
  destruct (findings _ _ _ _ k); [reflexivity | apply keys_adjust].
Qed.

(** The records built from the device list (line 373) carry no findings,
    and every device that passes the location filter has one. *)
Lemma run_target_devices_fresh (devices : list device) (d : string)
    (r : device_record) :
  dict_get (target_devices' devices) d = Some r -> bad_config r = None.
Proof.
  unfold target_devices', run_target_devices.
  assert (H : forall acc,
            (forall r, dict_get acc d = Some r -> bad_config r = None) ->
            forall r,
              dict_get
                (fold_left
                   (fun target_devices device =>
                      if (1 <=? List.length LOCATION_FILTER)%nat
                         && negb
                              (existsb
                                 (String.eqb
                                    (dnac_device_location (dev_id device)))
                                 LOCATION_FILTER)
                      then target_devices
                      else
                        dict_set target_devices (managementIpAddress device)
                          (mkRecord (dev_id device) None))
                   devices acc) d = Some r ->
              bad_config r = None).
  { induction devices as [|dev devices IH]; intros acc Hacc r0; [apply Hacc|].
    cbn [fold_left]. apply IH.
    destruct (_ && _); [exact Hacc|].
    intros r1. rewrite dict_get_set.
    destruct (d =? managementIpAddress dev)%string;
      [intros [= <-]; reflexivity | apply Hacc]. }
  apply H. intros r0. discriminate.
Qed.

Lemma run_target_devices_keys (devices : list device) (dev : device) :
  In dev devices ->
  (LOCATION_FILTER = []
   \/ In (dnac_device_location (dev_id dev)) LOCATION_FILTER) ->
  In (managementIpAddress dev) (keys (target_devices' devices)).
Proof.
  intros Hin Hpass. unfold target_devices', run_target_devices.
  set (step := fun (target_devices : dict device_record) device => _).
  assert (Hmono : forall l acc k,
            In k (keys acc) -> In k (keys (fold_left step l acc))).
  { induction l as [|x l IH]; intros acc k Hk; [exact Hk|].
    cbn [fold_left]. apply IH. unfold step.
    destruct (_ && _); [exact Hk|].
    apply (proj2 (keys_set _ _ _)). exact Hk. }
  assert (Hstep : forall acc,
            In (managementIpAddress dev) (keys (step acc dev))).
  { intros acc. unfold step.
    assert (E : (1 <=? List.length LOCATION_FILTER)%nat
                && negb
                     (existsb (String.eqb (dnac_device_location (dev_id dev)))
                        LOCATION_FILTER) = false).
    { destruct Hpass as [->|Hloc]; [reflexivity|].
      apply andb_false_iff. right. apply negb_false_iff.
      apply existsb_exists. exists (dnac_device_location (dev_id dev)).
      split; [exact Hloc | apply String.eqb_refl]. }
    rewrite E. apply (proj1 (keys_set _ _ _)). }
  generalize (@nil (string * device_record)).
  induction devices as [|x devices IH]; intros acc; [destruct Hin|].
  cbn [fold_left]. destruct Hin as [->|Hin].
  - apply Hmono, Hstep.
  - now apply IH.
Qed.

(** A device has findings exactly when a line of its running configuration
    contains the keyword and lacks the expected host or community. *)
Lemma findings_nonempty (d : string) :
  findings' d <> []
  <-> exists config line,
        running_config_lines os_listdir open_lines d = Some config
        /\ In line config
        /\ Substring "snmp-server host" line
        /\ ~ (Substring VALID_SNMP_SERVER_HOST line
              /\ Substring VALID_SNMP_SERVER_COMMUNITY line).
Proof.
  unfold findings', findings, bad_lines.
  assert (Hbad : forall line,
            is_snmp_host_line line
            && negb (is_valid_line VALID_SNMP_SERVER_HOST
                       VALID_SNMP_SERVER_COMMUNITY line) = true
            <-> Substring "snmp-server host" line
                /\ ~ (Substring VALID_SNMP_SERVER_HOST line
                      /\ Substring VALID_SNMP_SERVER_COMMUNITY line)).
  { intros line. unfold is_valid_line.
    rewrite andb_true_iff, negb_true_iff, is_snmp_host_line_spec.
    rewrite <- !str_in_spec, <- andb_true_iff.
    destruct (str_in VALID_SNMP_SERVER_HOST line
              && str_in VALID_SNMP_SERVER_COMMUNITY line);
      intuition congruence. }
  destruct (running_config_lines os_listdir open_lines d) as [config|].
  - split.
    + intros Hne.
      destruct (filter _ config) as [|line rest] eqn:Hf; [now destruct Hne|].
      assert (Hin : In line (filter
                               (fun line =>
                                  is_snmp_host_line line
                                  && negb (is_valid_line
                                             VALID_SNMP_SERVER_HOST
                                             VALID_SNMP_SERVER_COMMUNITY
                                             line)) config))
        by (rewrite Hf; now left).
      apply filter_In in Hin as [Hin Hp]. apply Hbad in Hp as [Hsel Hnot].
      now exists config, line.
    + intros (config' & line & [= <-] & Hin & Hsel & Hnot) Hnil.
      assert (Hf : In line (filter
                              (fun line =>
                                 is_snmp_host_line line
                                 && negb (is_valid_line
                                            VALID_SNMP_SERVER_HOST
                                            VALID_SNMP_SERVER_COMMUNITY
                                            line)) config)).
      { apply filter_In. split; [exact Hin | now apply Hbad]. }
      apply (in_map strip) in Hf. rewrite Hnil in Hf. destruct Hf.
  - split; [intros H; now destruct H|].
    intros (config' & line & Hc & _). discriminate.
Qed.

(** The steps of lines 411-435 go through when the running configuration
    of every device can be read. *)
Lemma run_template_run (devices : list device) (w : World) :
  (forall d, In d (keys (target_devices' devices)) ->
     running_config_lines os_listdir open_lines d <> None) ->
  exists w',
    run_template VALID_SNMP_SERVER_HOST VALID_SNMP_SERVER_COMMUNITY NEW_CONFIG
      LOCATION_FILTER dnac_device_location os_listdir open_lines devices w
    = (Ret (join LF
              (template_lines NEW_CONFIG
                 (fold_left attach' (keys (target_devices' devices))
                    (target_devices' devices))),
            map deployable_entry (keys (target_devices' devices))),
       w').
Proof.
  intros Hread. unfold run_template, run_validate.
  destruct (run_validate_loop (keys (target_devices' devices))
              (target_devices' devices) [] w Hread) as (w1 & Hloop).
  rewrite (bind_Ret _ _ _ _ _ Hloop). cbn [fst snd app].
  rewrite (bind_Ret _ _ _ _ _ (generateTemplatePayload_run _ _ _)).
  eexists. reflexivity.
Qed.

(** C3. When the running configuration of every device can be read, the
    template is made of lines among which a device has a guard block
    exactly when it is one of the devices and a line of its running
    configuration contains the keyword and lacks the expected host or
    community; a device without findings has no guard block. *)
Theorem guard_block_iff_findings (devices : list device) (w : World) :
  (forall d,
     In d (keys (run_target_devices LOCATION_FILTER dnac_device_location
                   devices)) ->
     running_config_lines os_listdir open_lines d <> None) ->
  exists lines deployable_devices w',
    run_template VALID_SNMP_SERVER_HOST VALID_SNMP_SERVER_COMMUNITY NEW_CONFIG
      LOCATION_FILTER dnac_device_location os_listdir open_lines devices w
    = (Ret (join LF lines, deployable_devices), w')
    /\ (forall d,
          in_guard_block d lines
          <-> In d (keys (run_target_devices LOCATION_FILTER
                            dnac_device_location devices))
              /\ exists config line,
                   running_config_lines os_listdir open_lines d = Some config
                   /\ In line config
                   /\ Substring "snmp-server host" line
                   /\ ~ (Substring VALID_SNMP_SERVER_HOST line
                         /\ Substring VALID_SNMP_SERVER_COMMUNITY line))
    /\ (forall d,
          findings VALID_SNMP_SERVER_HOST VALID_SNMP_SERVER_COMMUNITY
            os_listdir open_lines d = [] ->
          ~ in_guard_block d lines).
Proof.
  intros Hread. destruct (run_template_run devices w Hread) as (w' & Hrun).
  eexists _, _, w'. split; [exact Hrun|].
  assert (Hguard : forall d,
            in_guard_block d
              (template_lines NEW_CONFIG
                 (fold_left attach' (keys (target_devices' devices))
                    (target_devices' devices)))
            <-> In d (keys (target_devices' devices)) /\ findings' d <> []).
  { intros d. rewrite in_guard_block_iff, attach_fold_get. split.
    - intros (r & items & Hget & Hbad).
      destruct (dict_get (target_devices' devices) d) as [r0|] eqn:Hget0;
        [|discriminate].
      split; [now apply dict_get_in_keys in Hget0|].
      cbn in Hget. injection Hget as <-.
      destruct (existsb (String.eqb d) (keys (target_devices' devices))
                && negb (Nat.eqb (List.length (findings' d)) 0)) eqn:Hc.
      + apply andb_true_iff in Hc as [_ Hc].
        intros E. rewrite E in Hc. discriminate.
      + apply run_target_devices_fresh in Hget0. congruence.
    - intros [Hkey Hne].
      destruct (in_keys_dict_get _ _ Hkey) as (r0 & Hget0).
      rewrite Hget0. cbn.
      assert (Hc : existsb (String.eqb d) (keys (target_devices' devices))
                   && negb (Nat.eqb (List.length (findings' d)) 0) = true).
      { apply andb_true_iff. split.
        - apply existsb_exists. exists d. split;
            [exact Hkey | apply String.eqb_refl].
        - destruct (findings' d); [now destruct Hne | reflexivity]. }
      rewrite Hc. now eexists _, _. }
  split.
  - intros d. rewrite Hguard, findings_nonempty. reflexivity.
  - intros d Hnil Hin. apply Hguard in Hin as [_ Hne]. now apply Hne.
Qed.

(** C10. When the running configuration of every device can be read, the
    targets handed to the deployment are one entry for each address of
    [target_devices], in order, whatever the findings: each entry is bound
    by the address and carries it as [device_ip]. Every device of the list
    that passes the location filter is among them, with or without
    findings. *)
Theorem deployable_devices_all (devices : list device) (w : World) :
  (forall d,
     In d (keys (run_target_devices LOCATION_FILTER dnac_device_location
                   devices)) ->
     running_config_lines os_listdir open_lines d <> None) ->
  exists template_payload deployable_devices w',
    run_template VALID_SNMP_SERVER_HOST VALID_SNMP_SERVER_COMMUNITY NEW_CONFIG
      LOCATION_FILTER dnac_device_location os_listdir open_lines devices w
    = (Ret (template_payload, deployable_devices), w')
    /\ deployable_devices
       = map (fun d => mkTarget d "MANAGED_DEVICE_IP" [("device_ip", d)])
           (keys (run_target_devices LOCATION_FILTER dnac_device_location
                    devices))
    /\ (forall dev,
          In dev devices ->
          LOCATION_FILTER = []
          \/ In (dnac_device_location (dev_id dev)) LOCATION_FILTER ->
          In (mkTarget (managementIpAddress dev) "MANAGED_DEVICE_IP"
                [("device_ip", managementIpAddress dev)])
             deployable_devices)
    /\ (forall d,
          In d (keys (run_target_devices LOCATION_FILTER dnac_device_location
                        devices)) ->
          findings VALID_SNMP_SERVER_HOST VALID_SNMP_SERVER_COMMUNITY
            os_listdir open_lines d = [] ->
          In (mkTarget d "MANAGED_DEVICE_IP" [("device_ip", d)])
             deployable_devices).
Proof.
  intros Hread. destruct (run_template_run devices w Hread) as (w' & Hrun).
  eexists _, _, w'. split; [exact Hrun|]. split; [reflexivity|]. split.
  - intros dev Hin Hpass.
    apply (in_map deployable_entry).
    now apply run_target_devices_keys.
  - intros d Hkey _. now apply (in_map deployable_entry).
Qed.

End Pipeline.

(** The fleet of two devices: the first has a guard block, the second has
    none, and both are targets of the deployment. *)
Lemma fleet_readable (d : string) :
  In d (keys (run_target_devices [] no_location fleet)) ->
  running_config_lines fleet_listdir fleet_lines d <> None.
Proof. intros [<-|[<-|[]]]; discriminate. Qed.

Lemma guard_block_iff_findings_fleet :
  exists lines deployable_devices w',
    run_template "10.0.0.2" "public"
      "snmp-server host 10.0.0.2 community public" [] no_location
      fleet_listdir fleet_lines fleet initial_world
    = (Ret (join LF lines, deployable_devices), w')
    /\ in_guard_block "10.0.0.1" lines
    /\ ~ in_guard_block "10.0.0.2" lines.
Proof.
  destruct (guard_block_iff_findings "10.0.0.2" "public"
              "snmp-server host 10.0.0.2 community public" [] no_location
              fleet_listdir fleet_lines fleet initial_world fleet_readable)
    as (lines & deployable_devices & w' & Hrun & Hguard & Hnone).
  exists lines, deployable_devices, w'. split; [exact Hrun|]. split.
  - apply Hguard. split; [now left|].
    exists one_device_config,
      (" snmp-server host 10.0.0.1 community wrongcomm" ++ LF).
    split; [reflexivity|]. split; [right; now left|]. split.
    + apply str_in_spec. reflexivity.
    + intros [H _]. apply str_in_spec in H. discriminate.
  - apply Hnone. reflexivity.
Defined.

Lemma deployable_devices_all_fleet :
  exists template_payload deployable_devices w',
    run_template "10.0.0.2" "public"
      "snmp-server host 10.0.0.2 community public" [] no_location
      fleet_listdir fleet_lines fleet initial_world
    = (Ret (template_payload, deployable_devices), w')
    /\ deployable_devices
       = [mkTarget "10.0.0.1" "MANAGED_DEVICE_IP" [("device_ip", "10.0.0.1")];
          mkTarget "10.0.0.2" "MANAGED_DEVICE_IP" [("device_ip", "10.0.0.2")]].
Proof.
  destruct (deployable_devices_all "10.0.0.2" "public"
              "snmp-server host 10.0.0.2 community public" [] no_location
              fleet_listdir fleet_lines fleet initial_world fleet_readable)
    as (template_payload & deployable_devices & w' & Hrun & Hall & _).
  exists template_payload, deployable_devices, w'.
  split; [exact Hrun | exact Hall].
Defined.

(** * Further properties of the script *)

(** ** The task poller, continued *)

Section TaskPollerMore.

Variable answers : string -> nat -> task_status.

(** X1. While no answer has [endTime] set the poller does not return:
    whatever number of turns it is given, it is still in its loop, has
    spent every turn on a query and has slept three seconds after each. *)
Theorem checkTaskStatus_unbounded (t : task) (fuel : nat) (w : World) :
  (forall n, task_polls w <= n ->
     truthy (endTime (answers (taskId t) n)) = false) ->
  exists w',
    checkTaskStatus answers fuel t w = (OutOfFuel, w')
    /\ task_polls w' = task_polls w + fuel
    /\ slept w' = slept w + 3 * fuel.
Proof.
  revert w. induction fuel as [|fuel IH]; intros w Hnone.
  - exists w. cbn. repeat split; lia.
  - rewrite checkTaskStatus_turn. cbv zeta.
    rewrite (Hnone (task_polls w)) by lia.
    set (w1 := mkWorld _ _ _ _ _ _).
    destruct (IH w1) as (w' & Hrun & Hp & Hs).
    + intros n Hn. apply Hnone.
      change (task_polls w1) with (S (task_polls w)) in Hn. lia.
    + exists w'. split; [exact Hrun|].
      change (task_polls w1) with (S (task_polls w)) in Hp.
      change (slept w1) with (slept w + 3) in Hs. split; lia.
Qed.

(** X2. When the poller returns, it has shown the progress of every answer
    it received, in order, and then the final message, and nothing else. *)
Theorem checkTaskStatus_progress (t : task) (k fuel : nat) (w : World) :
  (forall i, i < k ->
     truthy (endTime (answers (taskId t) (task_polls w + i))) = false) ->
  truthy (endTime (answers (taskId t) (task_polls w + k))) = true ->
  k < fuel ->
  console (snd (checkTaskStatus answers fuel t w))
  = (console w
     ++ poll_output answers (taskId t) (task_polls w) (S k)
     ++ [ConsolePrint "[green][bold]Task finsished!"])%list.
Proof.
  revert fuel w. induction k as [|k IH]; intros fuel w Hbefore Hat Hfuel.
  - destruct fuel as [|fuel]; [lia|].
    rewrite checkTaskStatus_turn. cbv zeta.
    rewrite Nat.add_0_r in Hat. rewrite Hat.
    unfold poll_output. cbn. rewrite <- !app_assoc. reflexivity.
  - destruct fuel as [|fuel]; [lia|].
    rewrite checkTaskStatus_turn. cbv zeta.
    pose proof (Hbefore 0 ltac:(lia)) as H0. rewrite Nat.add_0_r in H0.
    rewrite H0.
    set (w1 := mkWorld _ _ _ _ _ _).
    rewrite (IH fuel w1).
    + unfold poll_output.
      change (task_polls w1) with (S (task_polls w)).
      change (seq (task_polls w) (S (S k)))
        with (task_polls w :: seq (S (task_polls w)) (S k)).
      cbn [flat_map]. unfold w1. cbn [console].
      rewrite <- !app_assoc. reflexivity.
    + intros i Hi. change (task_polls w1) with (S (task_polls w)).
      rewrite Nat.add_succ_comm. apply Hbefore. lia.
    + change (task_polls w1) with (S (task_polls w)).
      rewrite Nat.add_succ_comm. exact Hat.
    + lia.
Qed.

End TaskPollerMore.

Lemma checkTaskStatus_unbounded_scenario :
  exists w',
    checkTaskStatus endless_answers 40 (mkTask "task-1") initial_world
    = (OutOfFuel, w')
    /\ task_polls w' = 40
    /\ slept w' = 120.
Proof.
  apply (checkTaskStatus_unbounded endless_answers (mkTask "task-1") 40
           initial_world).
  intros n _. reflexivity.
Defined.

Lemma checkTaskStatus_progress_scenario :
  console (snd (checkTaskStatus third_poll_answers 10 (mkTask "task-1")
                  initial_world))
  = (poll_output third_poll_answers "task-1" 0 3
     ++ [ConsolePrint "[green][bold]Task finsished!"])%list.
Proof.
  apply (checkTaskStatus_progress third_poll_answers (mkTask "task-1") 2 10
           initial_world).
  - intros i Hi. destruct i as [|[|i]]; [reflexivity | reflexivity | lia].
  - reflexivity.
  - lia.
Defined.

(** ** The deployment tracker, continued *)

Lemma split_app_sep_tail (c : ascii) (p b : string) :
  exists l, l <> [] /\ split c (p ++ String c b) = (l ++ split c b)%list.
Proof.
  induction p as [|a p (l & Hl & IH)].
  - exists [EmptyString]. split; [discriminate|].
    cbn [append split]. now rewrite Ascii.eqb_refl.
  - cbn [append split]. rewrite IH.
    destruct (Ascii.eqb a c).
    + exists (EmptyString :: l). split; [discriminate | reflexivity].
    + destruct l as [|x l]; [now destruct Hl|].
      exists (String a x :: l). split; [discriminate | reflexivity].
Qed.

(** Line 335: what follows the last colon, stripped. *)
Lemma deploy_id_after_colon (p b : string) :
  ~ In ":"%char (list_ascii_of_string b) ->
  strip (last (split ":" (p ++ ":" ++ b)) EmptyString) = strip b.
Proof.
  intros Hb. change (p ++ ":" ++ b) with (p ++ String ":" b).
  destruct (split_app_sep_tail ":" p b) as (l & _ & ->).
  rewrite (split_no_sep _ _ Hb). now rewrite last_last.
Qed.

Section DeploymentTrackerMore.

Variable deploymentId : string -> list deploy_target -> string.

(** The loop asks about one deployment only. *)
Lemma deployTemplate_loop_ext
    (answers1 answers2 : string -> nat -> deployment_status)
    (fuel : nat) (id : string) (w : World) :
  (forall n, answers1 id n = answers2 id n) ->
  deployTemplate_loop answers1 fuel id w
  = deployTemplate_loop answers2 fuel id w.
Proof.
  intros Hsame. revert w. induction fuel as [|fuel IH]; intros w;
    [reflexivity|].
  rewrite !deployTemplate_loop_turn. cbv zeta. rewrite Hsame.
  destruct (status (answers2 id (deploy_polls w)) =? "SUCCESS")%string;
    [reflexivity | apply IH].
Qed.

(** X5. The status queries are addressed to the text that follows the last
    colon of [deploymentId], stripped: two controllers that answer alike
    about this one identifier are tracked alike. *)
Theorem deployTemplate_asks_deploy_id
    (answers1 answers2 : string -> nat -> deployment_status)
    (fuel : nat) (template_id : string) (device_list : list deploy_target)
    (p b : string) (w : World) :
  deploymentId template_id device_list = p ++ ":" ++ b ->
  ~ In ":"%char (list_ascii_of_string b) ->
  (forall n, answers1 (strip b) n = answers2 (strip b) n) ->
  deployTemplate answers1 deploymentId fuel template_id device_list w
  = deployTemplate answers2 deploymentId fuel template_id device_list w.
Proof.
  intros Hid Hb Hsame. rewrite !deployTemplate_start.
  rewrite Hid, (deploy_id_after_colon p b Hb).
  now apply deployTemplate_loop_ext.
Qed.

Variable answers : string -> nat -> deployment_status.

(** The loop from any state, up to the first SUCCESS. *)
Lemma deployTemplate_loop_first_SUCCESS (k fuel : nat) (id : string)
    (w : World) :
  (forall i, i < k -> status (answers id (deploy_polls w + i)) <> "SUCCESS") ->
  status (answers id (deploy_polls w + k)) = "SUCCESS" ->
  k < fuel ->
  exists w',
    deployTemplate_loop answers fuel id w = (Ret tt, w')
    /\ deploy_polls w' = deploy_polls w + k + 1
    /\ slept w' = slept w + 3 * k
    /\ task_polls w' = task_polls w
    /\ unpacked w' = unpacked w
    /\ submitted w' = submitted w
    /\ (forall e, In e (console w) -> In e (console w'))
    /\ (forall i, i < k ->
          status (answers id (deploy_polls w + i)) = "FAILURE" ->
          In (PPrint (answers id (deploy_polls w + i))) (console w')).
Proof.
  revert fuel w. induction k as [|k IH]; intros fuel w Hbefore Hat Hfuel.
  - destruct fuel as [|fuel]; [lia|].
    rewrite deployTemplate_loop_turn. cbv zeta.
    rewrite Nat.add_0_r in Hat. rewrite Hat, String.eqb_refl.
    eexists. split; [reflexivity|]. cbn.
    repeat split; try lia.
    intros e He. apply in_or_app. left. apply in_or_app. now left.
  - destruct fuel as [|fuel]; [lia|].
    rewrite deployTemplate_loop_turn. cbv zeta.
    pose proof (Hbefore 0 ltac:(lia)) as H0. rewrite Nat.add_0_r in H0.
    destruct (String.eqb_spec (status (answers id (deploy_polls w)))
                "SUCCESS") as [E|_]; [contradiction|].
    set (w1 := mkWorld _ _ _ _ _ _).
    destruct (IH fuel w1) as (w' & Hrun & Hp & Hs & Ht & Hu & Hsub & Hc & Hf).
    + intros i Hi. change (deploy_polls w1) with (S (deploy_polls w)).
      rewrite Nat.add_succ_comm. apply Hbefore. lia.
    + change (deploy_polls w1) with (S (deploy_polls w)).
      rewrite Nat.add_succ_comm. exact Hat.
    + lia.
    + change (deploy_polls w1) with (S (deploy_polls w)) in Hp, Hf.
      change (slept w1) with (slept w + 3) in Hs.
      change (task_polls w1) with (task_polls w) in Ht.
      change (unpacked w1) with (unpacked w) in Hu.
      change (submitted w1) with (submitted w) in Hsub.
      exists w'. split; [exact Hrun|].
      repeat split; try assumption; try lia.
      * intros e He. apply Hc. unfold w1. cbn [console].
        apply in_or_app. left. apply in_or_app. now left.
      * intros [|i] Hi Hst.
        -- rewrite Nat.add_0_r in *. apply Hc. unfold w1. cbn [console].
           rewrite Hst, String.eqb_refl.
           apply in_or_app. right. right. now left.
        -- rewrite <- Nat.add_succ_comm in *. apply Hf; [lia | exact Hst].
Qed.

(** X3. When the first SUCCESS is the answer to query number [k], the
    tracker, given enough turns, returns after [k + 1] queries: it has
    submitted the template once, slept two seconds before the first query
    and three after each earlier answer, and printed the payload of every
    FAILURE answered on the way. *)
Theorem deployTemplate_returns_on_SUCCESS (k fuel : nat)
    (template_id : string) (device_list : list deploy_target) (w : World) :
  let id :=
    strip (last (split ":" (deploymentId template_id device_list))
             EmptyString) in
  (forall i, i < k -> status (answers id (deploy_polls w + i)) <> "SUCCESS") ->
  status (answers id (deploy_polls w + k)) = "SUCCESS" ->
  k < fuel ->
  exists w',
    deployTemplate answers deploymentId fuel template_id device_list w
    = (Ret tt, w')
    /\ deploy_polls w' = deploy_polls w + k + 1
    /\ slept w' = slept w + 2 + 3 * k
    /\ submitted w' = (submitted w ++ [(template_id, device_list)])%list
    /\ (forall i, i < k ->
          status (answers id (deploy_polls w + i)) = "FAILURE" ->
          In (PPrint (answers id (deploy_polls w + i))) (console w')).
Proof.
  cbv zeta. intros Hbefore Hat Hfuel. rewrite deployTemplate_start.
  set (w0 := mkWorld _ _ _ _ _ _).
  destruct (deployTemplate_loop_first_SUCCESS k fuel
              (strip (last (split ":" (deploymentId template_id device_list))
                        EmptyString)) w0 Hbefore Hat Hfuel)
    as (w' & Hrun & Hp & Hs & _ & _ & Hsub & _ & Hf).
  exists w'. split; [exact Hrun|].
  change (deploy_polls w0) with (deploy_polls w) in Hp, Hf.
  change (slept w0) with (slept w + 2) in Hs.
  change (submitted w0)
    with (submitted w ++ [(template_id, device_list)])%list in Hsub.
  repeat split; try assumption; lia.
Qed.

(** X4. SUCCESS is the only status that ends the tracking: while the
    controller answers anything else, the tracker is still in its loop
    after any number of turns, each spent on one more query. *)
Theorem deployTemplate_only_SUCCESS_ends (fuel : nat) (template_id : string)
    (device_list : list deploy_target) (w : World) :
  (forall id n, status (answers id n) <> "SUCCESS") ->
  exists w',
    deployTemplate answers deploymentId fuel template_id device_list w
    = (OutOfFuel, w')
    /\ deploy_polls w' = deploy_polls w + fuel
    /\ submitted w' = (submitted w ++ [(template_id, device_list)])%list.
Proof.
  intros Hno. rewrite deployTemplate_start.
  set (id := strip _). set (w0 := mkWorld _ _ _ _ _ _).
  assert (Hsub : forall n w1,
            submitted (snd (deployTemplate_loop answers n id w1))
            = submitted w1).
  { induction n as [|n IH]; intros w1; [reflexivity|].
    rewrite deployTemplate_loop_turn. cbv zeta.
    destruct (status (answers id (deploy_polls w1)) =? "SUCCESS")%string;
      [reflexivity|]. now rewrite IH. }
  destruct (deployTemplate_loop_no_SUCCESS answers fuel id w0 (Hno id))
    as (w' & Hrun & Hp & _).
  exists w'. split; [exact Hrun|]. split; [exact Hp|].
  specialize (Hsub fuel w0). now rewrite Hrun in Hsub.
Qed.

End DeploymentTrackerMore.

Lemma deployTemplate_returns_on_SUCCESS_scenario :
  exists w',
    deployTemplate late_success some_deploymentId 10 "template-1"
      [deployable_entry "10.0.0.1"] initial_world = (Ret tt, w')
    /\ deploy_polls w' = 4
    /\ slept w' = 11
    /\ In (PPrint failure_payload) (console w').
Proof.
  destruct (deployTemplate_returns_on_SUCCESS some_deploymentId late_success
              3 10 "template-1" [deployable_entry "10.0.0.1"] initial_world)
    as (w' & Hrun & Hp & Hs & _ & Hf).
  - intros i Hi. destruct i as [|[|[|i]]]; [discriminate.. | lia].
  - reflexivity.
  - lia.
  - exists w'. split; [exact Hrun|]. split; [exact Hp|]. split; [exact Hs|].
    apply (Hf 2); [lia | reflexivity].
Defined.

Lemma deployTemplate_only_SUCCESS_ends_scenario :
  exists w',
    deployTemplate stuck_deployment some_deploymentId 25 "template-1"
      [deployable_entry "10.0.0.1"] initial_world = (OutOfFuel, w')
    /\ deploy_polls w' = 25.
Proof.
  destruct (deployTemplate_only_SUCCESS_ends some_deploymentId
              stuck_deployment 25 "template-1"
              [deployable_entry "10.0.0.1"] initial_world)
    as (w' & Hrun & Hp & _).
  - intros id n. discriminate.
  - exists w'. split; [exact Hrun | exact Hp].
Defined.

Lemma deployTemplate_asks_deploy_id_scenario :
  deployTemplate late_success some_deploymentId 10 "template-1"
    [deployable_entry "10.0.0.1"] initial_world
  = deployTemplate
      (fun id n =>
         if (id =? "7d4e")%string then late_success id n
         else stuck_deployment id n)
      some_deploymentId 10 "template-1" [deployable_entry "10.0.0.1"]
      initial_world.
Proof.
  apply (deployTemplate_asks_deploy_id some_deploymentId late_success _ 10
           "template-1" [deployable_entry "10.0.0.1"]
           "Template Deployemnt Id" " 7d4e " initial_world).
  - reflexivity.
  - cbn. intros [H|[H|[H|[H|[H|[H|[]]]]]]]; discriminate.
  - intros n. reflexivity.
Defined.

(** ** The archive extractor, continued *)


Section ArchiveExtractorMore.

Variable entropy : nat -> nat.
Variable pyzipper_open : string -> option exn.
Variable pyzipper_extractall : string -> string -> option exn.


End ArchiveExtractorMore.


(** ** The configuration validator, continued *)

Lemma lstrip_decomp (s : string) :
  exists ws, s = ws ++ lstrip s /\ all_space ws.
Proof.
  induction s as [|c s (ws & Hs & Hws)].
  - exists EmptyString. split; [reflexivity | constructor].
  - cbn [lstrip]. destruct (is_space c) eqn:Hc.
    + exists (String c ws). split; [cbn; now rewrite <- Hs|].
      constructor; assumption.
    + exists EmptyString. split; [reflexivity | constructor].
Qed.

(** The stripped line is a part of the line. *)
Lemma strip_Substring (s : string) : Substring (strip s) s.
Proof.
  unfold strip.
  destruct (lstrip_decomp s) as (ws1 & H1 & _).
  destruct (rstrip_decomp (lstrip s)) as (ws2 & H2 & _).
  exists ws1, ws2. rewrite <- H2. exact H1.
Qed.

Lemma Substring_trans (a b c : string) :
  Substring a b -> Substring b c -> Substring a c.
Proof.
  intros (p1 & q1 & ->) (p2 & q2 & ->).
  exists (p2 ++ p1), (q1 ++ q2). now rewrite !append_assoc.
Qed.

Lemma rstrip_idempotent (s : string) : rstrip (rstrip s) = rstrip s.
Proof.
  induction s as [|c s IH]; [reflexivity|].
  cbn [rstrip]. destruct (rstrip s) as [|d r] eqn:Hr.
  - destruct (is_space c) eqn:Hc; [reflexivity|].
    cbn [rstrip]. now rewrite Hc.
  - cbn [rstrip] in *. now rewrite IH.
Qed.

Lemma lstrip_rstrip_lstrip (s : string) :
  lstrip (rstrip (lstrip s)) = rstrip (lstrip s).
Proof.
  induction s as [|c s IH]; [reflexivity|].
  cbn [lstrip]. destruct (is_space c) eqn:Hc; [exact IH|].
  cbn [rstrip]. destruct (rstrip s); rewrite ?Hc; cbn [lstrip];
    now rewrite Hc.
Qed.

(** [strip] leaves a stripped string as it is. *)
Lemma strip_idempotent (s : string) : strip (strip s) = strip s.
Proof.
  unfold strip. now rewrite lstrip_rstrip_lstrip, rstrip_idempotent.
Qed.

Lemma running_config_of_from (path : string) (files : list string)
    (bound : option string) :
  fold_left
    (fun running_config file =>
       if endswith file "RUNNINGCONFIG.cfg" then Some (path ++ file)
       else running_config)
    files bound
  = last
      (map (fun file => Some (path ++ file))
         (filter (fun file => endswith file "RUNNINGCONFIG.cfg") files))
      bound.
Proof.
  revert bound. induction files as [|file files IH]; intros bound.
  - reflexivity.
  - cbn [fold_left filter]. rewrite IH.
    destruct (endswith file "RUNNINGCONFIG.cfg"); [|reflexivity].
    cbn [map].
    destruct (map _ (filter _ files)) as [|o l] eqn:Hm; [reflexivity|].
    change (last (o :: l) (Some (path ++ file)) = last (o :: l) bound).
    apply last_nonempty_default.
Qed.

Lemma running_config_of_none (path : string) (files : list string) :
  running_config_of path files = None
  <-> forall f, In f files -> endswith f "RUNNINGCONFIG.cfg" = false.
Proof.
  unfold running_config_of. rewrite running_config_of_from. split.
  - intros Hnone f Hin.
    destruct (endswith f "RUNNINGCONFIG.cfg") eqn:He; [|reflexivity].
    assert (Hf : In f (filter (fun file => endswith file "RUNNINGCONFIG.cfg")
                         files)) by (apply filter_In; now split).
    destruct (filter _ files) as [|x l]; [destruct Hf|].
    exfalso. clear Hf. revert x Hnone.
    induction l as [|y l IHl]; intros x Hnone; [discriminate|].
    apply (IHl y). exact Hnone.
  - intros Hno.
    assert (E : filter (fun file => endswith file "RUNNINGCONFIG.cfg") files
                = []).
    { induction files as [|x files IH]; [reflexivity|]. cbn [filter].
      rewrite (Hno x) by now left. apply IH. intros f Hf. apply Hno.
      now right. }
    now rewrite E.
Qed.

Lemma running_config_of_last (path : string) (pre post : list string)
    (f : string) :
  endswith f "RUNNINGCONFIG.cfg" = true ->
  (forall g, In g post -> endswith g "RUNNINGCONFIG.cfg" = false) ->
  running_config_of path (pre ++ f :: post) = Some (path ++ f).
Proof.
  intros Hf Hpost. unfold running_config_of.
  rewrite fold_left_app. cbn [fold_left]. rewrite Hf.
  generalize (path ++ f). intros chosen.
  induction post as [|g post IH]; [reflexivity|].
  cbn [fold_left]. rewrite (Hpost g) by now left.
  apply IH. intros h Hh. apply Hpost. now right.
Qed.

Section ConfigValidatorMore.

Variable VALID_SNMP_SERVER_HOST : string.
Variable VALID_SNMP_SERVER_COMMUNITY : string.
Variable os_listdir : string -> option (list string).
Variable open_lines : string -> option (list string).

(** An unreadable running configuration makes the call raise. *)
Lemma validate_snmp_config_raises (device_ip : string) (w : World) :
  running_config_lines os_listdir open_lines device_ip = None ->
  exists e,
    validate_snmp_config VALID_SNMP_SERVER_HOST VALID_SNMP_SERVER_COMMUNITY
      os_listdir open_lines device_ip w
    = (Raise e,
       shown w [ConsolePrint ("Reading config for device at " ++ device_ip)]).
Proof.
  unfold running_config_lines, validate_snmp_config. intros Hnone.
  unfold bind at 1. cbn [console_print emit].
  destruct (os_listdir _) as [files|];
    [|now exists FileNotFoundError].
  destruct (running_config_of _ files) as [running_config|];
    [|now exists UnboundLocalError].
  rewrite Hnone. now exists OSError.
Qed.

(** X7. A device whose running configuration cannot be read is not
    validated: the call raises after printing the line that names the
    device and nothing else, and the exception is the unbound
    [running_config] exactly when the directory exists and holds no file
    whose name ends in [RUNNINGCONFIG.cfg]. *)
Theorem validate_snmp_config_unreadable (device_ip : string) (w : World) :
  running_config_lines os_listdir open_lines device_ip = None ->
  exists e,
    validate_snmp_config VALID_SNMP_SERVER_HOST VALID_SNMP_SERVER_COMMUNITY
      os_listdir open_lines device_ip w
    = (Raise e,
       shown w [ConsolePrint ("Reading config for device at " ++ device_ip)])
    /\ (e = UnboundLocalError
        <-> exists files,
              os_listdir ("./configfiles/" ++ device_ip ++ "/") = Some files
              /\ forall f, In f files ->
                           endswith f "RUNNINGCONFIG.cfg" = false).
Proof.
  unfold running_config_lines, validate_snmp_config. intros Hnone.
  unfold bind at 1. cbn [console_print emit].
  destruct (os_listdir _) as [files|] eqn:Hdir.
  - destruct (running_config_of _ files) as [running_config|] eqn:Hrc.
    + rewrite Hnone. exists OSError. split; [reflexivity|].
      split; [discriminate|]. intros (files' & [= <-] & Hno).
      rewrite (proj2 (running_config_of_none
                        ("./configfiles/" ++ device_ip ++ "/") files) Hno)
        in Hrc.
      discriminate.
    + exists UnboundLocalError. split; [reflexivity|].
      split; [|reflexivity]. intros _. exists files.
      split; [reflexivity|].
      exact (proj1 (running_config_of_none _ _) Hrc).
  - exists FileNotFoundError. split; [reflexivity|].
    split; [discriminate|]. intros (files' & Hf & _). discriminate.
Qed.

(** X8. When several files of the device's directory end in
    [RUNNINGCONFIG.cfg], the one listed last is validated: the call
    behaves as if it were the only file of the directory. *)
Theorem validate_snmp_config_last_file (device_ip : string)
    (pre post : list string) (f : string) (w : World) :
  os_listdir ("./configfiles/" ++ device_ip ++ "/")
  = Some (pre ++ f :: post)%list ->
  endswith f "RUNNINGCONFIG.cfg" = true ->
  (forall g, In g post -> endswith g "RUNNINGCONFIG.cfg" = false) ->
  validate_snmp_config VALID_SNMP_SERVER_HOST VALID_SNMP_SERVER_COMMUNITY
    os_listdir open_lines device_ip w
  = validate_snmp_config VALID_SNMP_SERVER_HOST VALID_SNMP_SERVER_COMMUNITY
      (fun _ => Some [f]) open_lines device_ip w.
Proof.
  intros Hdir Hf Hpost. unfold validate_snmp_config. rewrite Hdir.
  rewrite (running_config_of_last _ pre post f Hf Hpost).
  rewrite (running_config_of_last _ [] [] f Hf) by (intros g []).
  reflexivity.
Qed.

(** What a normal return of the validator means. *)
Lemma validate_snmp_config_Ret (device_ip : string) (result : list string)
    (w w' : World) :
  validate_snmp_config VALID_SNMP_SERVER_HOST VALID_SNMP_SERVER_COMMUNITY
    os_listdir open_lines device_ip w = (Ret result, w') ->
  exists config,
    running_config_lines os_listdir open_lines device_ip = Some config
    /\ result
       = bad_lines VALID_SNMP_SERVER_HOST VALID_SNMP_SERVER_COMMUNITY config
    /\ w' = shown w
              (validation_output VALID_SNMP_SERVER_HOST
                 VALID_SNMP_SERVER_COMMUNITY device_ip config).
Proof.
  intros Hrun.
  destruct (running_config_lines os_listdir open_lines device_ip)
    as [config|] eqn:Hconfig.
  - rewrite (validate_snmp_config_run _ _ _ _ _ _ w Hconfig) in Hrun.
    injection Hrun as <- <-. now exists config.
  - destruct (validate_snmp_config_raises device_ip w Hconfig) as (e & He).
    rewrite He in Hrun. discriminate.
Qed.

End ConfigValidatorMore.

(** X9. Every finding the validator returns is a stripped line: stripping
    it again changes nothing. It contains the keyword [snmp-server host],
    and it lacks the expected host or the expected community. *)
Theorem validate_snmp_config_findings_shape (host community : string)
    (os_listdir open_lines : string -> option (list string))
    (device_ip : string) (result : list string) (w : World) :
  fst (validate_snmp_config host community os_listdir open_lines device_ip w)
  = Ret result ->
  forall x,
    In x result ->
    strip x = x
    /\ Substring "snmp-server host" x
    /\ ~ (Substring host x /\ Substring community x).
Proof.
  intros Hrun x Hx.
  destruct (validate_snmp_config host community os_listdir open_lines
              device_ip w) as [r w'] eqn:Hv.
  cbn in Hrun. subst r.
  apply validate_snmp_config_Ret in Hv as (config & _ & -> & _).
  unfold bad_lines in Hx. apply in_map_iff in Hx as (line & <- & Hline).
  apply filter_In in Hline as [_ Hp].
  apply andb_true_iff in Hp as [Hsel Hbad]. apply negb_true_iff in Hbad.
  split; [apply strip_idempotent|]. split.
  - apply str_in_spec. exact Hsel.
  - intros [Hh Hc].
    assert (Hv : is_valid_line host community line = true).
    { unfold is_valid_line. apply andb_true_iff.
      split; apply str_in_spec;
        eapply Substring_trans; eauto using strip_Substring. }
    congruence.
Qed.

Lemma validate_snmp_config_findings_shape_scenario :
  strip "snmp-server host 10.0.0.1 community wrongcomm"
  = "snmp-server host 10.0.0.1 community wrongcomm"
  /\ Substring "snmp-server host"
       "snmp-server host 10.0.0.1 community wrongcomm"
  /\ ~ (Substring "10.0.0.2" "snmp-server host 10.0.0.1 community wrongcomm"
        /\ Substring "public"
             "snmp-server host 10.0.0.1 community wrongcomm").
Proof.
  apply (validate_snmp_config_findings_shape "10.0.0.2" "public"
           one_device_listdir one_device_lines "10.0.0.1"
           ["snmp-server host 10.0.0.1 community wrongcomm"] initial_world).
  - reflexivity.
  - now left.
Defined.

(** X10. The validator prints that no matching configuration was found
    exactly when no line of the running configuration contains the
    keyword; an empty result without this message means that every
    selected line was compliant. *)
Theorem validate_snmp_config_no_match (host community : string)
    (os_listdir open_lines : string -> option (list string))
    (device_ip : string) (config : list string) (w : World) :
  running_config_lines os_listdir open_lines device_ip = Some config ->
  exists output,
    console
      (snd (validate_snmp_config host community os_listdir open_lines
              device_ip w))
    = (console w ++ output)%list
    /\ (In (ConsolePrint
              "[yellow][bold]No matching config found for device.[/bold][/yellow]")
           output
        <-> forall line, In line config ->
                         ~ Substring "snmp-server host" line).
Proof.
  intros Hconfig.
  rewrite (validate_snmp_config_run _ _ _ _ _ _ w Hconfig).
  exists (validation_output host community device_ip config).
  split; [reflexivity|].
  assert (Hex : existsb is_snmp_host_line config = false
                <-> forall line, In line config ->
                                 ~ Substring "snmp-server host" line).
  { split.
    - intros He line Hin Hsub. apply is_snmp_host_line_spec in Hsub.
      assert (Ht : existsb is_snmp_host_line config = true)
        by (apply existsb_exists; now exists line).
      congruence.
    - intros Hno. destruct (existsb is_snmp_host_line config) eqn:He;
        [|reflexivity].
      apply existsb_exists in He as (line & Hin & Hsel).
      apply is_snmp_host_line_spec in Hsel. now apply Hno in Hsel. }
  rewrite <- Hex. unfold validation_output. split.
  - intros [H|H]; [discriminate|].
    apply in_app_or in H as [H|H].
    + apply in_map_iff in H as (line & H & _).
      unfold verdict_event in H. destruct (classify _ _ _); discriminate.
    + apply in_app_or in H as [H|[H|[]]]; [|discriminate].
      destruct (existsb is_snmp_host_line config);
        [destruct H | reflexivity].
  - intros He. right. apply in_or_app. right. apply in_or_app. left.
    rewrite He. now left.
Qed.

Lemma validate_snmp_config_no_match_scenario :
  exists output,
    console
      (snd (validate_snmp_config "10.0.0.2" "public" one_device_listdir
              one_device_lines "10.0.0.1" initial_world))
    = output
    /\ ~ In (ConsolePrint
               "[yellow][bold]No matching config found for device.[/bold][/yellow]")
            output.
Proof.
  destruct (validate_snmp_config_no_match "10.0.0.2" "public"
              one_device_listdir one_device_lines "10.0.0.1"
              one_device_config initial_world eq_refl)
    as (output & Hout & Hiff).
  exists output. split; [exact Hout|].
  intros Hin. pose proof (proj1 Hiff Hin) as Hno.
  apply (Hno (" snmp-server host 10.0.0.1 community wrongcomm" ++ LF)).
  - right. now left.
  - apply str_in_spec. reflexivity.
Defined.

(** X11. With the expected host and community left empty, as the script
    is shipped, every line passes the test: the validator reports no
    finding for any device it can read. *)
Theorem validate_snmp_config_empty_expected
    (os_listdir open_lines : string -> option (list string))
    (device_ip : string) (config : list string) (w : World) :
  running_config_lines os_listdir open_lines device_ip = Some config ->
  fst (validate_snmp_config EmptyString EmptyString os_listdir open_lines
         device_ip w) = Ret [].
Proof.
  intros Hconfig.
  rewrite (validate_snmp_config_run _ _ _ _ _ _ w Hconfig). cbn [fst].
  f_equal. unfold bad_lines. clear Hconfig.
  induction config as [|line config IH]; [reflexivity|].
  cbn [filter].
  assert (Hv : is_valid_line EmptyString EmptyString line = true)
    by (unfold is_valid_line; now destruct line).
  rewrite Hv, andb_false_r. exact IH.
Qed.

Lemma validate_snmp_config_empty_expected_scenario :
  fst (validate_snmp_config EmptyString EmptyString one_device_listdir
         one_device_lines "10.0.0.1" initial_world) = Ret [].
Proof.
  apply (validate_snmp_config_empty_expected one_device_listdir
           one_device_lines "10.0.0.1" one_device_config initial_world).
  reflexivity.
Defined.

Lemma validate_snmp_config_unreadable_scenario :
  exists e,
    validate_snmp_config "10.0.0.2" "public" fleet_listdir fleet_lines
      "10.0.0.9" initial_world
    = (Raise e,
       shown initial_world
         [ConsolePrint "Reading config for device at 10.0.0.9"])
    /\ e <> UnboundLocalError.
Proof.
  destruct (validate_snmp_config_unreadable "10.0.0.2" "public" fleet_listdir
              fleet_lines "10.0.0.9" initial_world eq_refl)
    as (e & Hrun & Hiff).
  exists e. split; [exact Hrun|].
  intros He. apply Hiff in He as (files & Hdir & _). discriminate.
Defined.

Lemma validate_snmp_config_last_file_scenario :
  validate_snmp_config "10.0.0.2" "public" stale_listdir
    one_device_lines "10.0.0.1" initial_world
  = validate_snmp_config "10.0.0.2" "public"
      (fun _ => Some ["10.0.0.1_RUNNINGCONFIG.cfg"]) one_device_lines
      "10.0.0.1" initial_world.
Proof.
  apply (validate_snmp_config_last_file "10.0.0.2" "public"
           stale_listdir one_device_lines "10.0.0.1"
           ["10.0.0.1_old_RUNNINGCONFIG.cfg"] ["notes.txt"]
           "10.0.0.1_RUNNINGCONFIG.cfg" initial_world).
  - reflexivity.
  - reflexivity.
  - intros g [<-|[]]. reflexivity.
Defined.

(** ** The template generator, continued *)

Lemma negate_not_end (x : string) : negate x <> "#end".
Proof. discriminate. Qed.

Lemma negate_not_guard (x d : string) : negate x <> guard_open d.
Proof. discriminate. Qed.

Lemma cons_inj {A} (x y : A) (l m : list A) :
  x :: l = y :: m -> x = y /\ l = m.
Proof. intros H. injection H as -> ->. now split. Qed.

Lemma negates_then_end (I J : list string) (R S : list string) :
  (map negate I ++ "#end" :: R = map negate J ++ "#end" :: S)%list -> I = J.
Proof.
  revert J. induction I as [|i I IH]; intros [|j J] H; cbn [map app] in H;
    apply cons_inj in H as [Hh H].
  - reflexivity.
  - symmetry in Hh. now apply negate_not_end in Hh.
  - now apply negate_not_end in Hh.
  - f_equal; [|now apply IH].
    unfold negate in Hh. now apply append_inv_head in Hh.
Qed.

Lemma skip_prefix {A} (l R before T : list A) (y : A) :
  ~ In y l ->
  (l ++ R = before ++ y :: T)%list ->
  exists before', R = (before' ++ y :: T)%list.
Proof.
  revert before. induction l as [|x l IH]; intros before Hy H.
  - now exists before.
  - destruct before as [|b before]; cbn in H; injection H as Hx H.
    + exfalso. apply Hy. now left.
    + apply (IH before); [|exact H]. intros Hin. apply Hy. now right.
Qed.

Lemma block_found (NEW_CONFIG : string) (device_list : dict device_record)
    (d : string) (items : list string) (ks : list string)
    (before after : list string) :
  (flat_map (template_block device_list) ks ++ [NEW_CONFIG]
   = before
     ++ guard_open d :: map negate items ++ "#end" :: EmptyString :: after)%list ->
  exists r, dict_get device_list d = Some r /\ bad_config r = Some items.
Proof.
  revert before. induction ks as [|k ks IH]; intros before H.
  - exfalso. cbn [flat_map app] in H.
    apply (f_equal (@List.length string)) in H.
    rewrite length_app in H. cbn [List.length] in H.
    rewrite length_app in H. cbn [List.length] in H. lia.
  - cbn [flat_map] in H. unfold template_block at 1 in H.
    destruct (dict_get device_list k) as [r|] eqn:Hget;
      [|now apply (IH before)].
    destruct (bad_config r) as [I|] eqn:Hbad; [|now apply (IH before)].
    cbn [app] in H. rewrite <- !app_assoc in H. cbn [app] in H.
    destruct before as [|b before]; cbn [app] in H;
      apply cons_inj in H as [Hg H].
    + apply guard_open_inj in Hg. subst k.
      apply negates_then_end in H. subst I. now exists r.
    + replace (map negate I
               ++ "#end"
                  :: EmptyString
                     :: flat_map (template_block device_list) ks
                        ++ [NEW_CONFIG])%list
        with ((map negate I ++ ["#end"; EmptyString])
              ++ (flat_map (template_block device_list) ks
                  ++ [NEW_CONFIG]))%list in H
        by (rewrite <- app_assoc; reflexivity).
      apply skip_prefix in H as (before' & H).
      * now apply (IH before').
      * intros Hin. apply in_app_or in Hin as [Hin|[Hin|[Hin|[]]]];
          try discriminate.
        apply in_map_iff in Hin as (x & Hx & _).
        now apply negate_not_guard in Hx.
Qed.

(** X12. A guard block of the template holds the findings of its own
    device and no others: the lines between the guard for an address and
    its [#end] are the removal of exactly the findings attached to that
    address, in their order. *)
Theorem guard_block_holds_own_findings (NEW_CONFIG : string)
    (device_list : dict device_record) (d : string) (items : list string) :
  (exists r, dict_get device_list d = Some r /\ bad_config r = Some items)
  <-> exists before after,
        template_lines NEW_CONFIG device_list
        = (before
           ++ guard_open d
              :: map negate items ++ "#end" :: EmptyString :: after)%list.
Proof.
  rewrite template_lines_blocks. split.
  - intros (r & Hget & Hbad).
    pose proof (dict_get_in_keys _ _ _ Hget) as Hkey.
    apply in_split in Hkey as (k1 & k2 & Hkeys).
    exists (flat_map (template_block device_list) k1),
      (flat_map (template_block device_list) k2 ++ [NEW_CONFIG])%list.
    rewrite Hkeys, flat_map_app. cbn [flat_map].
    unfold template_block at 2. rewrite Hget, Hbad.
    rewrite <- !app_assoc. cbn. rewrite <- !app_assoc. reflexivity.
  - intros (before & after & H). now apply block_found in H.
Qed.

Lemma guard_block_holds_own_findings_scenario :
  exists before after,
    template_lines "snmp-server host 10.0.0.2 community public" mixed_devices
    = (before
       ++ guard_open "10.0.0.3"
          :: map negate
               ["snmp-server host 10.9.9.9 community public";
                "snmp-server host 10.0.0.2 community old"]
          ++ "#end" :: EmptyString :: after)%list.
Proof.
  apply (guard_block_holds_own_findings
           "snmp-server host 10.0.0.2 community public" mixed_devices
           "10.0.0.3").
  eexists. split; reflexivity.
Defined.

Lemma join_app (sep : string) (l1 l2 : list string) :
  l1 <> [] -> l2 <> [] ->
  join sep (l1 ++ l2) = join sep l1 ++ sep ++ join sep l2.
Proof.
  intros H1 H2. induction l1 as [|x l1 IH]; [now destruct H1|].
  destruct l1 as [|y l1].
  - cbn [app]. destruct l2 as [|z l2]; [now destruct H2 | reflexivity].
  - change (join sep ((x :: y :: l1) ++ l2))
      with (x ++ sep ++ join sep ((y :: l1) ++ l2)).
    rewrite IH by discriminate.
    change (join sep (x :: y :: l1)) with (x ++ sep ++ join sep (y :: l1)).
    now rewrite !append_assoc.
Qed.

(** The blocks, when there are any, end with [#end] and the blank line. *)
Lemma blocks_end (device_list : dict device_record) (ks : list string) :
  flat_map (template_block device_list) ks = []
  \/ exists body,
       flat_map (template_block device_list) ks
       = (body ++ ["#end"; EmptyString])%list.
Proof.
  induction ks as [|k ks [IH|(body & IH)]].
  - now left.
  - cbn [flat_map]. rewrite IH, app_nil_r. unfold template_block.
    destruct (dict_get device_list k) as [r|]; [|now left].
    destruct (bad_config r) as [items|]; [|now left].
    right. now exists (guard_open k :: map negate items).
  - right. cbn [flat_map]. rewrite IH.
    exists (template_block device_list k ++ body)%list.
    now rewrite app_assoc.
Qed.

(** X13. Whatever the directive, when some device carries findings the
    text returned ends with [#end], an empty line and the directive. *)
Theorem generateTemplatePayload_ends_with_directive (NEW_CONFIG : string)
    (device_list : dict device_record) (d : string) (r : device_record)
    (items : list string) (w : World) :
  dict_get device_list d = Some r ->
  bad_config r = Some items ->
  exists body,
    fst (generateTemplatePayload NEW_CONFIG device_list w)
    = Ret (body ++ "#end" ++ LF ++ LF ++ NEW_CONFIG).
Proof.
  intros Hget Hbad. rewrite generateTemplatePayload_run. cbn [fst].
  rewrite template_lines_blocks.
  destruct (blocks_end device_list (keys device_list)) as [E|(body & E)].
  - exfalso.
    assert (Hin : In (guard_open d)
                    (flat_map (template_block device_list)
                       (keys device_list))).
    { apply in_flat_map. exists d.
      split; [now apply dict_get_in_keys in Hget|].
      unfold template_block. rewrite Hget, Hbad. now left. }
    rewrite E in Hin. destruct Hin.
  - rewrite E, <- app_assoc. cbn [app].
    destruct body as [|x body].
    + exists EmptyString. reflexivity.
    + exists (join LF (x :: body) ++ LF). f_equal.
      rewrite join_app by discriminate. now rewrite !append_assoc.
Qed.

Lemma generateTemplatePayload_ends_with_directive_scenario :
  exists body,
    fst (generateTemplatePayload "snmp-server host 10.0.0.2 community public"
           mixed_devices initial_world)
    = Ret (body ++ "#end" ++ LF ++ LF
           ++ "snmp-server host 10.0.0.2 community public").
Proof.
  apply (generateTemplatePayload_ends_with_directive
           "snmp-server host 10.0.0.2 community public" mixed_devices
           "10.0.0.1" (mkRecord "uuid-1"
                         (Some ["snmp-server host 10.0.0.1 community wrongcomm"]))
           ["snmp-server host 10.0.0.1 community wrongcomm"] initial_world);
    reflexivity.
Defined.

Lemma no_char_checked (c : ascii) (s : string) :
  existsb (Ascii.eqb c) (list_ascii_of_string s) = false ->
  ~ In c (list_ascii_of_string s).
Proof.
  intros He Hin.
  assert (Ht : existsb (Ascii.eqb c) (list_ascii_of_string s) = true).
  { apply existsb_exists. exists c. split; [exact Hin | apply Ascii.eqb_refl]. }
  congruence.
Qed.

Lemma dict_get_app {V} (a b : dict V) (k : string) :
  dict_get (a ++ b)%list k
  = match dict_get a k with
    | Some v => Some v
    | None => dict_get b k
    end.
Proof.
  induction a as [|[k' v] a IH]; cbn; [reflexivity|].
  destruct (k =? k')%string; [reflexivity | exact IH].
Qed.

Lemma dict_get_not_key {V} (d : dict V) (k : string) :
  ~ In k (keys d) -> dict_get d k = None.
Proof.
  intros Hk. destruct (dict_get d k) as [v|] eqn:Hget; [|reflexivity].
  now apply dict_get_in_keys in Hget.
Qed.

Lemma flat_map_ext_on {A B} (f g : A -> list B) (l : list A) :
  (forall x, In x l -> f x = g x) -> flat_map f l = flat_map g l.
Proof.
  intros H. induction l as [|x l IH]; [reflexivity|].
  cbn [flat_map]. rewrite (H x) by now left.
  rewrite IH; [reflexivity|]. intros y Hy. apply H. now right.
Qed.

(** X15. A device without findings contributes nothing to the template:
    taking its record out of the mapping leaves the lines as they are. *)
Theorem template_lines_without_compliant (NEW_CONFIG : string)
    (dl1 dl2 : dict device_record) (k : string) (r : device_record) :
  NoDup (keys (dl1 ++ (k, r) :: dl2)%list) ->
  bad_config r = None ->
  template_lines NEW_CONFIG (dl1 ++ (k, r) :: dl2)%list
  = template_lines NEW_CONFIG (dl1 ++ dl2)%list.
Proof.
  intros Hnodup Hbad. rewrite !template_lines_blocks. f_equal.
  unfold keys in *. rewrite !map_app in *. cbn [map fst] in *.
  assert (Hk1 : ~ In k (map fst dl1) /\ ~ In k (map fst dl2)).
  { apply NoDup_remove_2 in Hnodup. split; intros Hin; apply Hnodup;
      apply in_or_app; auto. }
  destruct Hk1 as [Hk1 Hk2].
  assert (Hother : forall k', k' <> k ->
            template_block (dl1 ++ (k, r) :: dl2)%list k'
            = template_block (dl1 ++ dl2)%list k').
  { intros k' Hne. unfold template_block. rewrite !dict_get_app.
    destruct (dict_get dl1 k'); [reflexivity|]. cbn [dict_get].
    destruct (String.eqb_spec k' k); [contradiction | reflexivity]. }
  assert (Hself : template_block (dl1 ++ (k, r) :: dl2)%list k = []).
  { unfold template_block. rewrite dict_get_app.
    rewrite (dict_get_not_key dl1 k Hk1). cbn [dict_get].
    rewrite String.eqb_refl. now rewrite Hbad. }
  rewrite !flat_map_app. cbn [flat_map]. rewrite Hself. cbn [app].
  f_equal; apply flat_map_ext_on; intros k' Hk'; apply Hother;
    intros ->; contradiction.
Qed.

Lemma template_lines_without_compliant_scenario :
  template_lines "snmp-server host 10.0.0.2 community public" mixed_devices
  = template_lines "snmp-server host 10.0.0.2 community public"
      [("10.0.0.1",
        mkRecord "uuid-1"
          (Some ["snmp-server host 10.0.0.1 community wrongcomm"]));
       ("10.0.0.3",
        mkRecord "uuid-3"
          (Some ["snmp-server host 10.9.9.9 community public";
                 "snmp-server host 10.0.0.2 community old"]))].
Proof.
  apply (template_lines_without_compliant
           "snmp-server host 10.0.0.2 community public"
           [("10.0.0.1",
             mkRecord "uuid-1"
               (Some ["snmp-server host 10.0.0.1 community wrongcomm"]))]
           [("10.0.0.3",
             mkRecord "uuid-3"
               (Some ["snmp-server host 10.9.9.9 community public";
                      "snmp-server host 10.0.0.2 community old"]))]
           "10.0.0.2" (mkRecord "uuid-2" None)).
  - cbn. repeat constructor; cbn; intuition discriminate.
  - reflexivity.
Defined.

(** ** The steps of [run], continued *)

Lemma keys_set_in {V} (d : dict V) (k x : string) (v : V) :
  In x (keys (dict_set d k v)) -> x = k \/ In x (keys d).
Proof.
  induction d as [|[k' v'] d IH]; cbn.
  - intros [<-|[]]. now left.
  - destruct (String.eqb_spec k k') as [->|_]; cbn.
    + intros [<-|H]; auto.
    + intros [<-|H]; [auto|]. apply IH in H as [->|H]; auto.
Qed.

Lemma dict_set_NoDup {V} (d : dict V) (k : string) (v : V) :
  NoDup (keys d) -> NoDup (keys (dict_set d k v)).
Proof.
  induction d as [|[k' v'] d IH]; cbn; intros Hnd.
  - repeat constructor. intros [].
  - destruct (String.eqb_spec k k') as [->|Hne]; cbn; [exact Hnd|].
    inversion Hnd as [|? ? Hnotin Hnd']; subst. constructor.
    + intros Hin. apply keys_set_in in Hin as [->|Hin]; contradiction.
    + now apply IH.
Qed.

Lemma passes_location_spec (LOCATION_FILTER : list string)
    (dnac_device_location : string -> string) (dev : device) :
  passes_location LOCATION_FILTER dnac_device_location dev = true
  <-> LOCATION_FILTER = []
      \/ In (dnac_device_location (dev_id dev)) LOCATION_FILTER.
Proof.
  unfold passes_location. rewrite negb_true_iff, andb_false_iff.
  rewrite negb_false_iff, existsb_exists. split.
  - intros [H|(x & Hin & Hx)].
    + left. destruct LOCATION_FILTER; [reflexivity | discriminate].
    + right. apply String.eqb_eq in Hx. now subst x.
  - intros [->|Hin]; [now left|]. right.
    exists (dnac_device_location (dev_id dev)).
    split; [exact Hin | apply String.eqb_refl].
Qed.

Section TargetDevices.

Variable LOCATION_FILTER : list string.
Variable dnac_device_location : string -> string.

Let step := target_step LOCATION_FILTER dnac_device_location.

Lemma run_target_devices_steps (devices : list device) :
  run_target_devices LOCATION_FILTER dnac_device_location devices
  = fold_left step devices [].
Proof.
  unfold run_target_devices. generalize (@nil (string * device_record)).
  induction devices as [|dev devices IH]; intros acc; [reflexivity|].
  cbn [fold_left]. rewrite IH. f_equal.
  unfold step, target_step, passes_location.
  now destruct (_ && _).
Qed.

(** X16. The dictionary of target devices has one entry per management
    address: no address is a key twice, whatever the device list. *)
Theorem run_target_devices_NoDup (devices : list device) :
  NoDup (keys (run_target_devices LOCATION_FILTER dnac_device_location
                 devices)).
Proof.
  rewrite run_target_devices_steps.
  assert (H : forall acc, NoDup (keys acc) ->
                          NoDup (keys (fold_left step devices acc))).
  { induction devices as [|dev devices IH]; intros acc Hacc; [exact Hacc|].
    cbn [fold_left]. apply IH. unfold step, target_step.
    destruct (passes_location _ _ dev); [now apply dict_set_NoDup | exact Hacc]. }
  apply H. constructor.
Qed.

(** X17. The addresses of the dictionary are those of the devices that
    pass the location filter, and no others. *)
Theorem run_target_devices_keys_iff (devices : list device) (k : string) :
  In k (keys (run_target_devices LOCATION_FILTER dnac_device_location
                devices))
  <-> exists dev,
        In dev devices
        /\ managementIpAddress dev = k
        /\ passes_location LOCATION_FILTER dnac_device_location dev = true.
Proof.
  split.
  - rewrite run_target_devices_steps.
    assert (H : forall acc,
              In k (keys (fold_left step devices acc)) ->
              In k (keys acc)
              \/ exists dev,
                   In dev devices
                   /\ managementIpAddress dev = k
                   /\ passes_location LOCATION_FILTER dnac_device_location
                        dev = true).
    { induction devices as [|dev devices IH]; intros acc Hin; [now left|].
      cbn [fold_left] in Hin. apply IH in Hin as [Hin|(d & Hd & Hk & Hp)].
      - unfold step, target_step in Hin.
        destruct (passes_location _ _ dev) eqn:Hp; [|now left].
        apply keys_set_in in Hin as [->|Hin]; [|now left].
        right. exists dev. repeat split; [now left | exact Hp].
      - right. exists d. repeat split; [now right | exact Hk | exact Hp]. }
    intros Hin. apply H in Hin as [[]|Hex]. exact Hex.
  - intros (dev & Hin & <- & Hp). apply run_target_devices_keys;
      [exact Hin | now apply passes_location_spec].
Qed.

(** X18. When two devices that pass the filter share a management
    address, the record keeps the identifier of the one listed last (and
    carries no findings yet). *)
Theorem run_target_devices_last_wins (pre post : list device) (dev : device) :
  passes_location LOCATION_FILTER dnac_device_location dev = true ->
  (forall d, In d post ->
     passes_location LOCATION_FILTER dnac_device_location d = true ->
     managementIpAddress d <> managementIpAddress dev) ->
  dict_get
    (run_target_devices LOCATION_FILTER dnac_device_location
       (pre ++ dev :: post))
    (managementIpAddress dev)
  = Some (mkRecord (dev_id dev) None).
Proof.
  intros Hp Hpost. rewrite run_target_devices_steps, fold_left_app.
  cbn [fold_left]. generalize (fold_left step pre []). intros acc.
  assert (H : forall acc,
            dict_get acc (managementIpAddress dev)
            = Some (mkRecord (dev_id dev) None) ->
            dict_get (fold_left step post acc)
              (managementIpAddress dev)
            = Some (mkRecord (dev_id dev) None)).
  { clear acc. induction post as [|d post IH]; intros acc Hacc; [exact Hacc|].
    cbn [fold_left]. apply IH.
    - intros d' Hd'. apply Hpost. now right.
    - unfold step, target_step. destruct (passes_location _ _ d) eqn:Hd;
        [|exact Hacc].
      rewrite dict_get_set.
      destruct (String.eqb_spec (managementIpAddress dev)
                  (managementIpAddress d)) as [E|_]; [|exact Hacc].
      exfalso. apply (Hpost d); [now left | exact Hd | now symmetry]. }
  apply H. unfold step, target_step. rewrite Hp, dict_get_set.
  now rewrite String.eqb_refl.
Qed.

End TargetDevices.

Lemma run_target_devices_last_wins_scenario :
  dict_get (run_target_devices [] no_location readdressed_fleet) "10.0.0.1"
  = Some (mkRecord "uuid-7" None).
Proof.
  apply (run_target_devices_last_wins [] no_location
           [mkDevice "uuid-1" "10.0.0.1" "Switches and Hubs"
              "Cisco Catalyst 9300 Series Switches";
            mkDevice "uuid-2" "10.0.0.2" "Switches and Hubs"
              "Cisco Catalyst 9300 Series Switches"]
           []
           (mkDevice "uuid-7" "10.0.0.1" "Routers"
              "Cisco 4000 Series Integrated Services Routers")).
  - reflexivity.
  - intros d [].
Defined.

Lemma foldM_app {A S} (f : S -> A -> M S) (l1 l2 : list A) (s : S)
    (w : World) :
  foldM f (l1 ++ l2) s w = bind (foldM f l1 s) (foldM f l2) w.
Proof.
  revert s w. induction l1 as [|x l1 IH]; intros s w; [reflexivity|].
  cbn [app foldM]. unfold bind.
  destruct (f s x w) as [[s'| | |] w1]; try reflexivity.
  rewrite IH. reflexivity.
Qed.

Section ValidationLoop.

Variable VALID_SNMP_SERVER_HOST : string.
Variable VALID_SNMP_SERVER_COMMUNITY : string.
Variable NEW_CONFIG : string.
Variable LOCATION_FILTER : list string.
Variable dnac_device_location : string -> string.
Variable os_listdir : string -> option (list string).
Variable open_lines : string -> option (list string).

(** X19. Validation neither adds nor drops a device, nor changes an
    identifier: after the loop the dictionary has the same addresses in
    the same order, each with the identifier it had, and there are as many
    deployment targets as addresses. *)
Theorem run_validate_keeps_devices (target_devices : dict device_record)
    (w : World) :
  (forall d, In d (keys target_devices) ->
     running_config_lines os_listdir open_lines d <> None) ->
  exists validated deployable_devices w',
    run_validate VALID_SNMP_SERVER_HOST VALID_SNMP_SERVER_COMMUNITY
      os_listdir open_lines target_devices w
    = (Ret (validated, deployable_devices), w')
    /\ keys validated = keys target_devices
    /\ (forall d r,
          dict_get validated d = Some r ->
          exists r0,
            dict_get target_devices d = Some r0 /\ rec_id r = rec_id r0)
    /\ List.length deployable_devices = List.length (keys target_devices).
Proof.
  intros Hread. unfold run_validate.
  destruct (run_validate_loop VALID_SNMP_SERVER_HOST
              VALID_SNMP_SERVER_COMMUNITY os_listdir open_lines
              (keys target_devices) target_devices [] w Hread)
    as (w' & Hrun).
  eexists _, _, w'. split; [exact Hrun|]. split; [|split].
  - apply attach_fold_keys.
  - intros d r. rewrite attach_fold_get.
    destruct (dict_get target_devices d) as [r0|]; [|discriminate].
    cbn. intros [= <-]. exists r0. split; [reflexivity|].
    now destruct (_ && _).
  - cbn [app]. apply length_map.
Qed.

(** X20. The mapping handed to the template generator never holds an
    empty list of findings: after the validation of the devices of the
    list, a record carries the key [bad_config] only with at least one
    finding, and these are the findings of its device. *)
Theorem run_validate_no_empty_findings (devices : list device) (w : World)
    (validated : dict device_record)
    (deployable_devices : list deploy_target) (w' : World) :
  run_validate VALID_SNMP_SERVER_HOST VALID_SNMP_SERVER_COMMUNITY
    os_listdir open_lines
    (run_target_devices LOCATION_FILTER dnac_device_location devices) w
  = (Ret (validated, deployable_devices), w') ->
  forall d r items,
    dict_get validated d = Some r ->
    bad_config r = Some items ->
    items <> []
    /\ items
       = findings VALID_SNMP_SERVER_HOST VALID_SNMP_SERVER_COMMUNITY
           os_listdir open_lines d.
Proof.
  intros Hrun.
  set (td0 := run_target_devices LOCATION_FILTER dnac_device_location devices)
    in *.
  assert (Hread : forall d, In d (keys td0) ->
                    running_config_lines os_listdir open_lines d <> None).
  { intros d Hd Hnone. unfold run_validate in Hrun.
    apply in_split in Hd as (k1 & k2 & Hk). rewrite Hk, foldM_app in Hrun.
    unfold bind in Hrun.
    destruct (foldM _ k1 (td0, []) w) as [[[td1 dep1]| | |] w1];
      try discriminate.
    cbn [foldM] in Hrun. unfold bind in Hrun.
    unfold run_validate_device at 1 in Hrun. unfold bind in Hrun.
    destruct (validate_snmp_config_raises VALID_SNMP_SERVER_HOST
                VALID_SNMP_SERVER_COMMUNITY os_listdir open_lines d w1 Hnone)
      as (e & He).
    rewrite He in Hrun. discriminate. }
  destruct (run_validate_loop VALID_SNMP_SERVER_HOST
              VALID_SNMP_SERVER_COMMUNITY os_listdir open_lines
              (keys td0) td0 [] w Hread) as (w2 & Hloop).
  unfold run_validate in Hrun. rewrite Hloop in Hrun.
  injection Hrun as <- _ _.
  intros d r items Hget Hbad. rewrite attach_fold_get in Hget.
  destruct (dict_get td0 d) as [r0|] eqn:Hget0; [|discriminate].
  cbn in Hget. injection Hget as <-.
  apply run_target_devices_fresh in Hget0.
  destruct (existsb (String.eqb d) (keys td0)
            && negb (Nat.eqb (List.length
                                (findings VALID_SNMP_SERVER_HOST
                                   VALID_SNMP_SERVER_COMMUNITY os_listdir
                                   open_lines d)) 0)) eqn:Hc.
  - cbn in Hbad. injection Hbad as <-. split; [|reflexivity].
    apply andb_true_iff in Hc as [_ Hc]. intros E. rewrite E in Hc.
    discriminate.
  - congruence.
Qed.


End ValidationLoop.

Lemma run_validate_keeps_devices_scenario :
  exists validated deployable_devices w',
    run_validate "10.0.0.2" "public" fleet_listdir fleet_lines
      (run_target_devices [] no_location fleet) initial_world
    = (Ret (validated, deployable_devices), w')
    /\ keys validated = ["10.0.0.1"; "10.0.0.2"]
    /\ List.length deployable_devices = 2.
Proof.
  destruct (run_validate_keeps_devices "10.0.0.2" "public" fleet_listdir
              fleet_lines (run_target_devices [] no_location fleet)
              initial_world fleet_readable)
    as (validated & deployable_devices & w' & Hrun & Hkeys & _ & Hlen).
  exists validated, deployable_devices, w'.
  split; [exact Hrun|]. split; [exact Hkeys | exact Hlen].
Defined.

Lemma run_validate_no_empty_findings_scenario :
  ["snmp-server host 10.0.0.1 community wrongcomm"] <> []
  /\ ["snmp-server host 10.0.0.1 community wrongcomm"]
     = findings "10.0.0.2" "public" fleet_listdir fleet_lines "10.0.0.1".
Proof.
  apply (run_validate_no_empty_findings "10.0.0.2" "public" [] no_location
           fleet_listdir fleet_lines fleet initial_world
           (fst fleet_validated) (snd fleet_validated)
           (snd (run_validate "10.0.0.2" "public" fleet_listdir fleet_lines
                   (run_target_devices [] no_location fleet)
                   initial_world))
           ltac:(vm_compute; reflexivity) "10.0.0.1"
           (mkRecord "uuid-1"
              (Some ["snmp-server host 10.0.0.1 community wrongcomm"]))).
  - vm_compute. reflexivity.
  - reflexivity.
Defined.


(** ** What leaves the deployments alone *)

Create HintDb quiet.

Lemma quiet_ret {A} (a : A) : quiet (ret a).
Proof. intros w. now split. Qed.

Lemma quiet_raise {A} (e : exn) : quiet (@raise A e).
Proof. intros w. now split. Qed.

Lemma quiet_sys_exit {A} (n : Z) : quiet (@sys_exit A n).
Proof. intros w. now split. Qed.

Lemma quiet_out_of_fuel {A} : quiet (@out_of_fuel A).
Proof. intros w. now split. Qed.

Lemma quiet_emit (e : event) : quiet (emit e).
Proof. intros w. now split. Qed.

Lemma quiet_console_print (text : string) : quiet (console_print text).
Proof. apply quiet_emit. Qed.

Lemma quiet_console_print_escaped (markup text : string) :
  quiet (console_print_escaped markup text).
Proof. apply quiet_emit. Qed.

Lemma quiet_console_status (text : string) : quiet (console_status text).
Proof. apply quiet_emit. Qed.

Lemma quiet_status_update (text : string) : quiet (status_update text).
Proof. apply quiet_emit. Qed.

Lemma quiet_console_panel (text title : string) :
  quiet (console_panel text title).
Proof. apply quiet_emit. Qed.

Lemma quiet_sleep (n : nat) : quiet (sleep n).
Proof. intros w. now split. Qed.

Lemma quiet_bind {A B} (c : M A) (k : A -> M B) :
  quiet c -> (forall a, quiet (k a)) -> quiet (bind c k).
Proof.
  intros Hc Hk w. unfold bind. specialize (Hc w).
  destruct (c w) as [[a|e|n|] w1]; cbn [snd] in *; try exact Hc.
  destruct (Hk a w1) as [H1 H2]. destruct Hc as [H3 H4].
  split; congruence.
Qed.

Lemma quiet_foldM {A S} (f : S -> A -> M S) (l : list A) (s : S) :
  (forall s x, quiet (f s x)) -> quiet (foldM f l s).
Proof.
  intros Hf. revert s. induction l as [|x l IH]; intros s.
  - apply quiet_ret.
  - cbn [foldM]. apply quiet_bind; auto.
Qed.

Lemma quiet_try_except_RuntimeError {A} (c handler : M A) :
  quiet c -> quiet handler -> quiet (try_except_RuntimeError c handler).
Proof.
  intros Hc Hh w. unfold try_except_RuntimeError. specialize (Hc w).
  destruct (c w) as [[a|[]|n|] w1]; cbn [snd] in *; try exact Hc.
  destruct (Hh w1) as [H1 H2]. destruct Hc as [H3 H4]. split; congruence.
Qed.

#[local] Hint Resolve quiet_ret quiet_raise quiet_sys_exit quiet_out_of_fuel
  quiet_console_print quiet_console_print_escaped quiet_console_status
  quiet_status_update quiet_console_panel quiet_sleep quiet_bind quiet_foldM
  quiet_try_except_RuntimeError : quiet.

Lemma quiet_get_task_by_id (answers : string -> nat -> task_status)
    (id : string) : quiet (get_task_by_id answers id).
Proof. intros w. now split. Qed.

Lemma quiet_extractall (pyzipper_extractall : string -> string -> option exn)
    (file pwd : string) : quiet (extractall pyzipper_extractall file pwd).
Proof.
  intros w. unfold extractall.
  destruct (pyzipper_extractall file pwd); now split.
Qed.

#[local] Hint Resolve quiet_get_task_by_id quiet_extractall : quiet.

Lemma quiet_checkTaskStatus (answers : string -> nat -> task_status)
    (fuel : nat) (t : task) : quiet (checkTaskStatus answers fuel t).
Proof.
  induction fuel as [|fuel IH]; cbn [checkTaskStatus]; auto with quiet.
  repeat (apply quiet_bind; [auto with quiet | intros ?]).
  destruct (truthy _); auto with quiet.
Qed.

Lemma quiet_unzipConfigFile (entropy : nat -> nat)
    (pyzipper_open : string -> option exn)
    (pyzipper_extractall : string -> string -> option exn)
    (directory : list string) :
  quiet (unzipConfigFile entropy pyzipper_open pyzipper_extractall directory).
Proof.
  unfold unzipConfigFile. apply quiet_bind; [auto with quiet | intros _].
  destruct (unzip_target_file directory); [|auto with quiet].
  destruct (pyzipper_open s); auto 6 with quiet.
Qed.

Lemma quiet_validate_line (host community : string) (st : bool * list string)
    (line : string) : quiet (validate_line host community st line).
Proof.
  unfold validate_line. destruct st as [found bad].
  destruct (is_snmp_host_line line); [|auto with quiet].
  destruct (is_valid_line host community line); auto with quiet.
Qed.

#[local] Hint Resolve quiet_checkTaskStatus quiet_unzipConfigFile
  quiet_validate_line : quiet.

Lemma quiet_validate_snmp_config (host community : string)
    (os_listdir open_lines : string -> option (list string))
    (device_ip : string) :
  quiet (validate_snmp_config host community os_listdir open_lines device_ip).
Proof.
  unfold validate_snmp_config. apply quiet_bind; [auto with quiet | intros _].
  destruct (os_listdir _) as [files|]; [|auto with quiet].
  destruct (running_config_of _ files) as [f|]; [|auto with quiet].
  destruct (open_lines f) as [config|]; [|auto with quiet].
  apply quiet_bind; [auto with quiet | intros st].
  apply quiet_bind; [destruct (fst st); auto with quiet | intros _].
  auto with quiet.
Qed.

#[local] Hint Resolve quiet_validate_snmp_config : quiet.

Lemma quiet_run_validate (host community : string)
    (os_listdir open_lines : string -> option (list string))
    (target_devices : dict device_record) :
  quiet (run_validate host community os_listdir open_lines target_devices).
Proof.
  unfold run_validate. apply quiet_foldM. intros [td dep] device.
  unfold run_validate_device. auto with quiet.
Qed.

Lemma quiet_generateTemplatePayload (NEW_CONFIG : string)
    (device_list : dict device_record) :
  quiet (generateTemplatePayload NEW_CONFIG device_list).
Proof. unfold generateTemplatePayload. auto with quiet. Qed.

#[local] Hint Resolve quiet_run_validate quiet_generateTemplatePayload : quiet.

(** The tracker submits once, whatever happens next. *)
Lemma deployTemplate_submits_once
    (answers : string -> nat -> deployment_status)
    (deploymentId : string -> list deploy_target -> string) (fuel : nat)
    (template_id : string) (device_list : list deploy_target) (w : World) :
  submitted
    (snd (deployTemplate answers deploymentId fuel template_id device_list w))
  = (submitted w ++ [(template_id, device_list)])%list.
Proof.
  rewrite deployTemplate_start.
  set (id := strip _). set (w0 := mkWorld _ _ _ _ _ _).
  change (submitted w ++ [(template_id, device_list)])%list
    with (submitted w0).
  generalize w0. clear w0. induction fuel as [|fuel IH]; intros w0;
    [reflexivity|].
  rewrite deployTemplate_loop_turn. cbv zeta.
  destruct (status (answers id (deploy_polls w0)) =? "SUCCESS")%string;
    [reflexivity|]. now rewrite IH.
Qed.

(** ** The session *)

Lemma bindN_Done {A B} (c : N A) (k : A -> N B) (s s' : Session) (a : A) :
  c s = (Done a, s') -> bindN c k s = k a s'.
Proof. intros H. unfold bindN. now rewrite H. Qed.

Lemma bindN_inv {A B} (c : N A) (k : A -> N B) (s s2 : Session) (b : B) :
  bindN c k s = (Done b, s2) ->
  exists a s1, c s = (Done a, s1) /\ k a s1 = (Done b, s2).
Proof.
  unfold bindN. destruct (c s) as [[a|e|n|] s1]; try discriminate.
  intros H. now exists a, s1.
Qed.

Lemma liftN_inv {A} (c : M A) (s s' : Session) (a : A) :
  lift c s = (Done a, s') ->
  exists w', c (world s) = (Ret a, w') /\ s' = with_world s w'.
Proof.
  unfold lift. destruct (c (world s)) as [[x|e|n|] w']; try discriminate.
  intros [= <- <-]. now exists w'.
Qed.

Lemma quietN_lift {A} (c : M A) : quiet c -> quietN (lift c).
Proof.
  intros Hc s. unfold lift. specialize (Hc (world s)).
  destruct (c (world s)) as [[a|e|n|] w]; exact Hc.
Qed.

Lemma quietN_retN {A} (a : A) : quietN (retN a).
Proof. intros s. now split. Qed.

Lemma quietN_raiseN {A} (e : exception) : quietN (@raiseN A e).
Proof. intros s. now split. Qed.

Lemma quietN_exitN {A} (n : Z) : quietN (@exitN A n).
Proof. intros s. now split. Qed.

Lemma quietN_bindN {A B} (c : N A) (k : A -> N B) :
  quietN c -> (forall a, quietN (k a)) -> quietN (bindN c k).
Proof.
  intros Hc Hk s. unfold bindN. specialize (Hc s).
  destruct (c s) as [[a|e|n|] s1]; cbn [snd] in *; try exact Hc.
  destruct (Hk a s1) as [H1 H2]. destruct Hc as [H3 H4].
  split; congruence.
Qed.

Lemma quietN_try_except_ApiError {A} (c handler : N A) :
  quietN c -> quietN handler -> quietN (try_except_ApiError c handler).
Proof.
  intros Hc Hh s. unfold try_except_ApiError. specialize (Hc s).
  destruct (c s) as [[a|[]|n|] s1]; cbn [snd] in *; try exact Hc.
  destruct (Hh s1) as [H1 H2]. destruct Hc as [H3 H4]. split; congruence.
Qed.

#[local] Hint Resolve quietN_lift quietN_retN quietN_raiseN quietN_exitN
  quietN_bindN quietN_try_except_ApiError : quiet.

Lemma bindN_inv_quiet {A B} (c : N A) (k : A -> N B) (s s2 : Session)
    (b : B) :
  quietN c ->
  bindN c k s = (Done b, s2) ->
  exists a s1,
    c s = (Done a, s1)
    /\ submitted (world s1) = submitted (world s)
    /\ k a s1 = (Done b, s2).
Proof.
  intros Hq H. apply bindN_inv in H as (a & s1 & Hc & H).
  exists a, s1. split; [exact Hc|]. split; [|exact H].
  specialize (Hq s). rewrite Hc in Hq. apply Hq.
Qed.

Lemma bind_Ret_inv {A B} (c : M A) (k : A -> M B) (w w2 : World) (b : B) :
  bind c k w = (Ret b, w2) ->
  exists a w1, c w = (Ret a, w1) /\ k a w1 = (Ret b, w2).
Proof.
  unfold bind. destruct (c w) as [[a|e|n|] w1]; try discriminate.
  intros H. now exists a, w1.
Qed.

(** The targets that the validation returns, when it returns. *)
Lemma run_validate_targets (host community : string)
    (os_listdir open_lines : string -> option (list string))
    (target_devices validated : dict device_record)
    (deployable_devices : list deploy_target) (w w' : World) :
  run_validate host community os_listdir open_lines target_devices w
  = (Ret (validated, deployable_devices), w') ->
  deployable_devices = map deployable_entry (keys target_devices).
Proof.
  unfold run_validate.
  change (map deployable_entry (keys target_devices))
    with ([] ++ map deployable_entry (keys target_devices))%list.
  generalize (keys target_devices) as ks.
  generalize (@nil deploy_target) as dep. generalize target_devices as td.
  intros td dep ks. revert td dep w.
  induction ks as [|k ks IH]; intros td dep w H.
  - cbn in H. injection H as _ <- _. now rewrite app_nil_r.
  - cbn [foldM] in H. apply bind_Ret_inv in H as ([td1 dep1] & w1 & Hk & H).
    apply IH in H. subst deployable_devices.
    unfold run_validate_device in Hk.
    apply bind_Ret_inv in Hk as (result & w2 & _ & Hk).
    cbn in Hk. injection Hk as _ <- _.
    cbn [map]. now rewrite <- app_assoc.
Qed.

Lemma print_then_exit_not_Done {B} (text : string) (n : Z) (s s' : Session)
    (b : B) :
  bindN (lift (console_print text)) (fun _ => exitN n) s <> (Done b, s').
Proof. discriminate. Qed.

Section SessionProperties.

Variable DNAC_URL : string.
Variable VALID_SNMP_SERVER_HOST : string.
Variable VALID_SNMP_SERVER_COMMUNITY : string.
Variable NEW_CONFIG : string.
Variable PROJECT_NAME : string.
Variable TEMPLATE_NAME : string.
Variable LOCATION_FILTER : list string.
Variable entropy : nat -> nat.
Variable dnac_task_answers : string -> nat -> task_status.
Variable dnac_deployment_answers : string -> nat -> deployment_status.
Variable dnac_deploymentId : string -> list deploy_target -> string.
Variable dnac_device_location : string -> string.
Variable os_listdir : string -> option (list string).
Variable open_lines : string -> option (list string).
Variable pyzipper_open : string -> option exn.
Variable pyzipper_extractall : string -> string -> option exn.
Variable dnac_connect : option exception.
Variable dnac_device_list : list device.
Variable dnac_export_task : list string -> string -> task.
Variable dnac_projects : nat -> string -> list project.
Variable dnac_create_template : template_request -> option exception.
Variable working_directory : list string.
Variable operator : string -> bool.

Lemma quietN_export (deviceId : list string) (password : string) :
  quietN (export_device_configurations dnac_export_task deviceId password).
Proof. intros s. now split. Qed.

Lemma quietN_download (file_id : string) :
  quietN (download_a_file_by_fileid file_id).
Proof. intros s. now split. Qed.

Lemma quietN_get_projects (name : string) :
  quietN (get_projects dnac_projects name).
Proof. intros s. now split. Qed.

Lemma quietN_create_template (request : template_request) :
  quietN (create_template dnac_create_template request).
Proof.
  intros s. unfold create_template.
  destruct (dnac_create_template request); now split.
Qed.

Lemma quietN_version_template (templateId : string) :
  quietN (version_template templateId).
Proof. intros s. now split. Qed.

Lemma quietN_Confirm_ask (question : string) :
  quietN (Confirm_ask operator question).
Proof. intros s. now split. Qed.

#[local] Hint Resolve quietN_export quietN_download quietN_get_projects
  quietN_create_template quietN_version_template quietN_Confirm_ask : quiet.

Lemma quietN_connect : quietN (connect DNAC_URL dnac_connect).
Proof.
  unfold connect. repeat (apply quietN_bindN; [auto with quiet | intros _]).
  destruct dnac_connect as [[]|]; auto 7 with quiet.
Qed.

Lemma quietN_downloadFile (t : task_status) : quietN (downloadFile t).
Proof.
  unfold downloadFile. apply quietN_bindN; [auto with quiet | intros _].
  destruct (nth_error _ 4); auto 6 with quiet.
Qed.

Lemma quietN_getProjectID :
  quietN (getProjectID PROJECT_NAME dnac_projects).
Proof.
  unfold getProjectID.
  apply quietN_bindN; [auto with quiet | intros _].
  apply quietN_bindN; [auto with quiet | intros project].
  destruct project; auto with quiet.
Qed.

Lemma quietN_createNewTemplate (payload : string)
    (types : list (string * string)) :
  quietN
    (createNewTemplate PROJECT_NAME TEMPLATE_NAME dnac_projects
       dnac_create_template operator payload types).
Proof.
  unfold createNewTemplate.
  apply quietN_bindN; [apply quietN_getProjectID | intros project_id].
  apply quietN_bindN; [auto with quiet | intros _].
  apply quietN_bindN; [auto 8 with quiet | intros error].
  apply quietN_bindN.
  { destruct error; [|auto with quiet].
    apply quietN_bindN; [auto with quiet | intros c].
    destruct (negb c); auto with quiet. }
  intros _. apply quietN_bindN; [auto with quiet | intros _].
  apply quietN_bindN; [auto with quiet | intros project].
  destruct project as [|first rest]; [auto with quiet|].
  apply quietN_bindN; [auto with quiet | intros _].
  destruct (template_id_of TEMPLATE_NAME (proj_templates first));
    auto 8 with quiet.
Qed.

#[local] Hint Resolve quietN_connect quietN_downloadFile
  quietN_createNewTemplate : quiet.

Lemma quietN_ask_bind {B} (question : string) (k : bool -> N B) :
  quietN (k (operator question)) ->
  quietN (bindN (Confirm_ask operator question) k).
Proof.
  intros Hk s. unfold bindN, Confirm_ask.
  set (s1 := mkSession _ _ _ _ _ _ _).
  change (world s) with (world s1). apply Hk.
Qed.

(** X26. Without the operator's consent nothing is deployed: if the
    operator declines the last question, the script, however it ends,
    has submitted no deployment and asked for no deployment status. *)
Theorem main_no_deployment_without_consent (fuel : nat) (s : Session) :
  (forall deployable_devices,
     operator (deploy_question deployable_devices) = false) ->
  let r :=
    main DNAC_URL VALID_SNMP_SERVER_HOST VALID_SNMP_SERVER_COMMUNITY
      NEW_CONFIG PROJECT_NAME TEMPLATE_NAME LOCATION_FILTER entropy
      dnac_task_answers dnac_deployment_answers dnac_deploymentId
      dnac_device_location os_listdir open_lines pyzipper_open
      pyzipper_extractall dnac_connect dnac_device_list dnac_export_task
      dnac_projects dnac_create_template working_directory operator fuel s in
  submitted (world (snd r)) = submitted (world s)
  /\ deploy_polls (world (snd r)) = deploy_polls (world s).
Proof.
  intros Hno. cbv zeta.
  match goal with |- context [main ?a1 ?a2 ?a3 ?a4 ?a5 ?a6 ?a7 ?a8 ?a9 ?a10
                                ?a11 ?a12 ?a13 ?a14 ?a15 ?a16 ?a17 ?a18 ?a19
                                ?a20 ?a21 ?a22 ?a23 ?f] =>
    assert (Hq : quietN (main a1 a2 a3 a4 a5 a6 a7 a8 a9 a10 a11 a12 a13 a14
                           a15 a16 a17 a18 a19 a20 a21 a22 a23 f))
  end.
  { unfold main, run. cbv zeta.
    repeat match goal with
           | |- quietN (bindN (Confirm_ask _ _) _) => fail 1
           | |- quietN (bindN _ _) =>
               apply quietN_bindN; [auto with quiet | intros ?]
           end.
    apply quietN_ask_bind. rewrite Hno. cbn [negb]. auto with quiet. }
  apply Hq.
Qed.

Lemma deploys_once_bind {A B} (consent : Prop)
    (targets : list deploy_target) (c : N A) (k : A -> N B) :
  quietN c ->
  (forall a, deploys_once consent targets (k a)) ->
  deploys_once consent targets (bindN c k).
Proof.
  intros Hq Hk s s' b H.
  apply bindN_inv_quiet in H as (a & s1 & _ & Hs & H); [|exact Hq].
  apply Hk in H as [Hc (tid & H)]. split; [exact Hc|].
  exists tid. now rewrite H, Hs.
Qed.

Lemma deploys_once_ask {B} (consent : Prop) (targets : list deploy_target)
    (question : string) (k : bool -> N B) :
  deploys_once consent targets (k (operator question)) ->
  deploys_once consent targets (bindN (Confirm_ask operator question) k).
Proof.
  intros Hk s s' b H. unfold bindN, Confirm_ask in H.
  apply Hk in H. exact H.
Qed.

Lemma deploys_once_validate {B} (consent : Prop)
    (target_devices : dict device_record)
    (k : dict device_record * list deploy_target -> N B) :
  (forall validated,
     deploys_once consent (map deployable_entry (keys target_devices))
       (k (validated, map deployable_entry (keys target_devices)))) ->
  deploys_once consent (map deployable_entry (keys target_devices))
    (bindN
       (lift
          (run_validate VALID_SNMP_SERVER_HOST VALID_SNMP_SERVER_COMMUNITY
             os_listdir open_lines target_devices))
       k).
Proof.
  intros Hk s s' b H.
  apply bindN_inv_quiet in H as ([validated dep] & s1 & Hval & Hs & H);
    [|auto with quiet].
  apply liftN_inv in Hval as (wv & Hval & _).
  apply run_validate_targets in Hval. subst dep.
  apply Hk in H as [Hc (tid & H)]. split; [exact Hc|].
  exists tid. now rewrite H, Hs.
Qed.

(** X27. A normal end of the script means one deployment: the operator
    agreed to the last question, and exactly one deployment was
    submitted, to one target for each address of the target devices. *)
Theorem main_Done_deploys_once (fuel : nat) (s s' : Session) :
  main DNAC_URL VALID_SNMP_SERVER_HOST VALID_SNMP_SERVER_COMMUNITY
    NEW_CONFIG PROJECT_NAME TEMPLATE_NAME LOCATION_FILTER entropy
    dnac_task_answers dnac_deployment_answers dnac_deploymentId
    dnac_device_location os_listdir open_lines pyzipper_open
    pyzipper_extractall dnac_connect dnac_device_list dnac_export_task
    dnac_projects dnac_create_template working_directory operator fuel s
  = (Done tt, s') ->
  let targets :=
    map deployable_entry
      (keys (run_target_devices LOCATION_FILTER dnac_device_location
               dnac_device_list)) in
  operator (deploy_question targets) = true
  /\ exists template_id,
       submitted (world s')
       = (submitted (world s) ++ [(template_id, targets)])%list.
Proof.
  cbv zeta. intros H. revert H.
  match goal with
  | |- ?c _ = _ -> ?consent /\ (exists tid, _ = (_ ++ [(tid, ?targets)])%list) =>
      assert (Hd : deploys_once consent targets c); [|apply Hd]
  end.
  unfold main, run. cbv zeta.
  repeat match goal with
         | |- deploys_once _ _ (bindN (Confirm_ask _ _) _) => fail 1
         | |- deploys_once _ _ (bindN (lift (run_validate _ _ _ _ _)) _) =>
             apply deploys_once_validate; intros ?; cbn [fst snd]
         | |- deploys_once _ _ (bindN _ _) =>
             apply deploys_once_bind; [auto with quiet | intros ?]
         end.
  apply deploys_once_ask.
  destruct (operator _) eqn:Hop; cbn [negb].
  - intros s1 s2 b H. split; [reflexivity|].
    apply liftN_inv in H as (wd & Hd & ->).
    match type of Hd with
    | deployTemplate ?ans ?did ?f ?tid ?dl ?w0 = _ =>
        exists tid;
        pose proof (deployTemplate_submits_once ans did f tid dl w0) as Hs
    end.
    rewrite Hd in Hs. exact Hs.
  - intros s1 s2 b H. exfalso. now apply print_then_exit_not_Done in H.
Qed.

End SessionProperties.

(** ** downloadFile *)

Lemma length_split (c : ascii) (s : string) :
  List.length (split c s) = S (count_char c s).
Proof.
  unfold count_char. induction s as [|a s IH]; [reflexivity|].
  cbn [split list_ascii_of_string count_occ].
  destruct (Ascii.eqb_spec a c) as [->|Hne].
  - destruct (ascii_dec c c); [|contradiction]. cbn. now rewrite IH.
  - destruct (ascii_dec a c); [contradiction|].
    destruct (split c s) as [|x r]; [discriminate | exact IH].
Qed.

(** X22. The file that [downloadFile] fetches is the fifth component of
    the status URL, counted between slashes: for a URL of four components
    free of slashes, then the identifier, then nothing or a further path,
    exactly the identifier is downloaded. *)
Theorem downloadFile_fifth_component (t : task_status)
    (a b c d id tail : string) (s : Session) :
  additionalStatusURL t
  = a ++ "/" ++ b ++ "/" ++ c ++ "/" ++ d ++ "/" ++ id ++ tail ->
  Forall (fun x => ~ In "/"%char (list_ascii_of_string x)) [a; b; c; d; id] ->
  tail = EmptyString \/ (exists rest, tail = "/" ++ rest) ->
  exists s',
    downloadFile t s = (Done tt, s')
    /\ downloaded s' = (downloaded s ++ [id])%list
    /\ submitted (world s') = submitted (world s).
Proof.
  intros Hurl Hfree Htail. unfold downloadFile. rewrite Hurl.
  inversion Hfree as [|? ? Ha Hf1]; subst.
  inversion Hf1 as [|? ? Hb Hf2]; subst.
  inversion Hf2 as [|? ? Hc Hf3]; subst.
  inversion Hf3 as [|? ? Hd Hf4]; subst.
  inversion Hf4 as [|? ? Hid _]; subst.
  change (a ++ "/" ++ b ++ "/" ++ c ++ "/" ++ d ++ "/" ++ id ++ tail)
    with (a ++ String "/" (b ++ String "/" (c ++ String "/"
            (d ++ String "/" (id ++ tail))))).
  rewrite !split_app_sep by assumption.
  assert (Hnth : exists more, split "/" (id ++ tail) = id :: more).
  { destruct Htail as [->|(rest & ->)].
    - rewrite append_nil_r, (split_no_sep _ _ Hid). now exists [].
    - change (id ++ "/" ++ rest) with (id ++ String "/" rest).
      rewrite (split_app_sep _ _ _ Hid). now eexists. }
  destruct Hnth as (more & ->). cbn [nth_error].
  unfold bindN, lift, download_a_file_by_fileid. cbn.
  eexists. split; [reflexivity|]. cbn. now split.
Qed.

(** X23. A status URL with fewer than four slashes has no fifth
    component: [downloadFile] raises [IndexError] and downloads nothing;
    with four slashes or more it downloads one file and returns. *)
Theorem downloadFile_needs_four_slashes (t : task_status) (s : Session) :
  let r := downloadFile t s in
  if (count_char "/" (additionalStatusURL t) <? 4)%nat
  then fst r = Raised IndexError /\ downloaded (snd r) = downloaded s
  else fst r = Done tt
       /\ exists file_id, downloaded (snd r) = (downloaded s ++ [file_id])%list.
Proof.
  cbv zeta. unfold downloadFile.
  pose proof (length_split "/" (additionalStatusURL t)) as Hlen.
  destruct (Nat.ltb_spec (count_char "/" (additionalStatusURL t)) 4)
    as [Hlt|Hge].
  - assert (Hnone : nth_error (split "/" (additionalStatusURL t)) 4 = None)
      by (apply nth_error_None; lia).
    rewrite Hnone. unfold bindN, lift, raiseN. cbn. now split.
  - destruct (nth_error (split "/" (additionalStatusURL t)) 4)
      as [file_id|] eqn:Hnth.
    + unfold bindN, lift, download_a_file_by_fileid. cbn.
      split; [reflexivity | now exists file_id].
    + apply nth_error_None in Hnth. lia.
Qed.

Lemma downloadFile_fifth_component_scenario :
  exists s',
    downloadFile (export_answers "task-1" 2) initial_session = (Done tt, s')
    /\ downloaded s' = ["5f1c-22a0"].
Proof.
  destruct (downloadFile_fifth_component (export_answers "task-1" 2)
              EmptyString "api" "v1" "file" "5f1c-22a0" EmptyString
              initial_session) as (s' & Hrun & Hd & _).
  - reflexivity.
  - repeat constructor; apply no_char_checked; reflexivity.
  - now left.
  - exists s'. split; [exact Hrun | exact Hd].
Defined.

(** ** createNewTemplate *)

Lemma template_id_of_Some (TEMPLATE_NAME : string)
    (templates : list template_entry) (tid : string) :
  template_id_of TEMPLATE_NAME templates = Some tid ->
  exists t,
    In t templates /\ tpl_name t = TEMPLATE_NAME /\ tpl_id t = tid.
Proof.
  unfold template_id_of.
  assert (H : forall bound,
            fold_left
              (fun template_id template =>
                 if (tpl_name template =? TEMPLATE_NAME)%string
                 then Some (tpl_id template) else template_id)
              templates bound = Some tid ->
            bound = Some tid
            \/ exists t,
                 In t templates /\ tpl_name t = TEMPLATE_NAME
                 /\ tpl_id t = tid).
  { induction templates as [|t templates IH]; intros bound Hb; [now left|].
    cbn [fold_left] in Hb. apply IH in Hb as [Hb|(t' & Hin & Hn & Hi)].
    - destruct (String.eqb_spec (tpl_name t) TEMPLATE_NAME) as [E|_];
        [|now left].
      right. exists t. injection Hb as Hb. repeat split; [now left | easy..].
    - right. exists t'. repeat split; [now right | easy..]. }
  intros Hid. apply H in Hid as [Hid|Hex]; [discriminate | exact Hex].
Qed.

Section CreateTemplate.

Variable PROJECT_NAME : string.
Variable TEMPLATE_NAME : string.
Variable dnac_projects : nat -> string -> list project.
Variable dnac_create_template : template_request -> option exception.
Variable operator : string -> bool.

(** X24. What a normal return of [createNewTemplate] means: both project
    listings held a project; the identifier returned is that of a
    template of the configured name in the first project of the second
    listing, and it is the one version committed; the template was
    created in the first project of the first listing with the payload
    as content, or the creation was refused and the operator chose to
    continue, in which case nothing was created. *)
Theorem createNewTemplate_Done (template_payload : string)
    (device_types : list (string * string)) (s s' : Session)
    (template_id : string) :
  createNewTemplate PROJECT_NAME TEMPLATE_NAME dnac_projects
    dnac_create_template operator template_payload device_types s
  = (Done template_id, s') ->
  exists first0 rest0 first1 rest1 t,
    dnac_projects (project_queries s) PROJECT_NAME = first0 :: rest0
    /\ dnac_projects (S (project_queries s)) PROJECT_NAME = first1 :: rest1
    /\ In t (proj_templates first1)
    /\ tpl_name t = TEMPLATE_NAME
    /\ tpl_id t = template_id
    /\ versioned s' = (versioned s ++ [template_id])%list
    /\ (created s'
        = (created s
           ++ [mkRequest (proj_id first0) TEMPLATE_NAME "IOS-XE" device_types
                 template_payload "2" "VELOCITY"])%list
        \/ (created s' = created s
            /\ dnac_create_template
                 (mkRequest (proj_id first0) TEMPLATE_NAME "IOS-XE"
                    device_types template_payload "2" "VELOCITY")
               = Some ApiError
            /\ operator "Continue" = true)).
Proof.
  unfold createNewTemplate, getProjectID, bindN, lift, get_projects,
    try_except_ApiError, create_template, Confirm_ask, version_template,
    raiseN, retN, exitN.
  cbn.
  destruct (dnac_projects (project_queries s) PROJECT_NAME)
    as [|first0 rest0] eqn:Hp0; [discriminate|].
  cbn.
  destruct (dnac_create_template _) as [[e| | |]|] eqn:Hcreate; cbn;
    try discriminate.
  - destruct (operator "Continue") eqn:Hop; cbn; [|discriminate].
    destruct (dnac_projects (S (project_queries s)) PROJECT_NAME)
      as [|first1 rest1] eqn:Hp1; [discriminate|]. cbn.
    destruct (template_id_of TEMPLATE_NAME (proj_templates first1))
      as [tid|] eqn:Hid; cbn; [|discriminate].
    intros [= <- <-]. apply template_id_of_Some in Hid as (t & Hin & Hn & Hi).
    exists first0, rest0, first1, rest1, t. cbn. repeat split; auto.
  - destruct (dnac_projects (S (project_queries s)) PROJECT_NAME)
      as [|first1 rest1] eqn:Hp1; [discriminate|]. cbn.
    destruct (template_id_of TEMPLATE_NAME (proj_templates first1))
      as [tid|] eqn:Hid; cbn; [|discriminate].
    intros [= <- <-]. apply template_id_of_Some in Hid as (t & Hin & Hn & Hi).
    exists first0, rest0, first1, rest1, t. cbn. repeat split; auto.
Qed.

(** X25. When the creation is refused and the operator declines to
    continue, [createNewTemplate] exits with status 1 after this one
    question: nothing is created and no version is committed. *)
Theorem createNewTemplate_declined (template_payload : string)
    (device_types : list (string * string)) (s : Session)
    (first0 : project) (rest0 : list project) :
  dnac_projects (project_queries s) PROJECT_NAME = first0 :: rest0 ->
  dnac_create_template
    (mkRequest (proj_id first0) TEMPLATE_NAME "IOS-XE" device_types
       template_payload "2" "VELOCITY") = Some ApiError ->
  operator "Continue" = false ->
  exists s',
    createNewTemplate PROJECT_NAME TEMPLATE_NAME dnac_projects
      dnac_create_template operator template_payload device_types s
    = (Exited 1%Z, s')
    /\ created s' = created s
    /\ versioned s' = versioned s
    /\ asked s' = (asked s ++ ["Continue"])%list
    /\ project_queries s' = S (project_queries s).
Proof.
  intros Hp0 Hcreate Hop.
  unfold createNewTemplate, getProjectID, bindN, lift, get_projects,
    try_except_ApiError, create_template, Confirm_ask, version_template,
    raiseN, retN, exitN.
  cbn. rewrite Hp0. cbn. rewrite Hcreate. cbn. rewrite Hop. cbn.
  eexists. split; [reflexivity|]. cbn. repeat split.
Qed.

(** X28. A version is committed only on a normal return, and then only for
    the identifier returned: in every other outcome of
    [createNewTemplate] the committed versions are as before. *)
Theorem createNewTemplate_versions (template_payload : string)
    (device_types : list (string * string)) (s : Session) :
  let r :=
    createNewTemplate PROJECT_NAME TEMPLATE_NAME dnac_projects
      dnac_create_template operator template_payload device_types s in
  match fst r with
  | Done template_id =>
      versioned (snd r) = (versioned s ++ [template_id])%list
  | _ => versioned (snd r) = versioned s
  end.
Proof.
  cbv zeta.
  unfold createNewTemplate, getProjectID, bindN, lift, get_projects,
    try_except_ApiError, create_template, Confirm_ask, version_template,
    raiseN, retN, exitN.
  cbn.
  destruct (dnac_projects (project_queries s) PROJECT_NAME)
    as [|first0 rest0]; [reflexivity|]. cbn.
  destruct (dnac_create_template _) as [[e| | |]|]; cbn; try reflexivity.
  - destruct (operator "Continue"); cbn; [|reflexivity].
    destruct (dnac_projects (S (project_queries s)) PROJECT_NAME)
      as [|first1 rest1]; [reflexivity|]. cbn.
    destruct (template_id_of TEMPLATE_NAME (proj_templates first1));
      reflexivity.
  - destruct (dnac_projects (S (project_queries s)) PROJECT_NAME)
      as [|first1 rest1]; [reflexivity|]. cbn.
    destruct (template_id_of TEMPLATE_NAME (proj_templates first1));
      reflexivity.
Qed.

End CreateTemplate.

Lemma createNewTemplate_Done_scenario :
  exists t,
    In t (proj_templates
            (mkProject "project-1"
               [mkTemplate "old-fix" "template-0";
                mkTemplate "snmp-fix" "template-1"]))
    /\ tpl_name t = "snmp-fix"
    /\ tpl_id t = "template-1".
Proof.
  assert (Hrun : createNewTemplate "lab" "snmp-fix" lab_projects
                   accepts_template agrees "payload" [] initial_session
                 = (Done "template-1",
                    snd (createNewTemplate "lab" "snmp-fix" lab_projects
                           accepts_template agrees "payload" []
                           initial_session)))
    by (vm_compute; reflexivity).
  destruct (createNewTemplate_Done "lab" "snmp-fix" lab_projects
              accepts_template agrees "payload" [] initial_session _
              "template-1" Hrun)
    as (first0 & rest0 & first1 & rest1 & t & _ & Hp1 & Hin & Hn & Hi & _).
  injection Hp1 as <- _. exists t.
  split; [exact Hin|]. split; [exact Hn | exact Hi].
Defined.

Lemma createNewTemplate_declined_scenario :
  exists s',
    createNewTemplate "lab" "snmp-fix" lab_projects rejects_template declines
      "payload" [] initial_session = (Exited 1%Z, s')
    /\ created s' = []
    /\ versioned s' = [].
Proof.
  destruct (createNewTemplate_declined "lab" "snmp-fix" lab_projects
              rejects_template declines "payload" [] initial_session
              (mkProject "project-1" [mkTemplate "old-fix" "template-0"]) []
              eq_refl eq_refl eq_refl)
    as (s' & Hrun & Hc & Hv & _).
  exists s'. split; [exact Hrun|]. split; [exact Hc | exact Hv].
Defined.

Lemma main_no_deployment_without_consent_scenario :
  submitted
    (world
       (snd (main "https://dnac.example" "10.0.0.2" "public"
               "snmp-server host 10.0.0.2 community public" "lab" "snmp-fix"
               [] (fun i => i) export_answers late_success some_deploymentId
               no_location fleet_listdir fleet_lines opens_any extracts_any
               None fleet export_task lab_projects accepts_template
               two_bundles declines 10 initial_session)))
  = [].
Proof.
  apply (main_no_deployment_without_consent "https://dnac.example" "10.0.0.2"
           "public" "snmp-server host 10.0.0.2 community public" "lab"
           "snmp-fix" [] (fun i => i) export_answers late_success
           some_deploymentId no_location fleet_listdir fleet_lines opens_any
           extracts_any None fleet export_task lab_projects accepts_template
           two_bundles declines 10 initial_session).
  intros deployable_devices. reflexivity.
Defined.

Lemma main_Done_deploys_once_scenario :
  agrees
    (deploy_question
       (map deployable_entry (keys (run_target_devices [] no_location fleet))))
  = true
  /\ exists template_id,
       submitted
         (world
            (snd (main "https://dnac.example" "10.0.0.2" "public"
                    "snmp-server host 10.0.0.2 community public" "lab"
                    "snmp-fix" [] (fun i => i) export_answers late_success
                    some_deploymentId no_location fleet_listdir fleet_lines
                    opens_any extracts_any None fleet export_task
                    lab_projects accepts_template two_bundles agrees 10
                    initial_session)))
       = [(template_id,
           map deployable_entry
             (keys (run_target_devices [] no_location fleet)))].
Proof.
  apply (main_Done_deploys_once "https://dnac.example" "10.0.0.2" "public"
           "snmp-server host 10.0.0.2 community public" "lab" "snmp-fix" []
           (fun i => i) export_answers late_success some_deploymentId
           no_location fleet_listdir fleet_lines opens_any extracts_any None
           fleet export_task lab_projects accepts_template two_bundles agrees
           10 initial_session).
  vm_compute. reflexivity.
Defined.

(** ** The text of the template *)

Lemma no_char_append (c : ascii) (a b : string) :
  ~ In c (list_ascii_of_string a) ->
  ~ In c (list_ascii_of_string b) ->
  ~ In c (list_ascii_of_string (a ++ b)).
Proof.
  intros Ha Hb. induction a as [|x a IH]; [exact Hb|].
  cbn. intros [E|Hin].
  - apply Ha. now left.
  - apply IH; [|exact Hin]. intros H. apply Ha. now right.
Qed.

(** X14. When neither the directive, nor the address of a device with
    findings, nor any finding contains a line feed, the lines of the text
    returned are exactly the lines appended: splitting the text at line
    feeds gives the guard blocks and the directive back. *)
Theorem generateTemplatePayload_lines_of_text (NEW_CONFIG : string)
    (device_list : dict device_record) (w : World) :
  ~ In (ascii_of_nat 10) (list_ascii_of_string NEW_CONFIG) ->
  (forall d r items,
     dict_get device_list d = Some r ->
     bad_config r = Some items ->
     ~ In (ascii_of_nat 10) (list_ascii_of_string d)
     /\ forall item, In item items ->
                     ~ In (ascii_of_nat 10) (list_ascii_of_string item)) ->
  exists text,
    fst (generateTemplatePayload NEW_CONFIG device_list w) = Ret text
    /\ split (ascii_of_nat 10) text = template_lines NEW_CONFIG device_list.
Proof.
  intros Hnew Hfree. rewrite generateTemplatePayload_run. cbn [fst].
  eexists. split; [reflexivity|]. unfold LF. apply split_join.
  - rewrite template_lines_blocks. now destruct (flat_map _ _).
  - rewrite template_lines_blocks. apply Forall_app. split.
    + apply Forall_forall. intros line Hin.
      apply in_flat_map in Hin as (k & _ & Hk). unfold template_block in Hk.
      destruct (dict_get device_list k) as [r|] eqn:Hget; [|destruct Hk].
      destruct (bad_config r) as [items|] eqn:Hbad; [|destruct Hk].
      destruct (Hfree k r items Hget Hbad) as [Hk0 Hitems].
      destruct Hk as [<-|Hk].
      * unfold guard_open. apply no_char_append;
          [apply no_char_checked; reflexivity|].
        apply no_char_append; [exact Hk0|].
        apply no_char_checked. reflexivity.
      * apply in_app_or in Hk as [Hk|[<-|[<-|[]]]].
        -- apply in_map_iff in Hk as (item & <- & Hitem).
           unfold negate. apply no_char_append;
             [apply no_char_checked; reflexivity | now apply Hitems].
        -- apply no_char_checked. reflexivity.
        -- intros [].
    + constructor; [exact Hnew | constructor].
Qed.

Lemma generateTemplatePayload_lines_of_text_scenario :
  exists text,
    fst (generateTemplatePayload "snmp-server host 10.0.0.2 community public"
           flagged_device initial_world) = Ret text
    /\ split (ascii_of_nat 10) text
       = ["#if($device_ip == '10.0.0.1')";
          "no snmp-server host 10.0.0.1 community wrongcomm"; "#end";
          EmptyString; "snmp-server host 10.0.0.2 community public"].
Proof.
  apply (generateTemplatePayload_lines_of_text
           "snmp-server host 10.0.0.2 community public" flagged_device
           initial_world).
  - apply no_char_checked. reflexivity.
  - intros d r items Hget Hbad. unfold flagged_device in Hget.
    cbn [dict_get] in Hget.
    destruct (String.eqb_spec d "10.0.0.1") as [->|_]; [|discriminate].
    injection Hget as <-. injection Hbad as <-. split.
    + apply no_char_checked. reflexivity.
    + intros item [<-|[]]. apply no_char_checked. reflexivity.
Defined.
